(** * cv2csv: resume-to-table pipeline

    A shallow embedding of [app.py] and [cv2con.py].  Python [str] values
    are modelled by [string] (one [ascii] per character), Python lists by
    [list], Python dicts by insertion-ordered association lists, and the
    Streamlit calls, raised exceptions and the pause between documents by
    a small writer/exception monad.  The third-party collaborators
    (PyPDF2, docx2txt, the generative model, [json.loads], the wall clock)
    are parameters of the development. *)

From Stdlib Require Import List String Ascii Bool Arith Lia ZArith.
From Stdlib Require Import DecimalString.
From Stdlib Require QArith.
Import ListNotations.
Local Open Scope list_scope.
Local Open Scope string_scope.

Set Implicit Arguments.
Set Warnings "-register-all".

(** ** Python string built-ins *)

Module PyStr.

Definition NL : string := String (ascii_of_nat 10) EmptyString.
Definition DQ : string := String (ascii_of_nat 34) EmptyString.

(** [str.isspace] on the characters with code below 256. *)
Definition isspace (c : ascii) : bool :=
  let n := nat_of_ascii c in
  (((9 <=? n) && (n <=? 13)) || ((28 <=? n) && (n <=? 32))
   || (n =? 133) || (n =? 160))%nat.

(** [str.lower] on the characters with code below 256: the ASCII
    capitals and the Latin-1 capitals (all of 192..222 but the
    multiplication sign 215). *)
Definition lower_char (c : ascii) : ascii :=
  let n := nat_of_ascii c in
  if (((65 <=? n) && (n <=? 90))
      || ((192 <=? n) && (n <=? 222) && negb (n =? 215)))%nat
  then ascii_of_nat (n + 32) else c.

Fixpoint lower (s : string) : string :=
  match s with
  | EmptyString => EmptyString
  | String c s' => String (lower_char c) (lower s')
  end.

Definition is_empty (s : string) : bool :=
  match s with EmptyString => true | _ => false end.

(** Truth value of a [str]: non-empty. *)
Definition truthy (s : string) : bool := negb (is_empty s).

Fixpoint lstrip (s : string) : string :=
  match s with
  | EmptyString => EmptyString
  | String c s' => if isspace c then lstrip s' else s
  end.

Fixpoint rstrip (s : string) : string :=
  match s with
  | EmptyString => EmptyString
  | String c s' =>
      let r := rstrip s' in
      if isspace c && is_empty r then EmptyString else String c r
  end.

(** [s.strip()] *)
Definition strip (s : string) : string := rstrip (lstrip s).

(** [s.startswith(p)] *)
Definition startswith (s p : string) : bool := String.prefix p s.

(** [s[a:-b]] for literal [a], [b] with [b > 0]: the start is clipped
    to the length, the stop is [len s - b] clipped at 0, and the slice
    is empty when the stop does not exceed the start. *)
Definition slice (a b : nat) (s : string) : string :=
  substring a (String.length s - b - a) s.

(** [s.split(sep)] for a one-character separator: never empty. *)
Fixpoint split (sep : ascii) (s : string) : list string :=
  match s with
  | EmptyString => [EmptyString]
  | String c s' =>
      if Ascii.eqb c sep then EmptyString :: split sep s'
      else match split sep s' with
           | [] => [String c EmptyString]
           | h :: t => String c h :: t
           end
  end.

(** [sep.join(parts)] *)
Fixpoint join (sep : string) (parts : list string) : string :=
  match parts with
  | [] => EmptyString
  | [p] => p
  | p :: rest => p ++ sep ++ join sep rest
  end.

(** [x in xs] for a list of strings. *)
Definition mem (x : string) (xs : list string) : bool :=
  existsb (String.eqb x) xs.

End PyStr.

(** ** Python values, dicts, exceptions *)

(** A Python [float]: a finite value (a rational), an infinity or a NaN. *)
Inductive pyfloat : Type :=
| FFinite (q : QArith_base.Q)
| FInf (negative : bool)
| FNan.

(** The values [json.loads] can return; [PyNone] is also what the
    functions of the program return for [None]. *)
Inductive pyval : Type :=
| PyNone
| PyBool (b : bool)
| PyInt (z : Z)
| PyFloat (x : pyfloat)
| PyStr (s : string)
| PyList (items : list pyval)
| PyDict (entries : list (string * pyval)).

(** Truth value of a Python value, as tested by [if v:]. *)
Definition truthy (v : pyval) : bool :=
  match v with
  | PyNone => false
  | PyBool b => b
  | PyInt z => negb (Z.eqb z 0)
  | PyFloat (FFinite q) => negb (Z.eqb (QArith_base.Qnum q) 0)
  | PyFloat _ => true
  | PyStr s => PyStr.truthy s
  | PyList items => match items with [] => false | _ => true end
  | PyDict entries => match entries with [] => false | _ => true end
  end.

(** Insertion-ordered dicts with [str] keys. *)
Module Dict.

Section Ops.
Variable V : Type.

Definition t : Type := list (string * V).

(** [d.get(k)] *)
Fixpoint get (k : string) (d : t) : option V :=
  match d with
  | [] => None
  | (k', v) :: d' => if String.eqb k' k then Some v else get k d'
  end.

(** [d[k] = v]: an existing key keeps its position, a new key goes last. *)
Fixpoint set (k : string) (v : V) (d : t) : t :=
  match d with
  | [] => [(k, v)]
  | (k', v') :: d' =>
      if String.eqb k' k then (k, v) :: d' else (k', v') :: set k v d'
  end.

Definition keys (d : t) : list string := map fst d.

(** [k in d] *)
Definition mem (k : string) (d : t) : bool := PyStr.mem k (keys d).

End Ops.

End Dict.

(** A record of the result set: a dict from keys to Python values. *)
Definition record : Type := Dict.t pyval.

(** A raised exception (a subclass of [Exception]): its class name and
    [str(e)]. *)
Record exn : Type := Exn { exn_type : string; exn_msg : string }.

Inductive res (A : Type) : Type :=
| Ret (a : A)
| Raise (e : exn).

Arguments Ret {A} a.
Arguments Raise {A} e.

(** The value of a computation that returned, [None] if it raised. *)
Definition returned {A : Type} (r : res A) : option A :=
  match r with Ret a => Some a | Raise _ => None end.

(** ** Effects: what the page shows, and the pause between documents *)

Inductive event : Type :=
| st_warning (msg : string)
| st_error (msg : string)
| st_success (msg : string)
| status_text (msg : string)
| st_progress (numerator denominator : nat)
| sidebar_success (msg : string)
| sidebar_error (msg : string)
| st_rerun
| time_sleep_half.

(** A computation returns or raises, and leaves a trace of events. *)
Definition M (A : Type) : Type := (res A * list event)%type.

Definition ret {A : Type} (a : A) : M A := (Ret a, []).

Definition bind {A B : Type} (m : M A) (k : A -> M B) : M B :=
  match m with
  | (Ret a, l) => let (r, l') := k a in (r, (l ++ l')%list)
  | (Raise e, l) => (Raise e, l)
  end.

Definition emit (ev : event) : M unit := (Ret tt, [ev]).

Definition lift {A : Type} (r : res A) : M A := (r, []).

(** [try: body  except Exception as e: handler e] *)
Definition try_except {A : Type} (body : M A) (handler : exn -> M A) : M A :=
  match body with
  | (Raise e, l) => let (r, l') := handler e in (r, (l ++ l')%list)
  | (Ret a, l) => (Ret a, l)
  end.

Notation "x <- m ;; k" := (bind m (fun x => k))
  (at level 61, m at next level, right associativity).
Notation "m ;; k" := (bind m (fun _ => k))
  (at level 61, right associativity).

(** ** The wall clock *)

Record datetime : Type := Datetime {
  year : nat; month : nat; day : nat;
  hour : nat; minute : nat; second : nat; microsecond : nat }.

Definition digit (n : nat) : ascii := ascii_of_nat (48 + n mod 10).

Definition pad2 (n : nat) : string :=
  String (digit (n / 10)) (String (digit n) EmptyString).

Definition pad4 (n : nat) : string :=
  String (digit (n / 1000)) (String (digit (n / 100)) (pad2 n)).

(** [dt.strftime("%Y-%m-%d %H:%M:%S")] *)
Definition strftime_Ymd_HMS (dt : datetime) : string :=
  pad4 (year dt) ++ "-" ++ pad2 (month dt) ++ "-" ++ pad2 (day dt) ++ " "
  ++ pad2 (hour dt) ++ ":" ++ pad2 (minute dt) ++ ":" ++ pad2 (second dt).

(** ** cv2con.py: text extraction *)

(** An uploaded document: [uploaded_file.name] and the bytes that
    [uploaded_file.read()] yields. *)
Record uploaded_file : Type := UploadedFile { name : string; content : string }.

(** The libraries the program calls.  [PdfReader] opens a document and
    gives its pages, each of which yields its text or raises when
    [extract_text] is called on it; a request to the text-generation
    service is answered by the handle passed to the functions below. *)
Record env : Type := Env {
  PdfReader : string -> res (list (res string));
  docx2txt_process : string -> res string;
  json_loads : string -> res pyval;
  datetime_now : nat -> datetime }.

(** [text = ""; for page in pages: text += page.extract_text()] *)
Fixpoint concat_pages (pages : list (res string)) (text : string)
  : res string :=
  match pages with
  | [] => Ret text
  | page :: rest =>
      match page with
      | Ret t => concat_pages rest (text ++ t)
      | Raise e => Raise e
      end
  end.

Section Program.

Variable E : env.

Definition extract_text_from_pdf (f : uploaded_file) : M (option string) :=
  try_except
    (pages <- lift (PdfReader E (content f)) ;;
     text <- lift (concat_pages pages "") ;;
     ret (Some text))
    (fun e =>
       emit (st_error ("Error reading PDF " ++ name f ++ ": " ++ exn_msg e)) ;;
       ret None).

Definition extract_text_from_docx (f : uploaded_file) : M (option string) :=
  try_except
    (text <- lift (docx2txt_process E (content f)) ;;
     ret (Some text))
    (fun e =>
       emit (st_error ("Error reading DOCX " ++ name f ++ ": " ++ exn_msg e)) ;;
       ret None).

(** ** app.py: the field schema *)

Record field : Type := Field {
  field_name : string; description : string; column_name : string }.

(** The body of the add-field form of [render_sidebar]. *)
Definition add_field (submitted : bool)
  (name_input description_input column_input : string)
  (custom_fields : list field) : M (list field) :=
  if submitted then
    if PyStr.truthy name_input && PyStr.truthy description_input
       && PyStr.truthy column_input
    then
      let new_field :=
        {| field_name := PyStr.strip name_input;
           description := PyStr.strip description_input;
           column_name := PyStr.strip column_input |} in
      let existing_names := map field_name custom_fields in
      if negb (PyStr.mem (PyStr.lower name_input) existing_names) then
        emit (sidebar_success ("✅ Added: " ++ column_input)) ;;
        emit st_rerun ;;
        ret (custom_fields ++ [new_field])%list
      else
        emit (sidebar_error "❌ Field name already exists!") ;;
        ret custom_fields
    else ret custom_fields
  else
    emit (sidebar_error "❌ All fields are required!") ;;
    ret custom_fields.

(** ** app.py: the prompt *)

Definition field_line (f : field) : string :=
  "- " ++ field_name f ++ ": " ++ description f.

Definition special_instructions : list string :=
  [ "1. If any field is not found, use 'Not Found' as the value";
    "2. Extract only factual information present in the resume";
    "3. Be precise and consistent with data formats";
    "4. For numeric fields, extract only numbers when possible";
    "5. For date fields, use standard formats (YYYY or MM/YYYY)" ].

Definition build_dynamic_prompt (custom_fields : list field)
  : M (list field * list string * list string) :=
  match custom_fields with
  | [] =>
      emit (st_warning
        "⚠️ Please add fields in the sidebar before processing resumes.") ;;
      ret ([], [], [])
  | _ => ret (custom_fields, map field_line custom_fields, special_instructions)
  end.

(** The f-string of [parse_resume_with_gemma]. *)
Definition prompt_text (field_descriptions instructions : list string)
  (resume_text : string) : string :=
  PyStr.NL
  ++ "Extract the following information from this resume text and return it as a JSON object:"
  ++ PyStr.NL ++ PyStr.NL
  ++ "**Required Fields:**" ++ PyStr.NL
  ++ PyStr.join PyStr.NL field_descriptions ++ PyStr.NL ++ PyStr.NL
  ++ "**Instructions:**" ++ PyStr.NL
  ++ PyStr.join PyStr.NL instructions ++ PyStr.NL ++ PyStr.NL
  ++ "**Output Format:**" ++ PyStr.NL
  ++ "Return only a valid JSON object with the exact field names specified above."
  ++ PyStr.NL ++ PyStr.NL
  ++ "**Resume Text:**" ++ PyStr.NL
  ++ resume_text ++ PyStr.NL ++ PyStr.NL
  ++ "**Response:**" ++ PyStr.NL.

(** ** app.py: the response parser *)

(** The [if]/[elif] that cleans the response text. *)
Definition clean_json_response (json_text : string) : string :=
  if PyStr.startswith json_text "```json" then PyStr.slice 7 3 json_text
  else if PyStr.startswith json_text "```" then PyStr.slice 3 3 json_text
  else json_text.

(** The text [json.loads] is called on, for a response text. *)
Definition deserializer_input (response_text : string) : string :=
  clean_json_response (PyStr.strip response_text).

Definition parse_resume_with_gemma (model : string -> res string)
  (resume_text : string) (custom_fields : list field) : M pyval :=
  match custom_fields with
  | [] => ret PyNone
  | _ =>
      built <- build_dynamic_prompt custom_fields ;;
      let '(_, field_descriptions, instructions) := built in
      let prompt := prompt_text field_descriptions instructions resume_text in
      try_except
        (response_text <- lift (model prompt) ;;
         lift (json_loads E (deserializer_input response_text)))
        (fun e =>
           emit (st_error ("Error parsing resume with Gemma: " ++ exn_msg e)) ;;
           ret PyNone)
  end.

(** ** app.py: the batch processor *)

Definition file_extension (file_name : string) : string :=
  last (PyStr.split "." (PyStr.lower file_name)) EmptyString.

(** [type(v).__name__] *)
Definition type_name (v : pyval) : string :=
  match v with
  | PyNone => "NoneType"
  | PyBool _ => "bool"
  | PyInt _ => "int"
  | PyFloat _ => "float"
  | PyStr _ => "str"
  | PyList _ => "list"
  | PyDict _ => "dict"
  end.

(** [v[key] = x] for a [str] key: only a dict takes it. *)
Definition setitem (v : pyval) (key : string) (x : pyval) : res pyval :=
  match v with
  | PyDict d => Ret (PyDict (Dict.set key x d))
  | PyList _ =>
      Raise (Exn "TypeError" "list indices must be integers or slices, not str")
  | _ =>
      Raise (Exn "TypeError"
               ("'" ++ type_name v ++ "' object does not support item assignment"))
  end.

(** [results.append(parsed_data)]; what is appended is a dict whenever
    the two assignments before it went through. *)
Definition append_result (results : list pyval) (parsed_data : pyval)
  : list pyval := (results ++ [parsed_data])%list.

(** The part of the loop body that follows text extraction. *)
Definition process_text (model : nat -> string -> res string)
  (custom_fields : list field) (total i : nat) (f : uploaded_file)
  (resume_text : option string) (results : list pyval) : M (list pyval) :=
  results' <-
    (match resume_text with
     | Some text =>
         if PyStr.truthy text then
           parsed_data <- parse_resume_with_gemma (model i) text custom_fields ;;
           if truthy parsed_data then
             parsed_data <- lift (setitem parsed_data "file_name" (PyStr (name f))) ;;
             parsed_data <- lift (setitem parsed_data "processed_date"
                               (PyStr (strftime_Ymd_HMS (datetime_now E i)))) ;;
             emit (st_success ("✅ Processed: " ++ name f)) ;;
             ret (append_result results parsed_data)
           else
             emit (st_error ("❌ Failed to process: " ++ name f)) ;;
             ret results
         else ret results
     | None => ret results
     end) ;;
  emit (st_progress (i + 1) total) ;;
  emit time_sleep_half ;;
  ret results'.

(** One iteration of the loop of [process_uploaded_files]. *)
Definition process_document (model : nat -> string -> res string)
  (custom_fields : list field) (total i : nat) (f : uploaded_file)
  (results : list pyval) : M (list pyval) :=
  emit (status_text ("Processing " ++ name f ++ "...")) ;;
  let extension := file_extension (name f) in
  if String.eqb extension "pdf" then
    resume_text <- extract_text_from_pdf f ;;
    process_text model custom_fields total i f resume_text results
  else if PyStr.mem extension ["docx"; "doc"] then
    resume_text <- extract_text_from_docx f ;;
    process_text model custom_fields total i f resume_text results
  else
    emit (st_warning ("Unsupported file type: " ++ name f)) ;;
    ret results.

(** [for i, uploaded_file in enumerate(uploaded_files): ...] *)
Fixpoint for_each (model : nat -> string -> res string)
  (custom_fields : list field) (total i : nat)
  (files : list uploaded_file) (results : list pyval) : M (list pyval) :=
  match files with
  | [] => ret results
  | f :: rest =>
      results' <- process_document model custom_fields total i f results ;;
      for_each model custom_fields total (S i) rest results'
  end.

Definition process_uploaded_files (model : nat -> string -> res string)
  (uploaded_files : list uploaded_file) (custom_fields : list field)
  : M (list pyval) :=
  match custom_fields with
  | [] =>
      emit (st_error "❌ Please add fields in the sidebar before processing.") ;;
      ret []
  | _ =>
      emit (st_progress 0 1) ;;
      results <- for_each model custom_fields (List.length uploaded_files) 0
                   uploaded_files [] ;;
      emit (status_text "Processing complete!") ;;
      ret results
  end.

End Program.

(** ** app.py: the table shown and exported by [main] *)

(** A cell of a frame.  pandas builds one array for each column, from
    the values the records have under the key of the column ([None]
    where a record lacks the key), and chooses the dtype of the array
    from all of them: an [int] next to a missing value is stored as a
    [float], a JSON [null] as [NaN].  What the array holds is the
    library's; a cell is kept here as what determines it: the values
    its column was built from, and the position of its row. *)
Record cell : Type := Cell {
  column_values : list (option pyval);
  row_position : nat }.

(** A pandas DataFrame: its column labels, and one list of cells per
    row. *)
Record DataFrame : Type := Frame {
  columns : list string;
  rows : list (list cell) }.

Definition entries_of (v : pyval) : record :=
  match v with PyDict d => d | _ => [] end.

(** The columns of [pd.DataFrame(list_of_dicts)]: the keys of the
    dicts, each at its first appearance. *)
Definition add_keys (cols : list string) (r : record) : list string :=
  fold_left (fun cols k => if PyStr.mem k cols then cols else (cols ++ [k])%list)
            (Dict.keys r) cols.

Definition union_keys (data : list pyval) : list string :=
  fold_left (fun cols v => add_keys cols (entries_of v)) data [].

Definition pd_DataFrame (data : list pyval) : DataFrame :=
  let cols := union_keys data in
  {| columns := cols;
     rows :=
       map (fun i =>
              map (fun c => Cell (map (fun v => Dict.get c (entries_of v)) data) i)
                  cols)
           (seq 0 (List.length data)) |}.

(** [df.rename(columns=mapping)] *)
Definition rename_label (mapping : Dict.t string) (c : string) : string :=
  match Dict.get c mapping with Some c' => c' | None => c end.

Definition df_rename (mapping : Dict.t string) (df : DataFrame) : DataFrame :=
  {| columns := map (rename_label mapping) (columns df); rows := rows df |}.

(** The positions of a label in a column index. *)
Fixpoint positions (i : nat) (k : string) (cols : list string) : list nat :=
  match cols with
  | [] => []
  | c :: cs =>
      if String.eqb k c then i :: positions (S i) k cs
      else positions (S i) k cs
  end.

(** [df[keys]] for a list of labels: every key must be a column, and
    each key selects every column that carries it. *)
Definition df_getitem (df : DataFrame) (keys : list string) : res DataFrame :=
  if forallb (fun k => PyStr.mem k (columns df)) keys then
    let indexer := flat_map (fun k => positions 0 k (columns df)) keys in
    Ret {| columns := map (fun i => nth i (columns df) EmptyString) indexer;
           rows := map (fun row => map (fun i => nth i row (Cell [] 0)) indexer)
                       (rows df) |}
  else Raise (Exn "KeyError" "not in index").

Definition column_mapping (custom_fields : list field) : Dict.t string :=
  Dict.set "processed_date" "Processed Date"
    (Dict.set "file_name" "File Name"
       (fold_left (fun m f => Dict.set (field_name f) (column_name f) m)
                  custom_fields [])).

Definition display_columns (processed_data : list pyval)
  (custom_fields : list field) : list string :=
  columns (df_rename (column_mapping custom_fields) (pd_DataFrame processed_data)).

Definition column_order (custom_fields : list field)
  (display_cols : list string) : list string :=
  (["File Name"]
   ++ map column_name
        (filter (fun f => PyStr.mem (column_name f) display_cols) custom_fields)
   ++ ["Processed Date"])%list.

Definition existing_columns (custom_fields : list field)
  (display_cols : list string) : list string :=
  filter (fun col => PyStr.mem col display_cols)
         (column_order custom_fields display_cols).

(** The table built under [if processing_complete and processed_data:];
    [None] when the guard is false and no table is built. *)
Definition display_df (processing_complete : bool)
  (processed_data : list pyval) (custom_fields : list field)
  : option (res DataFrame) :=
  if processing_complete
     && match processed_data with [] => false | _ => true end
  then
    let df := pd_DataFrame processed_data in
    let renamed := df_rename (column_mapping custom_fields) df in
    Some (df_getitem renamed (existing_columns custom_fields (columns renamed)))
  else None.

(** ** app.py: the session state *)

Module Session.

(** [st.session_state]: the three keys the page keeps between runs. *)
Record state : Type := State {
  processed_data : list pyval;
  processing_complete : bool;
  custom_fields : list field }.

(** The state of a new session: the three
    [if key not in st.session_state] at the top of the script. *)
Definition initial : state :=
  {| processed_data := []; processing_complete := false; custom_fields := [] |}.

(** [st.session_state.custom_fields = fields] *)
Definition set_custom_fields (fields : list field) (s : state) : state :=
  {| processed_data := processed_data s;
     processing_complete := processing_complete s;
     custom_fields := fields |}.

End Session.

(** ** app.py: the other handlers of [render_sidebar] *)

(** [l.pop(i)] for an index that is not negative: the item and the
    list without it. *)
Definition list_pop (A : Type) (i : nat) (l : list A) : res (A * list A) :=
  match l with
  | [] => Raise (Exn "IndexError" "pop from empty list")
  | _ =>
      match nth_error l i with
      | Some x => Ret (x, (firstn i l ++ skipn (S i) l)%list)
      | None => Raise (Exn "IndexError" "pop index out of range")
      end
  end.

(** The body of [if st.button(..., key=f"del_{i}")]. *)
Definition delete_field (i : nat) (s : Session.state) : M Session.state :=
  popped <- lift (list_pop i (Session.custom_fields s)) ;;
  emit st_rerun ;;
  ret (Session.set_custom_fields (snd popped) s).

(** The loop over the current fields: [button i] tells whether the
    delete button of row [i] was pressed.  [st.rerun()] ends the run of
    the script, so the loop stops at the first button that was. *)
Fixpoint current_fields (button : nat -> bool) (i : nat) (shown : list field)
  (s : Session.state) : M Session.state :=
  match shown with
  | [] => ret s
  | _ :: rest =>
      if button i then delete_field i s
      else current_fields button (S i) rest s
  end.

(** The body of [if st.sidebar.button("Clear All Fields")]. *)
Definition clear_all_fields (s : Session.state) : M Session.state :=
  let s' := {| Session.processed_data := [];
               Session.processing_complete := false;
               Session.custom_fields := [] |} in
  emit st_rerun ;;
  ret s'.

(** The three templates of the sidebar. *)
Definition basic_fields : list field :=
  [ Field "full_name" "Full name of the candidate" "Full Name";
    Field "email_address" "Email address of the candidate" "Email";
    Field "phone_number" "Phone number of the candidate" "Phone";
    Field "current_location" "Current location or address" "Location";
    Field "total_experience" "Total years of work experience" "Experience (Years)";
    Field "current_role" "Current job title or position" "Current Role";
    Field "highest_education" "Highest educational qualification" "Education";
    Field "key_skills" "Technical and professional skills" "Skills" ].

Definition education_fields : list field :=
  [ Field "candidate_name" "Full name of the candidate" "Name";
    Field "contact_email" "Email address" "Email";
    Field "ug_degree" "Undergraduate degree name" "UG Degree";
    Field "ug_college" "Undergraduate college name" "UG College";
    Field "ug_year" "Undergraduate graduation year" "UG Year";
    Field "pg_degree" "Postgraduate degree name" "PG Degree";
    Field "pg_college" "Postgraduate college name" "PG College";
    Field "pg_year" "Postgraduate graduation year" "PG Year";
    Field "cgpa_percentage" "CGPA or percentage mentioned" "CGPA/Percentage" ].

Definition hr_fields : list field :=
  [ Field "applicant_name" "Full name of the applicant" "Applicant Name";
    Field "contact_number" "Contact phone number" "Contact Number";
    Field "email_id" "Email address" "Email ID";
    Field "work_experience" "Total work experience in years" "Work Experience";
    Field "current_salary" "Current salary or CTC" "Current Salary";
    Field "expected_salary" "Expected salary" "Expected Salary";
    Field "notice_period" "Current notice period" "Notice Period";
    Field "current_company" "Current company name" "Current Company";
    Field "preferred_location" "Preferred work location" "Preferred Location" ].

(** The body of a template button: the schema is replaced, the results
    are left as they are. *)
Definition load_template (fields : list field) (s : Session.state)
  : M Session.state :=
  emit st_rerun ;;
  ret (Session.set_custom_fields fields s).

(** ** app.py: the process button and the table of [main] *)

(** [str(n)] for a count. *)
Definition format_nat (n : nat) : string :=
  NilEmpty.string_of_uint (Nat.to_uint n).

(** [process_disabled = not uploaded_files or len(custom_fields) == 0] *)
Definition process_disabled (uploaded_files : list uploaded_file)
  (s : Session.state) : bool :=
  match uploaded_files with [] => true | _ => false end
  || (List.length (Session.custom_fields s) =? 0)%nat.

(** The body of [if st.button("Process All Resumes", ...)]: the state
    the session is left in, and what the run returned and showed.  The
    two assignments before the batch stay when the batch raises.  The
    spinner around the batch is not part of the trace. *)
Definition process_all_resumes (E : env) (model : nat -> string -> res string)
  (uploaded_files : list uploaded_file) (s : Session.state)
  : Session.state * M unit :=
  let s1 := {| Session.processed_data := [];
               Session.processing_complete := false;
               Session.custom_fields := Session.custom_fields s |} in
  match process_uploaded_files E model uploaded_files (Session.custom_fields s1) with
  | (Ret results, shown) =>
      let s2 := {| Session.processed_data := results;
                   Session.processing_complete := true;
                   Session.custom_fields := Session.custom_fields s1 |} in
      (s2,
       (Ret tt,
        (shown
         ++ [if truthy (PyList results)
             then st_success ("✅ Successfully processed "
                              ++ format_nat (List.length results) ++ " resumes!")
             else st_error "❌ No resumes were processed successfully."])%list))
  | (Raise e, shown) => (s1, (Raise e, shown))
  end.

(** The frame that [main] builds for a session state and hands to
    [st.dataframe] ([display_df] at line 384); [None] when the guard is
    false and no frame is built. *)
Definition page_table (s : Session.state) : option (res DataFrame) :=
  display_df (Session.processing_complete s) (Session.processed_data s)
             (Session.custom_fields s).

(** [st.dataframe(display_df, ...)]: the call is the library's and is a
    parameter here; an exception it raises leaves [main].  The result
    is the frame that the page shows. *)
Definition show_table (st_dataframe : DataFrame -> res unit)
  (s : Session.state) : option (res DataFrame) :=
  match page_table s with
  | Some (Ret table) =>
      match st_dataframe table with
      | Ret _ => Some (Ret table)
      | Raise e => Some (Raise e)
      end
  | other => other
  end.

(** ** A reader for JSON documents

    An instance of [json.loads] to run the program on: objects, arrays,
    strings with the two-character escapes, integers and the three
    literals.  Numbers with a fraction or an exponent and [\u] escapes
    are outside this reader (it rejects them), and the position that
    the message of a [JSONDecodeError] carries is left out. *)

Module JsonReader.

Definition is_ws (c : ascii) : bool :=
  let n := nat_of_ascii c in
  ((n =? 32) || (n =? 9) || (n =? 10) || (n =? 13))%nat.

Fixpoint skip_ws (s : string) : string :=
  match s with
  | EmptyString => EmptyString
  | String c s' => if is_ws c then skip_ws s' else s
  end.

Fixpoint drop_trailing_ws (s : string) : string :=
  match s with
  | EmptyString => EmptyString
  | String c s' =>
      let r := drop_trailing_ws s' in
      if is_ws c && PyStr.is_empty r then EmptyString else String c r
  end.

Definition is_digit (c : ascii) : bool :=
  let n := nat_of_ascii c in ((48 <=? n) && (n <=? 57))%nat.

Definition unescape (c : ascii) : option ascii :=
  let n := nat_of_ascii c in
  if (n =? 34)%nat then Some c
  else if (n =? 92)%nat then Some c
  else if (n =? 47)%nat then Some c
  else if (n =? 98)%nat then Some (ascii_of_nat 8)
  else if (n =? 102)%nat then Some (ascii_of_nat 12)
  else if (n =? 110)%nat then Some (ascii_of_nat 10)
  else if (n =? 114)%nat then Some (ascii_of_nat 13)
  else if (n =? 116)%nat then Some (ascii_of_nat 9)
  else None.

(** The characters of a string literal, after its opening quote. *)
Fixpoint read_string (s : string) : option (string * string) :=
  match s with
  | EmptyString => None
  | String c s' =>
      let n := nat_of_ascii c in
      if (n =? 34)%nat then Some (EmptyString, s')
      else if (n <? 32)%nat then None
      else if (n =? 92)%nat then
        match s' with
        | EmptyString => None
        | String e s'' =>
            match unescape e with
            | None => None
            | Some c' =>
                match read_string s'' with
                | None => None
                | Some (t, r) => Some (String c' t, r)
                end
            end
        end
      else
        match read_string s' with
        | None => None
        | Some (t, r) => Some (String c t, r)
        end
  end.

(** The digits at the front of a text, as a number, and what follows. *)
Fixpoint read_digits (s : string) (acc : Z) : Z * string :=
  match s with
  | EmptyString => (acc, s)
  | String c s' =>
      if is_digit c
      then read_digits s' (acc * 10 + Z.of_nat (nat_of_ascii c - 48))%Z
      else (acc, s)
  end.

(** An integer literal: [0], or a non-zero digit and more digits; not
    followed by a fraction or an exponent. *)
Definition read_natural (s : string) : option (Z * string) :=
  match s with
  | EmptyString => None
  | String c s' =>
      if negb (is_digit c) then None
      else
        let '(z, r) :=
          if (nat_of_ascii c =? 48)%nat then (0%Z, s') else read_digits s 0%Z in
        match r with
        | String d _ =>
            let n := nat_of_ascii d in
            if ((n =? 46) || (n =? 101) || (n =? 69))%nat then None
            else Some (z, r)
        | EmptyString => Some (z, r)
        end
  end.

Definition read_literal (word : string) (v : pyval) (s : string)
  : option (pyval * string) :=
  if String.prefix word s
  then Some (v, substring (String.length word)
                          (String.length s - String.length word) s)
  else None.

Fixpoint read_value (fuel : nat) (s : string) : option (pyval * string) :=
  match fuel with
  | O => None
  | S fuel' =>
      match s with
      | EmptyString => None
      | String c s' =>
          let n := nat_of_ascii c in
          if (n =? 91)%nat then
            match skip_ws s' with
            | String c1 r =>
                if (nat_of_ascii c1 =? 93)%nat then Some (PyList [], r)
                else read_elements fuel' (String c1 r) []
            | EmptyString => None
            end
          else if (n =? 123)%nat then
            match skip_ws s' with
            | String c1 r =>
                if (nat_of_ascii c1 =? 125)%nat then Some (PyDict [], r)
                else read_members fuel' (String c1 r) []
            | EmptyString => None
            end
          else if (n =? 34)%nat then
            match read_string s' with
            | Some (t, r) => Some (PyStr t, r)
            | None => None
            end
          else if (n =? 45)%nat then
            match read_natural s' with
            | Some (z, r) => Some (PyInt (- z), r)
            | None => None
            end
          else if is_digit c then
            match read_natural s with
            | Some (z, r) => Some (PyInt z, r)
            | None => None
            end
          else
            match read_literal "null" PyNone s with
            | Some x => Some x
            | None =>
                match read_literal "true" (PyBool true) s with
                | Some x => Some x
                | None => read_literal "false" (PyBool false) s
                end
            end
      end
  end

with read_elements (fuel : nat) (s : string) (acc : list pyval)
  : option (pyval * string) :=
  match fuel with
  | O => None
  | S fuel' =>
      match read_value fuel' s with
      | None => None
      | Some (v, r) =>
          match skip_ws r with
          | String c r' =>
              let n := nat_of_ascii c in
              if (n =? 44)%nat
              then read_elements fuel' (skip_ws r') (acc ++ [v])%list
              else if (n =? 93)%nat then Some (PyList (acc ++ [v])%list, r')
              else None
          | EmptyString => None
          end
      end
  end

with read_members (fuel : nat) (s : string) (acc : list (string * pyval))
  : option (pyval * string) :=
  match fuel with
  | O => None
  | S fuel' =>
      match s with
      | String q s' =>
          if negb (nat_of_ascii q =? 34)%nat then None
          else
            match read_string s' with
            | None => None
            | Some (key, r) =>
                match skip_ws r with
                | String colon r1 =>
                    if negb (nat_of_ascii colon =? 58)%nat then None
                    else
                      match read_value fuel' (skip_ws r1) with
                      | None => None
                      | Some (v, r2) =>
                          match skip_ws r2 with
                          | String c r3 =>
                              let n := nat_of_ascii c in
                              if (n =? 44)%nat
                              then read_members fuel' (skip_ws r3)
                                                (Dict.set key v acc)
                              else if (n =? 125)%nat
                              then Some (PyDict (Dict.set key v acc), r3)
                              else None
                          | EmptyString => None
                          end
                      end
                | EmptyString => None
                end
            end
      | EmptyString => None
      end
  end.

(** Whitespace around the document is skipped; the document must be one
    value and nothing else. *)
Definition loads (s : string) : res pyval :=
  let t := drop_trailing_ws (skip_ws s) in
  match read_value (2 * String.length t + 2) t with
  | Some (v, EmptyString) => Ret v
  | _ => Raise (Exn "JSONDecodeError" "Expecting value")
  end.

End JsonReader.

(** * Statement vocabulary and example inputs *)

(** Strings made of characters that all pass a test. *)
Fixpoint all_chars (p : ascii -> bool) (s : string) : bool :=
  match s with
  | EmptyString => true
  | String c s' => p c && all_chars p s'
  end.

(** ** The response parser *)

(** [s] ends with [suffix]. *)
Definition ends_with (s suffix : string) : bool :=
  (String.length suffix <=? String.length s)%nat
  && String.eqb (substring (String.length s - String.length suffix)
                           (String.length suffix) s) suffix.

(** [s] without its first [n] characters. *)
Definition drop_front (n : nat) (s : string) : string :=
  substring n (String.length s - n) s.

(** [s] without a closing fence, where it ends with one. *)
Definition drop_closing_fence (s : string) : string :=
  if ends_with s "```" then substring 0 (String.length s - 3) s else s.

(** A cleaning that removes fence delimiters only: the opening fence,
    and the closing fence where there is one. *)
Definition fences_only_clean (json_text : string) : string :=
  if PyStr.startswith json_text "```json"
  then drop_closing_fence (drop_front 7 json_text)
  else if PyStr.startswith json_text "```"
  then drop_closing_fence (drop_front 3 json_text)
  else json_text.

(** [json.loads] skips the JSON whitespace (space, tab, line feed,
    carriage return) before and after the document. *)
Definition ignores_json_whitespace (loads : string -> res pyval) : Prop :=
  forall w1 s w2,
    all_chars JsonReader.is_ws w1 = true ->
    all_chars JsonReader.is_ws w2 = true ->
    returned (loads (w1 ++ s ++ w2)) = returned (loads s).

(** A response that wraps a payload in a fence. *)
Definition fence_wrapped (opening payload : string) : string :=
  opening ++ payload ++ "```".

(** A JSON object, with JSON whitespace around it. *)
Definition padded_object (w1 body w2 : string) : string :=
  w1 ++ ("{" ++ body ++ "}") ++ w2.

(** ** Example inputs *)

(** An environment to run the program in: a two-page PDF reader, a DOCX
    converter, the JSON reader above and a fixed clock. *)
Definition example_env : env :=
  {| PdfReader := fun _ => Ret [Ret "Jane Doe "; Ret "jane@example.org"];
     docx2txt_process := fun _ => Ret "John Roe";
     json_loads := JsonReader.loads;
     datetime_now := fun _ => Datetime 2025 3 9 14 5 7 250 |}.

(** The same libraries with a clock that is a second further at each
    document of the batch. *)
Definition ticking_env : env :=
  {| PdfReader := PdfReader example_env;
     docx2txt_process := docx2txt_process example_env;
     json_loads := json_loads example_env;
     datetime_now := fun i => Datetime 2025 3 9 14 5 (7 + i) 250 |}.

(** The members of the object [{"full_name": "Not Found"}]. *)
Definition example_object_body : string :=
  PyStr.DQ ++ "full_name" ++ PyStr.DQ ++ ": " ++ PyStr.DQ ++ "Not Found" ++ PyStr.DQ.

(** ** Text extraction *)

(** The texts of the pages, when every page yields one. *)
Fixpoint page_texts (pages : list (res string)) : option (list string) :=
  match pages with
  | [] => Some []
  | Ret t :: rest =>
      match page_texts rest with
      | Some ts => Some (t :: ts)
      | None => None
      end
  | Raise _ :: _ => None
  end.

(** The exception of the first page that raises. *)
Fixpoint first_failure (pages : list (res string)) : option exn :=
  match pages with
  | [] => None
  | Ret _ :: rest => first_failure rest
  | Raise e :: _ => Some e
  end.

(** A PDF reader whose second page raises. *)
Definition unreadable_second_page_env : env :=
  {| PdfReader := fun _ => Ret [Ret "page one"; Raise (Exn "PdfReadError" "bad page");
                                Ret "page three"];
     docx2txt_process := fun _ => Ret "John Roe";
     json_loads := JsonReader.loads;
     datetime_now := fun _ => Datetime 2025 3 9 14 5 7 250 |}.

(** ** The prompt *)

(** [s.split(chr(10))]: the lines of a text. *)
Definition lines (s : string) : list string :=
  PyStr.split (ascii_of_nat 10) s.

(** A text with no line feed in it. *)
Definition one_line (s : string) : bool :=
  all_chars (fun c => negb (Ascii.eqb c (ascii_of_nat 10))) s.

(** The fixed lines of the f-string of [parse_resume_with_gemma]:
    those before the field lines, those between the field lines and
    the document text, those after the text. *)
Definition head_lines : list string :=
  [ "";
    "Extract the following information from this resume text and return it as a JSON object:";
    "";
    "**Required Fields:**" ].

Definition middle_lines : list string :=
  ([ ""; "**Instructions:**" ]
   ++ special_instructions
   ++ [ "";
        "**Output Format:**";
        "Return only a valid JSON object with the exact field names specified above.";
        "";
        "**Resume Text:**" ])%list.

Definition tail_lines : list string := [ ""; "**Response:**"; "" ].

(** The prompt of a schema and a document text. *)
Definition built_prompt (custom_fields : list field) (resume_text : string)
  : string :=
  prompt_text (map field_line custom_fields) special_instructions resume_text.

(** ** The schema *)

(** Field names are unique up to letter case. *)
Definition ci_unique (custom_fields : list field) : Prop :=
  NoDup (map (fun f => PyStr.lower (field_name f)) custom_fields).

(** ** The batch *)

(** The record appended for a parsed mapping. *)
Definition annotate (d : record) (file_name stamp : string) : record :=
  Dict.set "processed_date" (PyStr stamp)
    (Dict.set "file_name" (PyStr file_name) d).

(** A reading of [datetime.now()]: the ranges of the fields the stamp
    shows, with a year of four digits. *)
Definition clock_reading (dt : datetime) : Prop :=
  1 <= year dt / 1000 <= 9 /\ 1 <= month dt <= 12 /\ 1 <= day dt <= 31
  /\ hour dt < 24 /\ minute dt < 60 /\ second dt < 60.

(** Two readings in the same second of the same day. *)
Definition same_second (dt dt' : datetime) : Prop :=
  year dt = year dt' /\ month dt = month dt' /\ day dt = day dt'
  /\ hour dt = hour dt' /\ minute dt = minute dt' /\ second dt = second dt'.

(** What the two assignments and the [append] make of a parsed value. *)
Definition annotated (E : env) (v : pyval) (i : nat) (f : uploaded_file) : res pyval :=
  match setitem v "file_name" (PyStr (name f)) with
  | Ret v1 =>
      setitem v1 "processed_date" (PyStr (strftime_Ymd_HMS (datetime_now E i)))
  | Raise e => Raise e
  end.

(** A fenced reply whose object has a [file_name] key of its own. *)
Definition example_reply : string :=
  "```json" ++ PyStr.NL
  ++ "{" ++ PyStr.DQ ++ "full_name" ++ PyStr.DQ ++ ": " ++ PyStr.DQ ++ "Jane Doe" ++ PyStr.DQ
  ++ ", " ++ PyStr.DQ ++ "file_name" ++ PyStr.DQ ++ ": " ++ PyStr.DQ ++ "guess.pdf" ++ PyStr.DQ ++ "}"
  ++ PyStr.NL ++ "```".

(** The value appended for document [f] at position [i]: the mapping
    the parser returned for it, annotated. *)
Definition appended_by (E : env) (model : nat -> string -> res string)
  (custom_fields : list field) (f : uploaded_file) (i : nat) (v : pyval)
  : Prop :=
  exists text d,
    d <> []
    /\ fst (parse_resume_with_gemma E (model i) text custom_fields)
       = Ret (PyDict d)
    /\ v = PyDict (annotate d (name f) (strftime_Ymd_HMS (datetime_now E i))).

(** The text the loop reads from a document: the extractor is chosen
    by the extension of the name; there is no text when the document
    is of no supported type or the extractor reported an error. *)
Definition extracted_text (E : env) (f : uploaded_file) : option string :=
  let extension := file_extension (name f) in
  if String.eqb extension "pdf" then
    match fst (extract_text_from_pdf E f) with
    | Ret resume_text => resume_text
    | Raise _ => None
    end
  else if PyStr.mem extension ["docx"; "doc"] then
    match fst (extract_text_from_docx E f) with
    | Ret resume_text => resume_text
    | Raise _ => None
    end
  else None.

(** The value appended for the document [f] at position [i] of the
    batch: the mapping [d] that the parser returned for the text [text]
    of the document, annotated. *)
Definition appended_at (E : env) (model : nat -> string -> res string)
  (custom_fields : list field) (f : uploaded_file) (i : nat)
  (text : string) (d : record) (v : pyval) : Prop :=
  extracted_text E f = Some text
  /\ PyStr.truthy text = true
  /\ d <> []
  /\ fst (parse_resume_with_gemma E (model i) text custom_fields)
     = Ret (PyDict d)
  /\ v = PyDict (annotate d (name f) (strftime_Ymd_HMS (datetime_now E i))).

(** A reply the batch cannot take: a JSON value that is true as a
    condition and is not an object. *)
Definition non_mapping (v : pyval) : Prop :=
  truthy v = true /\ forall d, v <> PyDict d.

(** How one document can end: nothing appended, one annotated mapping
    appended, or a [TypeError] from the assignment to a reply that is
    no mapping. *)
Definition document_ends (E : env) (model : nat -> string -> res string)
  (custom_fields : list field) (i : nat) (f : uploaded_file)
  (results : list pyval) (r : res (list pyval)) : Prop :=
  match r with
  | Ret results' =>
      results' = results
      \/ exists v, results' = (results ++ [v])%list
                   /\ appended_by E model custom_fields f i v
  | Raise e =>
      exn_type e = "TypeError"
      /\ exists text v,
           fst (parse_resume_with_gemma E (model i) text custom_fields) = Ret v
           /\ non_mapping v
  end.

(** A reply whose object has the key [name] only. *)
Definition reply_without_field : string :=
  "{" ++ PyStr.DQ ++ "name" ++ PyStr.DQ ++ ": " ++ PyStr.DQ ++ "Jane Doe" ++ PyStr.DQ ++ "}".

(** A failure message: a warning or an error shown on the page. *)
Definition is_failure_message (ev : event) : bool :=
  match ev with
  | st_warning _ | st_error _ => true
  | _ => false
  end.

(** A PDF reader for scanned pages: every page yields the empty text. *)
Definition scanned_pdf_env : env :=
  {| PdfReader := fun _ => Ret [Ret EmptyString; Ret EmptyString];
     docx2txt_process := fun _ => Ret "John Roe";
     json_loads := JsonReader.loads;
     datetime_now := fun _ => Datetime 2025 3 9 14 5 7 250 |}.

(** ** The table *)

(** The order list of [main] when both meta labels are columns of the
    renamed frame: [File Name], the labels of the schema in schema order
    that are columns of the renamed frame, then [Processed Date]. *)
Definition claimed_columns (processed_data : list pyval)
  (custom_fields : list field) : list string :=
  (["File Name"]
   ++ filter (fun c => PyStr.mem c (display_columns processed_data custom_fields))
             (map column_name custom_fields)
   ++ ["Processed Date"])%list.

(** A field whose name is a key of at least one record. *)
Definition present (processed_data : list pyval) (f : field) : bool :=
  existsb (fun v => Dict.mem (field_name f) (entries_of v)) processed_data.

(** The column order the claim gives, read on the keys of the records:
    [File Name], the column names in schema order of the fields that
    are present in at least one record, then [Processed Date]. *)
Definition claimed_order (processed_data : list pyval)
  (custom_fields : list field) : list string :=
  (["File Name"]
   ++ map column_name (filter (present processed_data) custom_fields)
   ++ ["Processed Date"])%list.

(** The column labels of the frame that is built, when one is. *)
Definition table_columns (processing_complete : bool)
  (processed_data : list pyval) (custom_fields : list field)
  : option (list string) :=
  match display_df processing_complete processed_data custom_fields with
  | Some (Ret table) => Some (columns table)
  | _ => None
  end.

(** A record that carries the two meta keys. *)
Definition has_meta_keys (v : pyval) : Prop :=
  exists r, v = PyDict r
            /\ In "file_name" (Dict.keys r) /\ In "processed_date" (Dict.keys r).

(** A record as the batch appends it. *)
Definition example_record : pyval :=
  PyDict [("full_name", PyStr "Jane Doe"); ("email", PyStr "jane@example.org");
          ("file_name", PyStr "cv.pdf");
          ("processed_date", PyStr "2025-03-09 14:05:07")].

(** ** File names *)

(** A character other than the dot. *)
Definition not_dot (c : ascii) : bool := negb (Ascii.eqb c ".").

(** ** The batch: pace and order *)

(** The documents the loop hands to an extractor. *)
Definition supported (f : uploaded_file) : bool :=
  String.eqb (file_extension (name f)) "pdf"
  || PyStr.mem (file_extension (name f)) ["docx"; "doc"].

(** The events that pace the batch: a step of the progress bar, a pause. *)
Definition is_pace (ev : event) : bool :=
  match ev with
  | st_progress _ _ | time_sleep_half => true
  | _ => false
  end.

(** The steps and pauses of a batch that runs to its end: one of each
    for every supported document, at its position. *)
Fixpoint expected_pace (total i : nat) (files : list uploaded_file)
  : list event :=
  match files with
  | [] => []
  | f :: rest =>
      ((if supported f then [st_progress (i + 1) total; time_sleep_half] else [])
       ++ expected_pace total (S i) rest)%list
  end.

(** What is shown for a document the loop does not read. *)
Definition skipped_trace (f : uploaded_file) : list event :=
  [status_text ("Processing " ++ name f ++ "...");
   st_warning ("Unsupported file type: " ++ name f)].

(** [kept] is [all] with some items left out, the others in order. *)
Inductive subsequence (A : Type) : list A -> list A -> Prop :=
| sub_nil : subsequence [] []
| sub_skip (x : A) (kept all : list A) :
    subsequence kept all -> subsequence kept (x :: all)
| sub_keep (x : A) (kept all : list A) :
    subsequence kept all -> subsequence (x :: kept) (x :: all).

(** [record.get("file_name")] for a value of the result list. *)
Definition file_name_of (v : pyval) : option pyval :=
  Dict.get "file_name" (entries_of v).

(** ** The table: labels and cells *)

(** The last field of the schema with a given name. *)
Definition last_field_named (k : string) (custom_fields : list field)
  : option field :=
  find (fun f => String.eqb (field_name f) k) (rev custom_fields).

(** The key of the records that is shown under a label: the first
    column of the frame that the renaming gives this label. *)
Definition source_key (custom_fields : list field) (keys : list string)
  (label : string) : option string :=
  find (fun c => String.eqb (rename_label (column_mapping custom_fields) c) label)
       keys.

(** The cell of row [i] under a label of the table: row [i] of the
    column built from the values the records have under the key that is
    shown as the label. *)
Definition cell_of (custom_fields : list field) (processed_data : list pyval)
  (i : nat) (label : string) : cell :=
  match source_key custom_fields (union_keys processed_data) label with
  | Some c => Cell (map (fun v => Dict.get c (entries_of v)) processed_data) i
  | None => Cell [] 0
  end.

(** No string occurs twice. *)
Fixpoint distinct (l : list string) : bool :=
  match l with
  | [] => true
  | x :: rest => negb (PyStr.mem x rest) && distinct rest
  end.

(** What [st.dataframe] does with the labels of a frame: it shows a
    frame whose labels are pairwise distinct, and raises on a frame that
    carries a label twice. *)
Definition refuses_repeated_labels (st_dataframe : DataFrame -> res unit)
  : Prop :=
  forall table,
    (distinct (columns table) = true -> st_dataframe table = Ret tt)
    /\ (distinct (columns table) = false ->
        exists e, st_dataframe table = Raise e).

(** An instance of [st.dataframe] to run the examples on. *)
Definition example_st_dataframe (table : DataFrame) : res unit :=
  if distinct (columns table) then Ret tt
  else Raise (Exn "ValueError" "Duplicate column names found").

(** The keys a record may have under a schema: the two meta keys and
    the names of the fields. *)
Definition schema_keys (custom_fields : list field) : list string :=
  "file_name" :: "processed_date" :: map field_name custom_fields.

(** The labels of these keys, in the same order. *)
Definition schema_labels (custom_fields : list field) : list string :=
  "File Name" :: "Processed Date" :: map column_name custom_fields.

(** A schema whose keys are pairwise distinct and whose labels are. *)
Definition well_formed_schema (custom_fields : list field) : bool :=
  distinct (schema_keys custom_fields) && distinct (schema_labels custom_fields).

(** A record with no key outside the schema. *)
Definition in_schema (custom_fields : list field) (v : pyval) : bool :=
  forallb (fun k => PyStr.mem k (schema_keys custom_fields))
          (Dict.keys (entries_of v)).

(** ** The schema: sequences of submissions *)

(** A name in lower case. *)
Definition lowercase (s : string) : Prop := PyStr.lower s = s.

(** A name as the form expects it: in lower case, no blank around it. *)
Definition clean_name (s : string) : Prop :=
  PyStr.lower s = s /\ PyStr.strip s = s.

(** The schema after a sequence of submissions of the add-field form,
    each with its field name, description and column name. *)
Fixpoint submit_all (submissions : list (string * string * string))
  (custom_fields : list field) : list field :=
  match submissions with
  | [] => custom_fields
  | (name_input, description_input, column_input) :: rest =>
      submit_all rest
        (match fst (add_field true name_input description_input column_input
                      custom_fields) with
         | Ret fields => fields
         | Raise _ => custom_fields
         end)
  end.

(** ** The table after a change of schema *)

(** A record none of whose keys, the meta keys apart, is a name or a
    label of the schema. *)
Definition outside_schema (custom_fields : list field) (v : pyval) : bool :=
  forallb (fun k => String.eqb k "file_name" || String.eqb k "processed_date"
                    || negb (PyStr.mem k (schema_keys custom_fields
                                          ++ schema_labels custom_fields)))
          (Dict.keys (entries_of v)).

(** * Properties *)

(** ** Strings *)

Section StringFacts.

Lemma length_app (s t : string) :
  String.length (s ++ t) = String.length s + String.length t.
Proof. induction s as [|c s IH]; simpl; [reflexivity | now rewrite IH]. Qed.

Lemma app_empty_r (s : string) : s ++ EmptyString = s.
Proof. induction s as [|c s IH]; simpl; [reflexivity | now rewrite IH]. Qed.

Lemma app_assoc_s (s t u : string) : (s ++ t) ++ u = s ++ (t ++ u).
Proof. induction s as [|c s IH]; simpl; [reflexivity | now rewrite IH]. Qed.

Lemma substring_front (p c : string) :
  substring 0 (String.length p) (p ++ c) = p.
Proof.
  induction p as [|a p IH]; simpl.
  - destruct c; reflexivity.
  - now rewrite IH.
Qed.

Lemma substring_skip (a s : string) (n : nat) :
  substring (String.length a) n (a ++ s) = substring 0 n s.
Proof. induction a as [|c a IH]; simpl; [reflexivity | exact IH]. Qed.

Lemma substring_whole (s : string) : substring 0 (String.length s) s = s.
Proof. induction s as [|c s IH]; simpl; [reflexivity | now rewrite IH]. Qed.

(** Cutting an opening of [a] characters and a closing of [b]
    characters, when both are there, leaves what lies between. *)
Lemma slice_between (opening p closing : string) :
  PyStr.slice (String.length opening) (String.length closing)
              (opening ++ p ++ closing) = p.
Proof.
  unfold PyStr.slice. rewrite !length_app.
  replace (String.length opening + (String.length p + String.length closing)
           - String.length closing - String.length opening)
    with (String.length p) by lia.
  rewrite substring_skip. apply substring_front.
Qed.

Lemma is_empty_app (s t : string) :
  PyStr.is_empty t = false -> PyStr.is_empty (s ++ t) = false.
Proof. destruct s; simpl; auto. Qed.

End StringFacts.

Section StripFacts.

Lemma json_ws_isspace (c : ascii) :
  JsonReader.is_ws c = true -> PyStr.isspace c = true.
Proof.
  destruct c as [[] [] [] [] [] [] [] []]; vm_compute; congruence.
Qed.

Lemma all_json_ws_isspace (w : string) :
  all_chars JsonReader.is_ws w = true -> all_chars PyStr.isspace w = true.
Proof.
  induction w as [|c w IH]; simpl; [reflexivity|].
  intros H. apply andb_true_iff in H as [Hc Hw].
  now rewrite (json_ws_isspace _ Hc), IH.
Qed.

Lemma lstrip_spaces (w s : string) :
  all_chars PyStr.isspace w = true -> PyStr.lstrip (w ++ s) = PyStr.lstrip s.
Proof.
  induction w as [|c w IH]; simpl; [reflexivity|].
  intros H. apply andb_true_iff in H as [Hc Hw]. rewrite Hc. auto.
Qed.

Lemma rstrip_spaces_only (w : string) :
  all_chars PyStr.isspace w = true -> PyStr.rstrip w = EmptyString.
Proof.
  induction w as [|c w IH]; simpl; [reflexivity|].
  intros H. apply andb_true_iff in H as [Hc Hw].
  now rewrite IH, Hc by assumption.
Qed.

Lemma rstrip_spaces (s w : string) :
  all_chars PyStr.isspace w = true -> PyStr.rstrip (s ++ w) = PyStr.rstrip s.
Proof.
  intros Hw. induction s as [|c s IH]; simpl.
  - now apply rstrip_spaces_only.
  - now rewrite IH.
Qed.

(** A text that ends with a character that is no whitespace has
    nothing to strip on the right. *)
Lemma rstrip_closed (s : string) (c : ascii) :
  PyStr.isspace c = false ->
  PyStr.rstrip (s ++ String c EmptyString) = s ++ String c EmptyString.
Proof.
  intros Hc. induction s as [|a s IH]; simpl.
  - now rewrite Hc.
  - rewrite IH. rewrite is_empty_app by reflexivity.
    now rewrite andb_false_r.
Qed.

Lemma strip_padded (w1 w2 mid : string) (a b : ascii) :
  all_chars PyStr.isspace w1 = true -> all_chars PyStr.isspace w2 = true ->
  PyStr.isspace a = false -> PyStr.isspace b = false ->
  PyStr.strip (w1 ++ (String a mid ++ String b EmptyString) ++ w2)
  = String a mid ++ String b EmptyString.
Proof.
  intros H1 H2 Ha Hb. unfold PyStr.strip.
  rewrite lstrip_spaces by assumption.
  simpl PyStr.lstrip. rewrite Ha.
  change (String a ((mid ++ String b EmptyString) ++ w2))
    with ((String a mid ++ String b EmptyString) ++ w2).
  rewrite rstrip_spaces by assumption.
  change (String a mid ++ String b EmptyString)
    with (String a (mid ++ String b EmptyString)).
  change (String a (mid ++ String b EmptyString))
    with ((String a mid) ++ String b EmptyString).
  now apply rstrip_closed.
Qed.

End StripFacts.

(** ** The response parser (C4, C5) *)

Section ResponseParser.

Lemma prefix_app_l (a b s : string) :
  String.prefix (a ++ b) s = true -> String.prefix a s = true.
Proof.
  revert s. induction a as [|c a IH]; intros s.
  - destruct s; reflexivity.
  - destruct s as [|d s]; cbn -[ascii_dec]; [discriminate|].
    destruct (ascii_dec c d); [apply IH | discriminate].
Qed.

Lemma prefix_app (a s : string) : String.prefix a (a ++ s) = true.
Proof.
  induction a as [|c a IH]; [destruct s; reflexivity|].
  cbn -[ascii_dec]. destruct (ascii_dec c c); [exact IH | congruence].
Qed.

Lemma clean_no_fence (s : string) :
  PyStr.startswith s "```" = false -> clean_json_response s = s.
Proof.
  unfold clean_json_response, PyStr.startswith. intros H.
  destruct (String.prefix "```json" s) eqn:Hj; [|now rewrite H].
  apply (prefix_app_l "```" "json") in Hj. congruence.
Qed.

Lemma clean_tagged_fence (p : string) :
  clean_json_response ("```json" ++ p ++ "```") = p.
Proof.
  unfold clean_json_response.
  replace (PyStr.startswith ("```json" ++ p ++ "```") "```json") with true
    by (symmetry; apply prefix_app).
  exact (slice_between "```json" p "```").
Qed.

Lemma clean_generic_fence (p : string) :
  PyStr.startswith ("```" ++ p ++ "```") "```json" = false ->
  clean_json_response ("```" ++ p ++ "```") = p.
Proof.
  intros Hp. unfold clean_json_response. rewrite Hp.
  replace (PyStr.startswith ("```" ++ p ++ "```") "```") with true
    by (symmetry; apply prefix_app).
  exact (slice_between "```" p "```").
Qed.

End ResponseParser.

(** The cleaning, case by case: the text is trimmed first; with no
    leading fence the trimmed text goes to the deserializer unchanged;
    with a leading fence the first 7 (tagged) or 3 (generic) characters
    and the last 3 characters are cut, whatever the last 3 are; and
    where the text does close with a fence, what is cut is the two
    fences and what remains is the payload. *)
Lemma response_cleaning_by_prefix (response_text : string) :
  let s := PyStr.strip response_text in
  (PyStr.startswith s "```" = false -> deserializer_input response_text = s)
  /\ (PyStr.startswith s "```json" = true ->
      deserializer_input response_text = PyStr.slice 7 3 s)
  /\ (PyStr.startswith s "```json" = false ->
      PyStr.startswith s "```" = true ->
      deserializer_input response_text = PyStr.slice 3 3 s)
  /\ (forall p, s = "```json" ++ p ++ "```" ->
      deserializer_input response_text = p)
  /\ (forall p, s = "```" ++ p ++ "```" ->
      PyStr.startswith s "```json" = false ->
      deserializer_input response_text = p).
Proof.
  intros s. unfold deserializer_input. fold s.
  repeat split.
  - apply clean_no_fence.
  - intros H. unfold clean_json_response. now rewrite H.
  - intros H1 H2. unfold clean_json_response. now rewrite H1, H2.
  - intros p ->. apply clean_tagged_fence.
  - intros p Hs Hp. rewrite Hs in *. now apply clean_generic_fence.
Qed.

(** A text between two fences, with blanks around them. *)
Example closed_fence_leaves_payload :
  deserializer_input (" ```json" ++ PyStr.NL ++ "{}" ++ PyStr.NL ++ "``` ")
  = PyStr.NL ++ "{}" ++ PyStr.NL.
Proof. reflexivity. Qed.

Section Idempotence.

Variable E : env.
Hypothesis loads_ws : ignores_json_whitespace (json_loads E).

Lemma strip_fence_wrapped (opening payload : string) :
  opening = "```json" \/ opening = "```" ->
  PyStr.strip (fence_wrapped opening payload) = fence_wrapped opening payload.
Proof.
  intros Ho. unfold fence_wrapped, PyStr.strip.
  assert (Hl : PyStr.lstrip (opening ++ payload ++ "```")
               = opening ++ payload ++ "```")
    by (destruct Ho; subst; reflexivity).
  rewrite Hl.
  change "```" with ("``" ++ String "`" EmptyString).
  rewrite <- !app_assoc_s.
  apply rstrip_closed. reflexivity.
Qed.

Lemma padded_object_not_tag (w1 body w2 rest : string) (tag : string) :
  all_chars JsonReader.is_ws w1 = true ->
  String.prefix (String "j" tag) (padded_object w1 body w2 ++ rest) = false.
Proof.
  intros Hw. unfold padded_object.
  destruct w1 as [|c w1]; cbn -[ascii_dec].
  - destruct (ascii_dec "j" "{"); [discriminate | reflexivity].
  - destruct (ascii_dec "j" c) as [<-|]; [|reflexivity].
    simpl in Hw. discriminate.
Qed.

Lemma prefix_app_same (a b s : string) :
  String.prefix (a ++ b) (a ++ s) = String.prefix b s.
Proof.
  induction a as [|c a IH]; [reflexivity|].
  cbn -[ascii_dec]. destruct (ascii_dec c c); [exact IH | congruence].
Qed.

(** What the deserializer is given for a fence-wrapped object: the
    payload between the fences. *)
Lemma deserializer_input_wrapped (opening w1 body w2 : string) :
  opening = "```json" \/ opening = "```" ->
  all_chars JsonReader.is_ws w1 = true ->
  deserializer_input (fence_wrapped opening (padded_object w1 body w2))
  = padded_object w1 body w2.
Proof.
  intros Ho Hw1. unfold deserializer_input.
  rewrite strip_fence_wrapped by assumption.
  unfold fence_wrapped. destruct Ho; subst opening.
  - apply clean_tagged_fence.
  - apply clean_generic_fence.
    unfold PyStr.startswith.
    rewrite (prefix_app_same "```" "json").
    apply padded_object_not_tag; assumption.
Qed.

(** What the deserializer is given for the payload alone: the object,
    its padding trimmed. *)
Lemma deserializer_input_payload (w1 body w2 : string) :
  all_chars JsonReader.is_ws w1 = true ->
  all_chars JsonReader.is_ws w2 = true ->
  deserializer_input (padded_object w1 body w2) = "{" ++ body ++ "}".
Proof.
  intros H1 H2. unfold deserializer_input, padded_object.
  change ("{" ++ body ++ "}") with (String "{" body ++ String "}" EmptyString).
  rewrite strip_padded;
    try reflexivity; apply all_json_ws_isspace; assumption.
Qed.

(** The value [parse_resume_with_gemma] returns is decided by what
    [json.loads] returns on the cleaned response. *)
Lemma parse_value_of_response (response_text resume_text : string)
  (f : field) (fields : list field) :
  fst (parse_resume_with_gemma E (fun _ => Ret response_text) resume_text
         (f :: fields))
  = Ret match returned (json_loads E (deserializer_input response_text)) with
        | Some v => v
        | None => PyNone
        end.
Proof.
  unfold parse_resume_with_gemma, build_dynamic_prompt, bind, ret, lift,
    try_except, emit. simpl.
  destruct (json_loads E (deserializer_input response_text)); reflexivity.
Qed.

End Idempotence.

(** C5: parsing the payload of a fence-wrapped JSON object gives what
    parsing the wrapped response gives. *)
Theorem parse_idempotent_on_stripped (E : env)
  (opening w1 body w2 resume_text : string) (custom_fields : list field) :
  ignores_json_whitespace (json_loads E) ->
  opening = "```json" \/ opening = "```" ->
  all_chars JsonReader.is_ws w1 = true ->
  all_chars JsonReader.is_ws w2 = true ->
  fst (parse_resume_with_gemma E
         (fun _ => Ret (padded_object w1 body w2)) resume_text custom_fields)
  = fst (parse_resume_with_gemma E
           (fun _ => Ret (fence_wrapped opening (padded_object w1 body w2)))
           resume_text custom_fields).
Proof.
  intros Hloads Ho H1 H2.
  destruct custom_fields as [|f fields]; [reflexivity|].
  rewrite !parse_value_of_response.
  rewrite deserializer_input_wrapped, deserializer_input_payload by assumption.
  unfold padded_object.
  now rewrite (Hloads w1 ("{" ++ body ++ "}") w2 H1 H2).
Qed.

(** ** The JSON reader skips surrounding whitespace *)

Section ReaderFacts.

Lemma skip_ws_spaces (w s : string) :
  all_chars JsonReader.is_ws w = true ->
  JsonReader.skip_ws (w ++ s) = JsonReader.skip_ws s.
Proof.
  induction w as [|c w IH]; simpl; [reflexivity|].
  intros H. apply andb_true_iff in H as [Hc Hw]. rewrite Hc. auto.
Qed.

Lemma skip_ws_app_r (s w : string) :
  JsonReader.skip_ws (s ++ w) = JsonReader.skip_ws s ++ w
  \/ (JsonReader.skip_ws s = EmptyString
      /\ JsonReader.skip_ws (s ++ w) = JsonReader.skip_ws w).
Proof.
  induction s as [|c s IH]; simpl.
  - right. split; reflexivity.
  - destruct (JsonReader.is_ws c); [exact IH | left; reflexivity].
Qed.

Lemma drop_trailing_spaces_only (w : string) :
  all_chars JsonReader.is_ws w = true ->
  JsonReader.drop_trailing_ws w = EmptyString.
Proof.
  induction w as [|c w IH]; simpl; [reflexivity|].
  intros H. apply andb_true_iff in H as [Hc Hw].
  now rewrite IH, Hc by assumption.
Qed.

Lemma drop_trailing_spaces (s w : string) :
  all_chars JsonReader.is_ws w = true ->
  JsonReader.drop_trailing_ws (s ++ w) = JsonReader.drop_trailing_ws s.
Proof.
  intros Hw. induction s as [|c s IH]; simpl.
  - now apply drop_trailing_spaces_only.
  - now rewrite IH.
Qed.

Lemma reader_trim_padded (w1 s w2 : string) :
  all_chars JsonReader.is_ws w1 = true ->
  all_chars JsonReader.is_ws w2 = true ->
  JsonReader.drop_trailing_ws (JsonReader.skip_ws (w1 ++ s ++ w2))
  = JsonReader.drop_trailing_ws (JsonReader.skip_ws s).
Proof.
  intros H1 H2. rewrite skip_ws_spaces by assumption.
  destruct (skip_ws_app_r s w2) as [-> | [Hs ->]].
  - now apply drop_trailing_spaces.
  - rewrite Hs. rewrite <- (app_empty_r w2).
    rewrite skip_ws_spaces by assumption. reflexivity.
Qed.

Lemma reader_ignores_whitespace : ignores_json_whitespace JsonReader.loads.
Proof.
  intros w1 s w2 H1 H2. unfold JsonReader.loads.
  now rewrite reader_trim_padded.
Qed.

End ReaderFacts.

Lemma parse_idempotent_on_stripped_witness :
  fst (parse_resume_with_gemma example_env
         (fun _ => Ret (padded_object PyStr.NL example_object_body PyStr.NL))
         "Jane Doe" [Field "full_name" "Full name" "Full Name"])
  = fst (parse_resume_with_gemma example_env
           (fun _ => Ret (fence_wrapped "```json"
                            (padded_object PyStr.NL example_object_body PyStr.NL)))
           "Jane Doe" [Field "full_name" "Full name" "Full Name"]).
Proof.
  apply (@parse_idempotent_on_stripped example_env "```json" PyStr.NL
           example_object_body PyStr.NL "Jane Doe"
           [Field "full_name" "Full name" "Full Name"]).
  - exact reader_ignores_whitespace.
  - left; reflexivity.
  - reflexivity.
  - reflexivity.
Defined.

Example parse_wrapped_example :
  fst (parse_resume_with_gemma example_env
         (fun _ => Ret (fence_wrapped "```json"
                          (padded_object PyStr.NL example_object_body PyStr.NL)))
         "Jane Doe" [Field "full_name" "Full name" "Full Name"])
  = Ret (PyDict [("full_name", PyStr "Not Found")]).
Proof. reflexivity. Qed.

(** ** Text extraction from a PDF (C6) *)

Section Extraction.

Variable E : env.

Lemma concat_pages_ok (pages : list (res string)) (ts : list string)
  (text : string) :
  page_texts pages = Some ts ->
  concat_pages pages text = Ret (text ++ String.concat EmptyString ts).
Proof.
  revert ts text. induction pages as [|[t|e] rest IH]; intros ts text H.
  - injection H as <-. simpl. now rewrite app_empty_r.
  - simpl in H. destruct (page_texts rest) as [ts'|] eqn:Hr; [|discriminate].
    injection H as <-. simpl concat_pages. rewrite (IH ts') by reflexivity.
    f_equal. rewrite app_assoc_s. f_equal.
    destruct ts' as [|t' ts']; simpl; [now rewrite app_empty_r | reflexivity].
  - discriminate.
Qed.

Lemma concat_pages_fails (pages : list (res string)) (e : exn)
  (text : string) :
  first_failure pages = Some e -> concat_pages pages text = Raise e.
Proof.
  revert text. induction pages as [|[t|e'] rest IH]; intros text H.
  - discriminate.
  - simpl. now apply IH.
  - simpl in *. congruence.
Qed.

Lemma page_texts_or_failure (pages : list (res string)) :
  (exists ts, page_texts pages = Some ts /\ first_failure pages = None)
  \/ (exists e, first_failure pages = Some e /\ page_texts pages = None).
Proof.
  induction pages as [|[t|e] rest IH]; simpl.
  - left. now exists [].
  - destruct IH as [[ts [-> Hf]] | [e [Hf ->]]].
    + left. now exists (t :: ts).
    + right. now exists e.
  - right. now exists e.
Qed.

End Extraction.

(** C6: the text of a PDF is the texts of its pages, in page order, put
    end to end with nothing between them; when a page cannot be read
    the document yields no text at all, and an error that names the
    document is shown. *)
Theorem pdf_text_is_all_pages_or_nothing (E : env) (f : uploaded_file)
  (pages : list (res string)) :
  PdfReader E (content f) = Ret pages ->
  (forall ts, page_texts pages = Some ts ->
     extract_text_from_pdf E f = (Ret (Some (String.concat EmptyString ts)), []))
  /\ (forall e, first_failure pages = Some e ->
        extract_text_from_pdf E f
        = (Ret None,
           [st_error ("Error reading PDF " ++ name f ++ ": " ++ exn_msg e)])).
Proof.
  intros Hopen. split.
  - intros ts Hts. unfold extract_text_from_pdf, try_except, bind, lift, ret.
    rewrite Hopen. simpl.
    now rewrite (concat_pages_ok pages EmptyString Hts).
  - intros e He. unfold extract_text_from_pdf, try_except, bind, lift, ret, emit.
    rewrite Hopen. simpl.
    now rewrite (concat_pages_fails pages EmptyString He).
Qed.

Lemma pdf_text_is_all_pages_or_nothing_witness :
  extract_text_from_pdf example_env (UploadedFile "cv.pdf" "%PDF")
  = (Ret (Some "Jane Doe jane@example.org"), [])
  /\ extract_text_from_pdf unreadable_second_page_env (UploadedFile "cv.pdf" "%PDF")
     = (Ret None, [st_error "Error reading PDF cv.pdf: bad page"]).
Proof.
  split.
  - apply (proj1 (@pdf_text_is_all_pages_or_nothing example_env
                    (UploadedFile "cv.pdf" "%PDF")
                    [Ret "Jane Doe "; Ret "jane@example.org"] eq_refl)
             ["Jane Doe "; "jane@example.org"]).
    reflexivity.
  - apply (proj2 (@pdf_text_is_all_pages_or_nothing unreadable_second_page_env
                    (UploadedFile "cv.pdf" "%PDF")
                    [Ret "page one"; Raise (Exn "PdfReadError" "bad page");
                     Ret "page three"] eq_refl)
             (Exn "PdfReadError" "bad page")).
    reflexivity.
Defined.

(** ** The schema (C3) *)

Section Schema.

Lemma mem_In (x : string) (xs : list string) :
  PyStr.mem x xs = true <-> In x xs.
Proof.
  unfold PyStr.mem. rewrite existsb_exists. split.
  - intros [y [Hy He]]. apply String.eqb_eq in He. now subst.
  - intros H. exists x. split; [assumption | apply String.eqb_refl].
Qed.

Lemma mem_false_not_In (x : string) (xs : list string) :
  PyStr.mem x xs = false <-> ~ In x xs.
Proof.
  rewrite <- mem_In. destruct (PyStr.mem x xs); split; congruence.
Qed.

(** Where the test of the form does keep names apart: every name
    already in the schema is in lower case, and the new name has no
    blanks around it. *)
Lemma add_field_keeps_lowercase_schema_unique
  (name_input description_input column_input : string)
  (custom_fields fields' : list field) :
  Forall (fun f => PyStr.lower (field_name f) = field_name f) custom_fields ->
  PyStr.strip name_input = name_input ->
  ci_unique custom_fields ->
  fst (add_field true name_input description_input column_input custom_fields)
  = Ret fields' ->
  ci_unique fields'.
Proof.
  intros Hlow Hstrip Huniq. unfold add_field.
  destruct (PyStr.truthy name_input && PyStr.truthy description_input
            && PyStr.truthy column_input);
    [|simpl; intros H; injection H as <-; exact Huniq].
  destruct (PyStr.mem (PyStr.lower name_input) (map field_name custom_fields))
    eqn:Hmem; simpl; intros H; injection H as <-; [exact Huniq|].
  unfold ci_unique. rewrite map_app. simpl. rewrite Hstrip.
  apply mem_false_not_In in Hmem.
  assert (Hsame : map (fun f => PyStr.lower (field_name f)) custom_fields
                  = map field_name custom_fields).
  { clear -Hlow. induction Hlow as [|f fs Hf _ IH]; simpl; [reflexivity|].
    now rewrite Hf, IH. }
  apply NoDup_app; [exact Huniq | repeat constructor; intros [] | ].
  intros x Hx [<-|[]]. rewrite Hsame in Hx. contradiction.
Qed.

End Schema.

(** C3 on the code: the form compares the new name in lower case with
    the names as they are stored, so a name with a capital letter is
    accepted a second time and the schema holds it twice. *)
Theorem add_field_accepts_same_name_twice :
  ci_unique [Field "Name" "Full name" "Name"]
  /\ add_field true "Name" "Name of the candidate" "Candidate"
       [Field "Name" "Full name" "Name"]
     = (Ret [Field "Name" "Full name" "Name";
             Field "Name" "Name of the candidate" "Candidate"],
        [sidebar_success "✅ Added: Candidate"; st_rerun])
  /\ ~ ci_unique [Field "Name" "Full name" "Name";
                  Field "Name" "Name of the candidate" "Candidate"].
Proof.
  split; [|split].
  - repeat constructor. intros [].
  - reflexivity.
  - unfold ci_unique. simpl. intros H. inversion H as [|x l Hin _]; subst.
    apply Hin. now left.
Qed.

(** ** Dicts *)

Section DictFacts.

Variable V : Type.

Lemma get_set_same (k : string) (v : V) (d : Dict.t V) :
  Dict.get k (Dict.set k v d) = Some v.
Proof.
  induction d as [|[k' v'] d IH]; simpl.
  - now rewrite String.eqb_refl.
  - destruct (String.eqb k' k) eqn:He; simpl.
    + now rewrite String.eqb_refl.
    + now rewrite He.
Qed.

Lemma get_set_other (k k0 : string) (v : V) (d : Dict.t V) :
  k0 <> k -> Dict.get k0 (Dict.set k v d) = Dict.get k0 d.
Proof.
  intros Hne. induction d as [|[k' v'] d IH]; simpl.
  - destruct (String.eqb_spec k k0); [congruence | reflexivity].
  - destruct (String.eqb_spec k' k) as [->|Hk]; simpl.
    + destruct (String.eqb_spec k k0); [congruence|].
      destruct (String.eqb_spec k k0); [congruence | reflexivity].
    + now rewrite IH.
Qed.

Lemma keys_set (k : string) (v : V) (d : Dict.t V) :
  Dict.keys (Dict.set k v d)
  = if Dict.mem k d then Dict.keys d else (Dict.keys d ++ [k])%list.
Proof.
  unfold Dict.mem, Dict.keys, PyStr.mem.
  induction d as [|[k' v'] d IH]; simpl; [reflexivity|].
  rewrite (String.eqb_sym k k').
  destruct (String.eqb k' k) eqn:He; simpl.
  - apply String.eqb_eq in He. now subst.
  - rewrite IH. now destruct (existsb (String.eqb k) (map fst d)).
Qed.

Lemma In_keys_set (k k0 : string) (v : V) (d : Dict.t V) :
  In k0 (Dict.keys (Dict.set k v d)) <-> k0 = k \/ In k0 (Dict.keys d).
Proof.
  rewrite keys_set. unfold Dict.mem.
  destruct (PyStr.mem k (Dict.keys d)) eqn:Hm.
  - apply mem_In in Hm. split; [tauto|]. intros [->|H]; assumption.
  - rewrite in_app_iff. simpl. split; intros H; intuition congruence.
Qed.

End DictFacts.

(** ** One document of the batch *)

Section Monad.

Lemma fst_bind (A B : Type) (m : M A) (k : A -> M B) :
  fst (bind m k)
  = match fst m with Ret a => fst (k a) | Raise e => Raise e end.
Proof.
  destruct m as [[a|e] l]; simpl; [destruct (k a)|]; reflexivity.
Qed.

Lemma snd_bind (A B : Type) (m : M A) (k : A -> M B) :
  snd (bind m k)
  = match fst m with
    | Ret a => (snd m ++ snd (k a))%list
    | Raise e => snd m
    end.
Proof.
  destruct m as [[a|e] l]; simpl; [destruct (k a)|]; reflexivity.
Qed.

End Monad.

Section Document.

Variable E : env.
Variable model : nat -> string -> res string.
Variable custom_fields : list field.

(** The parser never raises: a failure of the service or of the
    deserializer comes back as [None]. *)
Lemma parse_never_raises (reply : string -> res string) (text : string) :
  exists v, fst (parse_resume_with_gemma E reply text custom_fields) = Ret v.
Proof.
  unfold parse_resume_with_gemma.
  destruct custom_fields as [|f fields]; [now exists PyNone|].
  unfold build_dynamic_prompt, bind, ret, try_except, lift, emit. simpl.
  destruct (reply _) as [r|e]; simpl; [|now exists PyNone].
  destruct (json_loads E (deserializer_input r)) as [v|e]; simpl;
    [now exists v | now exists PyNone].
Qed.

Lemma process_text_result (total i : nat) (f : uploaded_file)
  (text : string) (results : list pyval) (v : pyval) :
  PyStr.truthy text = true ->
  fst (parse_resume_with_gemma E (model i) text custom_fields) = Ret v ->
  fst (process_text E model custom_fields total i f (Some text) results)
  = if truthy v then
      match annotated E v i f with
      | Ret v' => Ret (results ++ [v'])%list
      | Raise e => Raise e
      end
    else Ret results.
Proof.
  intros Ht Hv. unfold process_text. rewrite Ht.
  rewrite fst_bind. rewrite fst_bind. rewrite Hv.
  unfold annotated.
  destruct (truthy v); [|reflexivity].
  rewrite fst_bind. unfold lift at 1. cbn [fst].
  destruct (setitem v "file_name" (PyStr (name f))) as [v1|e]; [|reflexivity].
  rewrite fst_bind. unfold lift at 1. cbn [fst].
  destruct (setitem v1 "processed_date" _) as [v2|e]; reflexivity.
Qed.

Lemma process_text_skips (total i : nat) (f : uploaded_file)
  (resume_text : option string) (results : list pyval) :
  match resume_text with Some text => PyStr.truthy text = false | None => True end ->
  process_text E model custom_fields total i f resume_text results
  = (Ret results, [st_progress (i + 1) total; time_sleep_half]).
Proof.
  intros H. unfold process_text.
  destruct resume_text as [text|]; [rewrite H|]; reflexivity.
Qed.

Lemma annotated_dict (d : record) (i : nat) (f : uploaded_file) :
  annotated E (PyDict d) i f
  = Ret (PyDict (annotate d (name f) (strftime_Ymd_HMS (datetime_now E i)))).
Proof. reflexivity. Qed.

Lemma annotated_not_dict (v : pyval) (i : nat) (f : uploaded_file) :
  (forall d, v <> PyDict d) ->
  exists msg, annotated E v i f = Raise (Exn "TypeError" msg).
Proof.
  intros H. destruct v; unfold annotated; simpl; eauto.
  now destruct (H entries).
Qed.

End Document.

(** The stamp has the resolution of a second: the microseconds of the
    clock reading do not show in it. *)
Lemma stamp_second_resolution (y mo d h mi s us us' : nat) :
  strftime_Ymd_HMS (Datetime y mo d h mi s us)
  = strftime_Ymd_HMS (Datetime y mo d h mi s us').
Proof. reflexivity. Qed.

Lemma stamp_length (dt : datetime) : String.length (strftime_Ymd_HMS dt) = 19.
Proof. reflexivity. Qed.

(** ** The batch (C1, C8, C9) *)

Section Batch.

Variable E : env.
Variable model : nat -> string -> res string.
Variable custom_fields : list field.

Lemma extract_pdf_never_raises (f : uploaded_file) :
  exists o, fst (extract_text_from_pdf E f) = Ret o.
Proof.
  unfold extract_text_from_pdf, try_except, bind, lift, ret, emit.
  destruct (PdfReader E (content f)) as [pages|e]; simpl; [|eauto].
  destruct (concat_pages pages "") as [t|e]; simpl; eauto.
Qed.

Lemma extract_docx_never_raises (f : uploaded_file) :
  exists o, fst (extract_text_from_docx E f) = Ret o.
Proof.
  unfold extract_text_from_docx, try_except, bind, lift, ret, emit.
  destruct (docx2txt_process E (content f)) as [t|e]; simpl; eauto.
Qed.

Lemma process_text_ends (total i : nat) (f : uploaded_file)
  (resume_text : option string) (results : list pyval) :
  document_ends E model custom_fields i f results
    (fst (process_text E model custom_fields total i f resume_text results)).
Proof.
  destruct resume_text as [text|];
    [|rewrite process_text_skips by exact I; left; reflexivity].
  destruct (PyStr.truthy text) eqn:Ht;
    [|rewrite process_text_skips by exact Ht; left; reflexivity].
  destruct (parse_never_raises E custom_fields (model i) text) as [v Hv].
  rewrite (@process_text_result E model custom_fields total i f text results v Ht Hv).
  destruct (truthy v) eqn:Htv; [|left; reflexivity].
  destruct v as [| b | z | x | s | items | d];
    try (simpl; split; [reflexivity|]; eexists; eexists; split;
         [exact Hv | split; [exact Htv | intros d' Hd; discriminate]]).
  rewrite annotated_dict. right. eexists. split; [reflexivity|].
  exists text, d. repeat split; try assumption.
  destruct d; discriminate.
Qed.

Lemma process_document_ends (total i : nat) (f : uploaded_file)
  (results : list pyval) :
  document_ends E model custom_fields i f results
    (fst (process_document E model custom_fields total i f results)).
Proof.
  unfold process_document. rewrite fst_bind. cbn [fst emit].
  destruct (String.eqb (file_extension (name f)) "pdf").
  - rewrite fst_bind.
    destruct (extract_pdf_never_raises f) as [o ->]. apply process_text_ends.
  - destruct (PyStr.mem (file_extension (name f)) ["docx"; "doc"]).
    + rewrite fst_bind.
      destruct (extract_docx_never_raises f) as [o ->]. apply process_text_ends.
    + left. reflexivity.
Qed.

(** The results of the loop: what was there, then values appended for
    documents of the batch. *)
Lemma for_each_results (total : nat) (files : list uploaded_file) :
  forall (i : nat) (results results' : list pyval),
    fst (for_each E model custom_fields total i files results) = Ret results' ->
    exists new,
      results' = (results ++ new)%list
      /\ Forall (fun v => exists f j, In f files
                                     /\ appended_by E model custom_fields f j v)
                new.
Proof.
  induction files as [|f rest IH]; intros i results results' H.
  - simpl in H. injection H as <-. exists []. split; [now rewrite app_nil_r|constructor].
  - simpl in H. rewrite fst_bind in H.
    pose proof (process_document_ends total i f results) as Hdoc.
    destruct (fst (process_document E model custom_fields total i f results))
      as [mid|e]; [|discriminate].
    destruct (IH _ _ _ H) as [new [-> Hnew]].
    assert (Hnew' : Forall (fun v => exists f0 j, In f0 (f :: rest)
                              /\ appended_by E model custom_fields f0 j v) new).
    { eapply Forall_impl; [|exact Hnew].
      intros v [f0 [j [Hin Hv]]]. exists f0, j. split; [now right | exact Hv]. }
    destruct Hdoc as [-> | [v [-> Hv]]].
    + exists new. split; [reflexivity | exact Hnew'].
    + exists (v :: new). split; [now rewrite <- app_assoc|].
      constructor; [|exact Hnew'].
      exists f, i. split; [now left | exact Hv].
Qed.

Lemma process_uploaded_files_results (files : list uploaded_file)
  (results : list pyval) :
  fst (process_uploaded_files E model files custom_fields) = Ret results ->
  Forall (fun v => exists f j, In f files
                               /\ appended_by E model custom_fields f j v)
         results.
Proof.
  unfold process_uploaded_files.
  destruct custom_fields as [|fd fds] eqn:Hcf.
  - simpl. intros H. injection H as <-. constructor.
  - rewrite <- Hcf. rewrite fst_bind. cbn [fst emit].
    rewrite fst_bind. intros H.
    destruct (fst (for_each E model custom_fields (Datatypes.length files) 0 files []))
      as [rs|e] eqn:Hloop; [|discriminate].
    rewrite fst_bind in H. cbn [fst emit] in H. simpl in H. injection H as <-.
    destruct (for_each_results _ _ _ _ Hloop) as [new [-> Hnew]].
    exact Hnew.
Qed.

(** When no reply is a non-mapping, the loop runs to its end. *)
Lemma for_each_completes (total : nat) (files : list uploaded_file) :
  (forall i text v,
     fst (parse_resume_with_gemma E (model i) text custom_fields) = Ret v ->
     ~ non_mapping v) ->
  forall (i : nat) (results : list pyval),
    exists results',
      fst (for_each E model custom_fields total i files results) = Ret results'.
Proof.
  intros Hok. induction files as [|f rest IH]; intros i results.
  - exists results. reflexivity.
  - simpl. rewrite fst_bind.
    pose proof (process_document_ends total i f results) as Hdoc.
    destruct (fst (process_document E model custom_fields total i f results))
      as [mid|e]; [apply IH|].
    destruct Hdoc as [_ [text [v [Hv Hbad]]]].
    destruct (Hok _ _ _ Hv Hbad).
Qed.

End Batch.

(** ** The document of a record *)

Section Origin.

Variable E : env.
Variable model : nat -> string -> res string.
Variable custom_fields : list field.

Lemma process_text_appends (total i : nat) (f : uploaded_file)
  (resume_text : option string) (results results' : list pyval) :
  fst (process_text E model custom_fields total i f resume_text results)
  = Ret results' ->
  results' = results
  \/ exists text d,
       resume_text = Some text
       /\ PyStr.truthy text = true
       /\ d <> []
       /\ fst (parse_resume_with_gemma E (model i) text custom_fields)
          = Ret (PyDict d)
       /\ results'
          = (results
             ++ [PyDict (annotate d (name f)
                           (strftime_Ymd_HMS (datetime_now E i)))])%list.
Proof.
  destruct resume_text as [text|];
    [|rewrite process_text_skips by exact I; cbn [fst];
      intros H; left; congruence].
  destruct (PyStr.truthy text) eqn:Ht;
    [|rewrite process_text_skips by exact Ht; cbn [fst];
      intros H; left; congruence].
  destruct (parse_never_raises E custom_fields (model i) text) as [v Hv].
  rewrite (@process_text_result E model custom_fields total i f text results v Ht Hv).
  destruct (truthy v) eqn:Htv; [|intros H; left; congruence].
  destruct v as [| b | z | x | s | items | d]; try discriminate.
  rewrite annotated_dict. intros H. right. exists text, d.
  repeat split; try assumption; [|congruence].
  destruct d; discriminate.
Qed.

Lemma process_document_appends (total i : nat) (f : uploaded_file)
  (results results' : list pyval) :
  fst (process_document E model custom_fields total i f results)
  = Ret results' ->
  results' = results
  \/ exists text d,
       results'
       = (results
          ++ [PyDict (annotate d (name f)
                        (strftime_Ymd_HMS (datetime_now E i)))])%list
       /\ appended_at E model custom_fields f i text d
            (PyDict (annotate d (name f)
                       (strftime_Ymd_HMS (datetime_now E i)))).
Proof.
  unfold process_document. rewrite fst_bind. cbn [fst emit].
  unfold appended_at, extracted_text.
  destruct (String.eqb (file_extension (name f)) "pdf").
  - rewrite fst_bind.
    destruct (extract_pdf_never_raises E f) as [o ->]. intros H.
    destruct (process_text_appends _ _ _ _ _ H)
      as [-> | [text [d [-> [Ht [Hd [Hp ->]]]]]]]; [now left|].
    right. exists text, d. repeat split; assumption.
  - destruct (PyStr.mem (file_extension (name f)) ["docx"; "doc"]).
    + rewrite fst_bind.
      destruct (extract_docx_never_raises E f) as [o ->]. intros H.
      destruct (process_text_appends _ _ _ _ _ H)
        as [-> | [text [d [-> [Ht [Hd [Hp ->]]]]]]]; [now left|].
      right. exists text, d. repeat split; assumption.
    + cbn. intros H. left. congruence.
Qed.

(** What the loop appends comes from documents of the batch, each at
    its position. *)
Lemma for_each_appends (total : nat) (files : list uploaded_file) :
  forall (i : nat) (results results' : list pyval),
    fst (for_each E model custom_fields total i files results) = Ret results' ->
    exists new,
      results' = (results ++ new)%list
      /\ Forall (fun v => exists j f text d,
                   nth_error files j = Some f
                   /\ appended_at E model custom_fields f (i + j) text d v)
                new.
Proof.
  induction files as [|f rest IH]; intros i results results' H.
  - simpl in H. injection H as <-. exists [].
    split; [now rewrite app_nil_r | constructor].
  - simpl in H. rewrite fst_bind in H.
    destruct (fst (process_document E model custom_fields total i f results))
      as [mid|e] eqn:Hdoc; [|discriminate].
    destruct (IH _ _ _ H) as [new [-> Hnew]].
    assert (Hnew' : Forall (fun v => exists j f0 text d,
                              nth_error (f :: rest) j = Some f0
                              /\ appended_at E model custom_fields f0 (i + j)
                                   text d v) new).
    { eapply Forall_impl; [|exact Hnew].
      intros v [j [f0 [text [d [Hj Hv]]]]]. exists (S j), f0, text, d.
      split; [exact Hj|]. now replace (i + S j) with (S i + j) by lia. }
    destruct (process_document_appends _ _ _ _ Hdoc)
      as [-> | [text [d [-> Hv]]]].
    + exists new. split; [reflexivity | exact Hnew'].
    + eexists (_ :: new). split; [now rewrite <- app_assoc|].
      constructor; [|exact Hnew'].
      exists 0, f, text, d. split; [reflexivity|].
      now rewrite Nat.add_0_r.
Qed.

Lemma process_uploaded_files_appends (files : list uploaded_file)
  (results : list pyval) :
  fst (process_uploaded_files E model files custom_fields) = Ret results ->
  Forall (fun v => exists i f text d,
            nth_error files i = Some f
            /\ appended_at E model custom_fields f i text d v)
         results.
Proof.
  unfold process_uploaded_files.
  destruct custom_fields as [|fd fds] eqn:Hcf.
  - simpl. intros H. injection H as <-. constructor.
  - rewrite <- Hcf. rewrite fst_bind. cbn [fst emit].
    rewrite fst_bind. intros H.
    destruct (fst (for_each E model custom_fields (Datatypes.length files) 0 files []))
      as [rs|e] eqn:Hloop; [|discriminate].
    rewrite fst_bind in H. cbn [fst emit] in H. simpl in H. injection H as <-.
    destruct (for_each_appends _ _ _ _ Hloop) as [new [-> Hnew]].
    exact Hnew.
Qed.

End Origin.

(** C8, as the code has it: every record of the result set was appended
    for a document of the batch, the one at some position [i] of the
    upload; it is the mapping that the parser returned for the text
    read from that document by the extractor of its type, with the two
    meta keys set: [file_name] to the name of the document and
    [processed_date] to the clock reading of its turn.  Besides the
    meta keys the record has the keys of that mapping, with their
    values; a field of the schema is a key of the record exactly when
    the service put it there (or it is named like a meta key).  Nothing
    checks the schema or fills in ["Not Found"]. *)
Theorem records_hold_meta_keys_and_reply (E : env)
  (model : nat -> string -> res string) (files : list uploaded_file)
  (custom_fields : list field) (results : list pyval) :
  fst (process_uploaded_files E model files custom_fields) = Ret results ->
  forall v, In v results ->
    exists f i text d r,
      nth_error files i = Some f
      /\ In f files
      /\ extracted_text E f = Some text
      /\ PyStr.truthy text = true
      /\ fst (parse_resume_with_gemma E (model i) text custom_fields)
         = Ret (PyDict d)
      /\ v = PyDict r
      /\ Dict.get "file_name" r = Some (PyStr (name f))
      /\ Dict.get "processed_date" r
         = Some (PyStr (strftime_Ymd_HMS (datetime_now E i)))
      /\ (forall k, k <> "file_name" -> k <> "processed_date" ->
            Dict.get k r = Dict.get k d)
      /\ (forall fd, In fd custom_fields ->
            (In (field_name fd) (Dict.keys r) <->
             field_name fd = "file_name" \/ field_name fd = "processed_date"
             \/ In (field_name fd) (Dict.keys d))).
Proof.
  intros Hrun v Hin.
  pose proof (process_uploaded_files_appends E model custom_fields files Hrun) as Hall.
  rewrite Forall_forall in Hall.
  destruct (Hall v Hin) as [i [f [text [d [Hf [Ht [Htr [Hd [Hparse ->]]]]]]]]].
  exists f, i, text, d, (annotate d (name f) (strftime_Ymd_HMS (datetime_now E i))).
  split; [exact Hf|]. split; [exact (nth_error_In _ _ Hf)|].
  repeat split; try assumption.
  - unfold annotate. rewrite get_set_other by discriminate. apply get_set_same.
  - unfold annotate. apply get_set_same.
  - intros k H1 H2. unfold annotate. now rewrite !get_set_other by assumption.
  - unfold annotate. rewrite !In_keys_set. tauto.
  - unfold annotate. rewrite !In_keys_set. tauto.
Qed.

Lemma records_hold_meta_keys_and_reply_witness :
  exists d,
    nth_error [UploadedFile "notes.txt" "plain"; UploadedFile "cv.pdf" "%PDF"] 1
    = Some (UploadedFile "cv.pdf" "%PDF")
    /\ extracted_text ticking_env (UploadedFile "cv.pdf" "%PDF")
       = Some "Jane Doe jane@example.org"
    /\ fst (parse_resume_with_gemma ticking_env
              ((fun _ _ => Ret reply_without_field) 1)
              "Jane Doe jane@example.org"
              [Field "full_name" "Full name" "Full Name"])
       = Ret (PyDict d)
    /\ strftime_Ymd_HMS (datetime_now ticking_env 1) = "2025-03-09 14:05:08"
    /\ Dict.get "name" d = Some (PyStr "Jane Doe")
    /\ Dict.get "full_name" d = None.
Proof.
  destruct (@records_hold_meta_keys_and_reply ticking_env
              (fun _ _ => Ret reply_without_field)
              [UploadedFile "notes.txt" "plain"; UploadedFile "cv.pdf" "%PDF"]
              [Field "full_name" "Full name" "Full Name"]
              [PyDict [("name", PyStr "Jane Doe"); ("file_name", PyStr "cv.pdf");
                       ("processed_date", PyStr "2025-03-09 14:05:08")]]
              eq_refl _ (or_introl eq_refl))
    as [f [i [text [d [r [H1 [_ [H2 [_ [H3 [H4 [H5 [H6 [H7 _]]]]]]]]]]]]]].
  destruct i as [|[|i]];
    [injection H1 as <-; discriminate H2
    | | destruct i; discriminate H1].
  injection H1 as <-. vm_compute in H2. injection H2 as <-.
  injection H4 as <-.
  exists d. repeat split; try assumption; try reflexivity.
  - rewrite <- (H7 "name") by discriminate. reflexivity.
  - rewrite <- (H7 "full_name") by discriminate. reflexivity.
Defined.

(** C8 as stated fails: the schema asks for [full_name], the service
    answers with another key, and the record is appended without
    [full_name]. *)
Lemma record_lacks_schema_field :
  fst (process_uploaded_files example_env (fun _ _ => Ret reply_without_field)
         [UploadedFile "cv.pdf" "%PDF"]
         [Field "full_name" "Full name" "Full Name"])
  = Ret [PyDict [("name", PyStr "Jane Doe"); ("file_name", PyStr "cv.pdf");
                 ("processed_date", PyStr "2025-03-09 14:05:07")]]
  /\ Dict.get "full_name"
       [("name", PyStr "Jane Doe"); ("file_name", PyStr "cv.pdf");
        ("processed_date", PyStr "2025-03-09 14:05:07")] = None.
Proof. split; reflexivity. Qed.

(** C1 on the code: when the reply for a document is valid JSON that is
    true as a condition and is no object (an array, a number, a
    string, [true]), the assignment of [file_name] raises a [TypeError]
    outside every [try], and the batch ends there: the documents after
    it are not processed and no result is returned. *)
Theorem batch_aborts_on_non_mapping_reply (E : env)
  (model : nat -> string -> res string) (f : uploaded_file)
  (rest : list uploaded_file) (custom_fields : list field)
  (text : string) (v : pyval) :
  custom_fields <> [] ->
  file_extension (name f) = "pdf" ->
  fst (extract_text_from_pdf E f) = Ret (Some text) ->
  PyStr.truthy text = true ->
  fst (parse_resume_with_gemma E (model 0) text custom_fields) = Ret v ->
  non_mapping v ->
  exists msg,
    fst (process_uploaded_files E model (f :: rest) custom_fields)
    = Raise (Exn "TypeError" msg).
Proof.
  intros Hcf Hext Hpdf Ht Hv [Htv Hnd].
  destruct (@annotated_not_dict E v 0 f Hnd) as [msg Hmsg].
  exists msg. unfold process_uploaded_files.
  destruct custom_fields as [|fd fds] eqn:Hfields; [congruence|].
  rewrite <- Hfields in *.
  rewrite fst_bind. cbn [fst emit]. rewrite fst_bind.
  cbn [for_each]. rewrite fst_bind.
  unfold process_document. rewrite fst_bind. cbn [fst emit].
  rewrite Hext. change (String.eqb "pdf" "pdf") with true. cbv iota.
  rewrite fst_bind, Hpdf.
  rewrite (@process_text_result E model custom_fields _ 0 f text [] v Ht Hv).
  now rewrite Htv, Hmsg.
Qed.

Lemma batch_aborts_on_non_mapping_reply_witness :
  exists msg,
    fst (process_uploaded_files example_env (fun _ _ => Ret "[1]")
           [UploadedFile "cv.pdf" "%PDF"; UploadedFile "next.pdf" "%PDF"]
           [Field "full_name" "Full name" "Full Name"])
    = Raise (Exn "TypeError" msg).
Proof.
  apply (@batch_aborts_on_non_mapping_reply example_env (fun _ _ => Ret "[1]")
           (UploadedFile "cv.pdf" "%PDF") [UploadedFile "next.pdf" "%PDF"]
           [Field "full_name" "Full name" "Full Name"]
           "Jane Doe jane@example.org" (PyList [PyInt 1])).
  - discriminate.
  - reflexivity.
  - reflexivity.
  - reflexivity.
  - reflexivity.
  - split; [reflexivity | discriminate].
Defined.

Example batch_aborts_trace :
  process_uploaded_files example_env (fun _ _ => Ret "[1]")
    [UploadedFile "cv.pdf" "%PDF"; UploadedFile "next.pdf" "%PDF"]
    [Field "full_name" "Full name" "Full Name"]
  = (Raise (Exn "TypeError" "list indices must be integers or slices, not str"),
     [st_progress 0 1; status_text "Processing cv.pdf..."]).
Proof. reflexivity. Qed.

(** What the code does keep of C1: a batch in which no reply is such a
    value runs to its end and returns, whatever else fails. *)
Lemma batch_completes_without_non_mapping (E : env)
  (model : nat -> string -> res string) (files : list uploaded_file)
  (custom_fields : list field) :
  (forall i text v,
     fst (parse_resume_with_gemma E (model i) text custom_fields) = Ret v ->
     ~ non_mapping v) ->
  exists results,
    fst (process_uploaded_files E model files custom_fields) = Ret results.
Proof.
  intros Hok. unfold process_uploaded_files.
  destruct custom_fields as [|fd fds] eqn:Hfields; [now exists []|].
  rewrite <- Hfields in *.
  destruct (for_each_completes E model custom_fields (Datatypes.length files)
              files Hok 0 []) as [results Hres].
  exists results. rewrite fst_bind. cbn [fst emit]. rewrite fst_bind, Hres.
  rewrite fst_bind. reflexivity.
Qed.

(** C9 on the code: a document whose extraction yields the empty text
    (a PDF of scanned pages) is left out of the results, and the page
    shows no warning and no error for it. *)
Theorem empty_text_is_skipped_silently (E : env)
  (model : nat -> string -> res string) (f : uploaded_file)
  (custom_fields : list field) :
  custom_fields <> [] ->
  file_extension (name f) = "pdf" ->
  extract_text_from_pdf E f = (Ret (Some EmptyString), []) ->
  process_uploaded_files E model [f] custom_fields
  = (Ret [],
     [st_progress 0 1; status_text ("Processing " ++ name f ++ "...");
      st_progress 1 1; time_sleep_half; status_text "Processing complete!"])
  /\ existsb is_failure_message
       (snd (process_uploaded_files E model [f] custom_fields)) = false.
Proof.
  intros Hcf Hext Hpdf.
  assert (Hrun : process_uploaded_files E model [f] custom_fields
                 = (Ret [],
                    [st_progress 0 1; status_text ("Processing " ++ name f ++ "...");
                     st_progress 1 1; time_sleep_half;
                     status_text "Processing complete!"])).
  { unfold process_uploaded_files.
    destruct custom_fields as [|fd fds] eqn:Hfields; [congruence|].
    rewrite <- Hfields in *.
    cbn [for_each List.length]. unfold process_document.
    rewrite Hext. change (String.eqb "pdf" "pdf") with true. cbv iota.
    rewrite Hpdf.
    reflexivity. }
  split; [exact Hrun | now rewrite Hrun].
Qed.

Lemma empty_text_is_skipped_silently_witness :
  process_uploaded_files scanned_pdf_env (fun _ _ => Ret reply_without_field)
    [UploadedFile "scan.pdf" "%PDF"] [Field "full_name" "Full name" "Full Name"]
  = (Ret [],
     [st_progress 0 1; status_text "Processing scan.pdf...";
      st_progress 1 1; time_sleep_half; status_text "Processing complete!"]).
Proof.
  apply (proj1 (@empty_text_is_skipped_silently scanned_pdf_env
                  (fun _ _ => Ret reply_without_field)
                  (UploadedFile "scan.pdf" "%PDF")
                  [Field "full_name" "Full name" "Full Name"]
                  ltac:(discriminate) eq_refl eq_refl)).
Defined.

(** The sibling path does report: a document whose reply is not usable
    gets an error that names it. *)
Example failed_parse_is_reported :
  process_uploaded_files example_env (fun _ _ => Ret "not json")
    [UploadedFile "cv.pdf" "%PDF"] [Field "full_name" "Full name" "Full Name"]
  = (Ret [],
     [st_progress 0 1; status_text "Processing cv.pdf...";
      st_error "Error parsing resume with Gemma: Expecting value";
      st_error "❌ Failed to process: cv.pdf";
      st_progress 1 1; time_sleep_half; status_text "Processing complete!"]).
Proof. reflexivity. Qed.

(** ** The table (C2) *)

Section Table.

Lemma In_add_keys (k : string) (r : record) :
  forall cols, In k (add_keys cols r) <-> In k cols \/ In k (Dict.keys r).
Proof.
  unfold add_keys. induction (Dict.keys r) as [|k0 ks IH]; intros cols; simpl.
  - tauto.
  - rewrite IH. destruct (PyStr.mem k0 cols) eqn:Hm.
    + apply mem_In in Hm. split; [tauto|]. intros [H|[<-|H]]; tauto.
    + rewrite in_app_iff. simpl. tauto.
Qed.

Lemma In_union_keys_from (k : string) (data : list pyval) :
  forall cols,
    In k (fold_left (fun cols v => add_keys cols (entries_of v)) data cols)
    <-> In k cols \/ exists v, In v data /\ In k (Dict.keys (entries_of v)).
Proof.
  induction data as [|v rest IH]; intros cols; simpl.
  - split; [tauto|]. intros [H|[v [[] _]]]. exact H.
  - rewrite IH, In_add_keys. split.
    + intros [[H|H]|[v' [Hin Hk]]]; [tauto| |].
      * right. exists v. tauto.
      * right. exists v'. tauto.
    + intros [H|[v' [[<-|Hin] Hk]]]; [tauto|tauto|].
      right. exists v'. tauto.
Qed.

Lemma In_union_keys (k : string) (data : list pyval) :
  In k (union_keys data)
  <-> exists v, In v data /\ In k (Dict.keys (entries_of v)).
Proof.
  unfold union_keys. rewrite In_union_keys_from. simpl. tauto.
Qed.

Lemma rename_meta (custom_fields : list field) :
  rename_label (column_mapping custom_fields) "file_name" = "File Name"
  /\ rename_label (column_mapping custom_fields) "processed_date"
     = "Processed Date".
Proof.
  unfold rename_label, column_mapping. split.
  - rewrite get_set_other by discriminate. now rewrite get_set_same.
  - now rewrite get_set_same.
Qed.

Lemma meta_labels_displayed (data : list pyval) (custom_fields : list field) :
  data <> [] -> Forall has_meta_keys data ->
  In "File Name" (display_columns data custom_fields)
  /\ In "Processed Date" (display_columns data custom_fields).
Proof.
  intros Hne Hall. destruct data as [|v rest]; [congruence|].
  inversion Hall as [|v0 l [r [-> [H1 H2]]] _]; subst.
  unfold display_columns, df_rename, pd_DataFrame. cbn [columns].
  destruct (rename_meta custom_fields) as [Hf Hp].
  split.
  - rewrite <- Hf. apply in_map. apply In_union_keys.
    exists (PyDict r). split; [now left | exact H1].
  - rewrite <- Hp. apply in_map. apply In_union_keys.
    exists (PyDict r). split; [now left | exact H2].
Qed.

Lemma filter_map_labels (cols : list string) (custom_fields : list field) :
  map column_name
      (filter (fun f => PyStr.mem (column_name f) cols) custom_fields)
  = filter (fun c => PyStr.mem c cols) (map column_name custom_fields).
Proof.
  induction custom_fields as [|f fs IH]; simpl; [reflexivity|].
  destruct (PyStr.mem (column_name f) cols); simpl; now rewrite IH.
Qed.

Lemma filter_idem (A : Type) (p : A -> bool) (l : list A) :
  filter p (filter p l) = filter p l.
Proof.
  induction l as [|a l IH]; simpl; [reflexivity|].
  destruct (p a) eqn:Hp; simpl; [rewrite Hp|]; now rewrite ?IH.
Qed.

(** With both meta labels among the columns, the second filter of
    [main] changes nothing. *)
Lemma existing_columns_all (cols : list string) (custom_fields : list field) :
  In "File Name" cols -> In "Processed Date" cols ->
  existing_columns custom_fields cols
  = (["File Name"]
     ++ filter (fun c => PyStr.mem c cols) (map column_name custom_fields)
     ++ ["Processed Date"])%list.
Proof.
  intros Hf Hp. unfold existing_columns, column_order.
  rewrite filter_map_labels.
  apply mem_In in Hf. apply mem_In in Hp.
  simpl. rewrite Hf. f_equal.
  rewrite filter_app, filter_idem. simpl. now rewrite Hp.
Qed.

Lemma existing_columns_present (cols : list string) (custom_fields : list field) :
  forallb (fun k => PyStr.mem k cols) (existing_columns custom_fields cols) = true.
Proof.
  apply forallb_forall. intros k Hk. unfold existing_columns in Hk.
  now apply filter_In in Hk.
Qed.

Lemma positions_select (k : string) (cols : list string) :
  forall pre,
    map (fun i => nth i (pre ++ cols)%list EmptyString)
        (positions (List.length pre) k cols)
    = filter (String.eqb k) cols.
Proof.
  induction cols as [|c cs IH]; intros pre; simpl; [reflexivity|].
  assert (Hstep : map (fun i => nth i (pre ++ c :: cs)%list EmptyString)
                      (positions (S (List.length pre)) k cs)
                  = filter (String.eqb k) cs).
  { specialize (IH (pre ++ [c])%list).
    rewrite List.length_app in IH. simpl in IH. rewrite Nat.add_1_r in IH.
    now rewrite <- app_assoc in IH. }
  destruct (String.eqb k c); simpl; rewrite Hstep; [|reflexivity].
  f_equal. rewrite app_nth2 by lia. now rewrite Nat.sub_diag.
Qed.

(** A list of labels selects, for each label, every column that
    carries it. *)
Lemma getitem_columns (df : DataFrame) (keys : list string) (table : DataFrame) :
  df_getitem df keys = Ret table ->
  columns table
  = flat_map (fun k => filter (String.eqb k) (columns df)) keys.
Proof.
  unfold df_getitem.
  destruct (forallb (fun k => PyStr.mem k (columns df)) keys); [|discriminate].
  intros H. injection H as <-. cbn [columns].
  induction keys as [|k ks IH]; simpl; [reflexivity|].
  rewrite map_app, IH. f_equal.
  exact (positions_select k (columns df) []).
Qed.

Lemma filter_eqb_unique (k : string) (cols : list string) :
  NoDup cols -> In k cols -> filter (String.eqb k) cols = [k].
Proof.
  induction cols as [|c cs IH]; intros Hnd Hin; [destruct Hin|].
  inversion Hnd as [|c0 l Hnotin Hnd']; subst. simpl.
  destruct (String.eqb_spec k c) as [->|Hne].
  - f_equal. clear -Hnotin. induction cs as [|c' cs IH]; simpl; [reflexivity|].
    destruct (String.eqb_spec c c') as [->|_].
    + exfalso. apply Hnotin. now left.
    + apply IH. intros H. apply Hnotin. now right.
  - destruct Hin as [->|Hin]; [congruence|]. now apply IH.
Qed.

Lemma select_unique_columns (cols keys : list string) :
  NoDup cols -> Forall (fun k => In k cols) keys ->
  flat_map (fun k => filter (String.eqb k) cols) keys = keys.
Proof.
  intros Hnd Hall. induction Hall as [|k ks Hk _ IH]; simpl; [reflexivity|].
  now rewrite filter_eqb_unique, IH.
Qed.

End Table.

Example empty_result_set_builds_no_table :
  table_columns true [] [Field "full_name" "Full name" "Full Name"] = None.
Proof. reflexivity. Qed.

(** * Further properties *)

(** ** Outcomes of the extractors and of the parser *)

Section Outcomes.

Variable E : env.

Lemma extract_pdf_outcome (f : uploaded_file) :
  (exists text, extract_text_from_pdf E f = (Ret (Some text), []))
  \/ (exists e,
        extract_text_from_pdf E f
        = (Ret None,
           [st_error ("Error reading PDF " ++ name f ++ ": " ++ exn_msg e)])).
Proof.
  unfold extract_text_from_pdf, try_except, bind, lift, ret, emit.
  destruct (PdfReader E (content f)) as [pages|e]; simpl; [|right; now exists e].
  destruct (concat_pages pages "") as [t|e]; simpl;
    [left; now exists t | right; now exists e].
Qed.

Lemma extract_docx_outcome (f : uploaded_file) :
  extract_text_from_docx E f
  = match docx2txt_process E (content f) with
    | Ret text => (Ret (Some text), [])
    | Raise e =>
        (Ret None,
         [st_error ("Error reading DOCX " ++ name f ++ ": " ++ exn_msg e)])
    end.
Proof.
  unfold extract_text_from_docx, try_except, bind, lift, ret, emit.
  destruct (docx2txt_process E (content f)); reflexivity.
Qed.

Lemma parse_outcome (reply : string -> res string) (text : string)
  (custom_fields : list field) :
  (exists v, parse_resume_with_gemma E reply text custom_fields = (Ret v, []))
  \/ (exists e,
        parse_resume_with_gemma E reply text custom_fields
        = (Ret PyNone,
           [st_error ("Error parsing resume with Gemma: " ++ exn_msg e)])).
Proof.
  unfold parse_resume_with_gemma.
  destruct custom_fields as [|f fields]; [left; now exists PyNone|].
  unfold build_dynamic_prompt, bind, ret, try_except, lift, emit. simpl.
  destruct (reply _) as [r|e]; simpl; [|right; now exists e].
  destruct (json_loads E (deserializer_input r)) as [v|e]; simpl;
    [left; now exists v | right; now exists e].
Qed.

End Outcomes.

(** Neither extractor lets an exception out.  Each returns a text and
    shows nothing, or returns [None] and shows one error that names the
    document; a PDF that cannot be opened is such a failure, and the
    text of a DOCX is what the converter returned, as it is. *)
Theorem extractors_return_text_or_report (E : env) (f : uploaded_file) :
  ((exists text, extract_text_from_pdf E f = (Ret (Some text), []))
   \/ (exists e,
         extract_text_from_pdf E f
         = (Ret None,
            [st_error ("Error reading PDF " ++ name f ++ ": " ++ exn_msg e)])))
  /\ (forall e, PdfReader E (content f) = Raise e ->
        extract_text_from_pdf E f
        = (Ret None,
           [st_error ("Error reading PDF " ++ name f ++ ": " ++ exn_msg e)]))
  /\ (forall text, docx2txt_process E (content f) = Ret text ->
        extract_text_from_docx E f = (Ret (Some text), []))
  /\ (forall e, docx2txt_process E (content f) = Raise e ->
        extract_text_from_docx E f
        = (Ret None,
           [st_error ("Error reading DOCX " ++ name f ++ ": " ++ exn_msg e)])).
Proof.
  split; [apply extract_pdf_outcome|]. split; [|split].
  - intros e He. unfold extract_text_from_pdf. now rewrite He.
  - intros text Ht. now rewrite extract_docx_outcome, Ht.
  - intros e He. now rewrite extract_docx_outcome, He.
Qed.

(** The parser lets no exception out either, whatever the service and
    the deserializer do: it returns a value and shows nothing, or it
    returns [None] and shows one error.  With an empty schema it
    returns [None] at once, whatever the service would answer, and the
    warning of [build_dynamic_prompt] is not shown. *)
Theorem parser_returns_value_or_reports (E : env) (reply : string -> res string)
  (text : string) (custom_fields : list field) :
  ((exists v, parse_resume_with_gemma E reply text custom_fields = (Ret v, []))
   \/ (exists e,
         parse_resume_with_gemma E reply text custom_fields
         = (Ret PyNone,
            [st_error ("Error parsing resume with Gemma: " ++ exn_msg e)])))
  /\ parse_resume_with_gemma E reply text [] = (Ret PyNone, [])
  /\ (forall e, custom_fields <> [] ->
        reply (built_prompt custom_fields text) = Raise e ->
        parse_resume_with_gemma E reply text custom_fields
        = (Ret PyNone,
           [st_error ("Error parsing resume with Gemma: " ++ exn_msg e)])).
Proof.
  split; [apply parse_outcome|]. split; [reflexivity|].
  intros e Hne He. destruct custom_fields as [|f fields]; [congruence|].
  unfold parse_resume_with_gemma, build_dynamic_prompt, bind, ret, try_except,
    lift, emit.
  cbv beta iota. fold (built_prompt (f :: fields) text).
  unfold built_prompt in *. now rewrite He.
Qed.

(** ** The response parser on short texts and on padded texts *)

Section Cleaning.

Lemma substring_length (s : string) :
  forall a n, String.length (substring a n s) = Nat.min n (String.length s - a).
Proof.
  induction s as [|c s IH]; intros a n.
  - destruct a, n; reflexivity.
  - destruct a as [|a]; simpl.
    + destruct n as [|n]; [reflexivity|]. simpl. now rewrite IH, Nat.sub_0_r.
    + apply IH.
Qed.

Lemma slice_length (a b : nat) (s : string) :
  String.length (PyStr.slice a b s) = String.length s - b - a.
Proof. unfold PyStr.slice. rewrite substring_length. lia. Qed.

Lemma length_zero_empty (s : string) : String.length s = 0 -> s = EmptyString.
Proof. destruct s; [reflexivity | discriminate]. Qed.

Lemma lstrip_all_spaces (w : string) :
  all_chars PyStr.isspace w = true -> PyStr.lstrip w = EmptyString.
Proof.
  induction w as [|c w IH]; simpl; [reflexivity|].
  intros H. apply andb_true_iff in H as [Hc Hw]. now rewrite Hc, IH.
Qed.

Lemma strip_app_spaces (s w : string) :
  all_chars PyStr.isspace w = true ->
  PyStr.rstrip (PyStr.lstrip (s ++ w)) = PyStr.rstrip (PyStr.lstrip s).
Proof.
  intros Hw. induction s as [|c s IH].
  - simpl. now rewrite lstrip_all_spaces.
  - cbn [append PyStr.lstrip]. destruct (PyStr.isspace c); [exact IH|].
    change (String c (s ++ w)) with (String c s ++ w).
    now apply rstrip_spaces.
Qed.

Lemma strip_ignores_padding (w1 w2 r : string) :
  all_chars PyStr.isspace w1 = true -> all_chars PyStr.isspace w2 = true ->
  PyStr.strip (w1 ++ r ++ w2) = PyStr.strip r.
Proof.
  intros H1 H2. unfold PyStr.strip.
  rewrite lstrip_spaces by assumption. now apply strip_app_spaces.
Qed.

End Cleaning.

(** The two slices never fail on a short text: the text given to the
    deserializer is shorter than the trimmed response by 10 characters
    (tagged fence) or 6 (generic fence), and it is empty when the
    trimmed response has no more than that. *)
Theorem fenced_text_loses_fixed_length (response_text : string) :
  let s := PyStr.strip response_text in
  (PyStr.startswith s "```json" = true ->
     String.length (deserializer_input response_text) = String.length s - 10
     /\ (String.length s <= 10 -> deserializer_input response_text = ""))
  /\ (PyStr.startswith s "```json" = false ->
      PyStr.startswith s "```" = true ->
        String.length (deserializer_input response_text) = String.length s - 6
        /\ (String.length s <= 6 -> deserializer_input response_text = "")).
Proof.
  intros s. unfold deserializer_input, clean_json_response. fold s. split.
  - intros ->. assert (Hlen := slice_length 7 3 s).
    split; [lia|]. intros H. apply length_zero_empty. lia.
  - intros -> ->. assert (Hlen := slice_length 3 3 s).
    split; [lia|]. intros H. apply length_zero_empty. lia.
Qed.

Example fence_without_payload_cleans_to_empty :
  deserializer_input "```json{}" = ""
  /\ deserializer_input "```" = ""
  /\ deserializer_input "```json```" = "".
Proof. repeat split. Qed.

(** Whitespace before and after the response of the service does not
    change the text given to the deserializer. *)
Theorem response_padding_is_ignored (w1 w2 response_text : string) :
  all_chars PyStr.isspace w1 = true ->
  all_chars PyStr.isspace w2 = true ->
  deserializer_input (w1 ++ response_text ++ w2)
  = deserializer_input response_text.
Proof.
  intros H1 H2. unfold deserializer_input.
  now rewrite strip_ignores_padding.
Qed.

Lemma response_padding_is_ignored_witness :
  deserializer_input ((PyStr.NL ++ " ") ++ "```json{}```" ++ (" " ++ PyStr.NL))
  = "{}".
Proof.
  rewrite (@response_padding_is_ignored (PyStr.NL ++ " ") (" " ++ PyStr.NL)
             "```json{}```" eq_refl eq_refl).
  reflexivity.
Defined.

(** ** The extension of a file name *)

Section Extension.

Lemma lower_app (a b : string) :
  PyStr.lower (a ++ b) = PyStr.lower a ++ PyStr.lower b.
Proof. induction a as [|c a IH]; simpl; [reflexivity | now rewrite IH]. Qed.

Lemma lower_char_dot (c : ascii) : not_dot (PyStr.lower_char c) = not_dot c.
Proof. destruct c as [[] [] [] [] [] [] [] []]; reflexivity. Qed.

Lemma lower_no_dot (s : string) :
  all_chars not_dot s = true -> all_chars not_dot (PyStr.lower s) = true.
Proof.
  induction s as [|c s IH]; simpl; [reflexivity|].
  intros H. apply andb_true_iff in H as [Hc Hs].
  now rewrite lower_char_dot, Hc, IH.
Qed.

Lemma split_no_dot (s : string) :
  all_chars not_dot s = true -> PyStr.split "." s = [s].
Proof.
  induction s as [|c s IH]; simpl; [reflexivity|].
  intros H. apply andb_true_iff in H as [Hc Hs].
  unfold not_dot in Hc. apply negb_true_iff in Hc. rewrite Hc.
  now rewrite IH.
Qed.

Lemma split_at_last_dot (a b : string) :
  all_chars not_dot b = true ->
  exists front, front <> [] /\ PyStr.split "." (a ++ "." ++ b) = (front ++ [b])%list.
Proof.
  intros Hb. induction a as [|c a [front [Hne IH]]].
  - exists [EmptyString]. split; [discriminate|].
    simpl. now rewrite split_no_dot.
  - change (PyStr.split "." (String c a ++ "." ++ b))
      with (if Ascii.eqb c "."
            then EmptyString :: PyStr.split "." (a ++ "." ++ b)
            else match PyStr.split "." (a ++ "." ++ b) with
                 | [] => [String c EmptyString]
                 | h :: t => String c h :: t
                 end).
    rewrite IH.
    destruct (Ascii.eqb c ".").
    + exists (EmptyString :: front). split; [discriminate | reflexivity].
    + destruct front as [|h t]; [congruence|].
      exists (String c h :: t). split; [discriminate | reflexivity].
Qed.

End Extension.

(** The extension is what follows the last dot of the name, in lower
    case; a name with no dot is its own extension, so that a document
    named [PDF] is read as a PDF. *)
Theorem extension_is_lowercased_suffix (base ext : string) :
  all_chars not_dot ext = true ->
  file_extension (base ++ "." ++ ext) = PyStr.lower ext
  /\ file_extension ext = PyStr.lower ext.
Proof.
  intros Hext. unfold file_extension. split.
  - rewrite !lower_app. change (PyStr.lower ".") with ".".
    destruct (@split_at_last_dot (PyStr.lower base) (PyStr.lower ext)
                (lower_no_dot ext Hext)) as [front [_ ->]].
    apply last_last.
  - now rewrite (split_no_dot _ (lower_no_dot ext Hext)).
Qed.

Lemma extension_is_lowercased_suffix_witness :
  file_extension ("Jane.Doe.CV" ++ "." ++ "PDF") = "pdf"
  /\ file_extension "PDF" = "pdf".
Proof.
  exact (@extension_is_lowercased_suffix "Jane.Doe.CV" "PDF" eq_refl).
Defined.

(** ** The batch: what it shows and in what order it answers *)

Section BatchTrace.

Variable E : env.
Variable model : nat -> string -> res string.
Variable custom_fields : list field.

Lemma filter_pace_app (l1 l2 : list event) :
  filter is_pace (l1 ++ l2) = (filter is_pace l1 ++ filter is_pace l2)%list.
Proof. apply filter_app. Qed.

(** A document that is read and does not end the batch steps the
    progress bar once and pauses once, after all it shows. *)
Lemma process_text_pace (total i : nat) (f : uploaded_file)
  (resume_text : option string) (results r : list pyval) (l : list event) :
  process_text E model custom_fields total i f resume_text results = (Ret r, l) ->
  filter is_pace l = [st_progress (i + 1) total; time_sleep_half].
Proof.
  unfold process_text.
  destruct resume_text as [text|];
    [|intros H; injection H as _ <-; reflexivity].
  destruct (PyStr.truthy text);
    [|intros H; injection H as _ <-; reflexivity].
  destruct (parse_outcome E (model i) text custom_fields) as [[v Hp]|[e Hp]];
    rewrite Hp.
  - destruct v as [| b | z | x | s | items | d]; simpl;
      try (intros H; injection H as _ <-; reflexivity);
      try discriminate.
    + destruct b; simpl; [discriminate | intros H; injection H as _ <-; reflexivity].
    + destruct (negb (z =? 0)%Z); simpl;
        [discriminate | intros H; injection H as _ <-; reflexivity].
    + destruct x as [q | n |]; simpl; try discriminate.
      destruct (negb (QArith_base.Qnum q =? 0)%Z); simpl;
        [discriminate | intros H; injection H as _ <-; reflexivity].
    + destruct (PyStr.truthy s); simpl;
        [discriminate | intros H; injection H as _ <-; reflexivity].
    + destruct items; simpl;
        [intros H; injection H as _ <-; reflexivity | discriminate].
    + destruct d; simpl; intros H; injection H as _ <-; reflexivity.
  - simpl. intros H; injection H as _ <-; reflexivity.
Qed.

Lemma extract_pdf_no_pace (f : uploaded_file) :
  exists o l, extract_text_from_pdf E f = (Ret o, l) /\ filter is_pace l = [].
Proof.
  destruct (extract_pdf_outcome E f) as [[t H]|[e H]]; rewrite H; eauto.
Qed.

Lemma extract_docx_no_pace (f : uploaded_file) :
  exists o l, extract_text_from_docx E f = (Ret o, l) /\ filter is_pace l = [].
Proof.
  rewrite extract_docx_outcome.
  destruct (docx2txt_process E (content f)); eauto.
Qed.

Lemma bind_ret_inv (A B : Type) (m : M A) (k : A -> M B) (b : B) (l : list event) :
  bind m k = (Ret b, l) ->
  exists a l1 l2, m = (Ret a, l1) /\ k a = (Ret b, l2) /\ l = (l1 ++ l2)%list.
Proof.
  unfold bind. destruct m as [[a|e] l1]; [|discriminate].
  destruct (k a) as [rb l2] eqn:Hk. intros H. injection H as -> <-.
  now exists a, l1, l2.
Qed.

Lemma process_document_pace (total i : nat) (f : uploaded_file)
  (results r : list pyval) (l : list event) :
  process_document E model custom_fields total i f results = (Ret r, l) ->
  filter is_pace l
  = if supported f then [st_progress (i + 1) total; time_sleep_half] else [].
Proof.
  unfold process_document, supported. intros H.
  apply bind_ret_inv in H as [u [l1 [l2 [Hemit [H ->]]]]].
  injection Hemit as _ <-. cbn [app filter is_pace].
  destruct (String.eqb (file_extension (name f)) "pdf").
  - cbn [orb]. apply bind_ret_inv in H as [o [l3 [l4 [Hx [H ->]]]]].
    destruct (extract_pdf_no_pace f) as [o' [l' [Hx' Hl']]].
    rewrite Hx in Hx'. injection Hx' as -> ->.
    rewrite filter_pace_app, Hl'. apply (@process_text_pace total i f _ results r _ H).
  - cbn [orb].
    destruct (PyStr.mem (file_extension (name f)) ["docx"; "doc"]).
    + apply bind_ret_inv in H as [o [l3 [l4 [Hx [H ->]]]]].
      destruct (extract_docx_no_pace f) as [o' [l' [Hx' Hl']]].
      rewrite Hx in Hx'. injection Hx' as -> ->.
      rewrite filter_pace_app, Hl'. apply (@process_text_pace total i f _ results r _ H).
    + injection H as _ <-. reflexivity.
Qed.

Lemma for_each_pace (total : nat) (files : list uploaded_file) :
  forall (i : nat) (results r : list pyval) (l : list event),
    for_each E model custom_fields total i files results = (Ret r, l) ->
    filter is_pace l = expected_pace total i files.
Proof.
  induction files as [|f rest IH]; intros i results r l H.
  - injection H as _ <-. reflexivity.
  - cbn [for_each] in H.
    apply bind_ret_inv in H as [mid [l1 [l2 [Hdoc [Hrest ->]]]]].
    rewrite filter_pace_app, (@process_document_pace total i f results mid l1 Hdoc),
      (IH (S i) mid r l2 Hrest).
    reflexivity.
Qed.

Lemma process_document_skips (total i : nat) (f : uploaded_file)
  (results : list pyval) :
  supported f = false ->
  process_document E model custom_fields total i f results
  = (Ret results, skipped_trace f).
Proof.
  unfold supported, process_document. intros H.
  apply orb_false_iff in H as [-> ->]. reflexivity.
Qed.

Lemma for_each_skips (total : nat) (files : list uploaded_file) :
  forallb (fun f => negb (supported f)) files = true ->
  forall (i : nat) (results : list pyval),
    for_each E model custom_fields total i files results
    = (Ret results, flat_map skipped_trace files).
Proof.
  induction files as [|f rest IH]; intros Hall i results; [reflexivity|].
  cbn [forallb] in Hall. apply andb_true_iff in Hall as [Hf Hrest].
  apply negb_true_iff in Hf.
  cbn [for_each flat_map]. rewrite (@process_document_skips total i f results Hf).
  unfold bind. now rewrite (IH Hrest (S i) results).
Qed.

Lemma subsequence_length (A : Type) (kept all : list A) :
  subsequence kept all -> List.length kept <= List.length all.
Proof. induction 1; simpl; lia. Qed.

Lemma appended_file_name (f : uploaded_file) (i : nat) (v : pyval) :
  appended_by E model custom_fields f i v ->
  file_name_of v = Some (PyStr (name f)).
Proof.
  intros [text [d [_ [_ ->]]]]. unfold file_name_of, entries_of, annotate.
  rewrite get_set_other by discriminate. apply get_set_same.
Qed.

Lemma for_each_order (total : nat) (files : list uploaded_file) :
  forall (i : nat) (results results' : list pyval),
    fst (for_each E model custom_fields total i files results) = Ret results' ->
    exists new kept,
      results' = (results ++ new)%list
      /\ subsequence kept files
      /\ map file_name_of new = map (fun f => Some (PyStr (name f))) kept.
Proof.
  induction files as [|f rest IH]; intros i results results' H.
  - simpl in H. injection H as <-. exists [], [].
    split; [now rewrite app_nil_r|]. split; [constructor | reflexivity].
  - simpl in H. rewrite fst_bind in H.
    pose proof (process_document_ends E model custom_fields total i f results)
      as Hdoc.
    destruct (fst (process_document E model custom_fields total i f results))
      as [mid|e]; [|discriminate].
    destruct (IH _ _ _ H) as [new [kept [-> [Hsub Hnames]]]].
    destruct Hdoc as [-> | [v [-> Hv]]].
    + exists new, kept. split; [reflexivity|].
      split; [now constructor | exact Hnames].
    + exists (v :: new), (f :: kept). split; [now rewrite <- app_assoc|].
      split; [now constructor|].
      cbn [map]. now rewrite (@appended_file_name f i v Hv), Hnames.
Qed.

End BatchTrace.

(** A batch that runs to its end steps the progress bar and pauses once
    for every document with a supported extension, at the position of
    the document, whether or not the document gave a record; a document
    with another extension neither steps the bar nor pauses, so a batch
    that ends with one leaves the bar short of its end. *)
Theorem batch_paces_supported_documents (E : env)
  (model : nat -> string -> res string) (files : list uploaded_file)
  (custom_fields : list field) (results : list pyval) (shown : list event) :
  custom_fields <> [] ->
  process_uploaded_files E model files custom_fields = (Ret results, shown) ->
  filter is_pace shown
  = st_progress 0 1 :: expected_pace (List.length files) 0 files.
Proof.
  intros Hne H. unfold process_uploaded_files in H.
  destruct custom_fields as [|fd fds] eqn:Hcf; [congruence|].
  rewrite <- Hcf in *.
  apply bind_ret_inv in H as [u [l1 [l2 [Hemit [H ->]]]]].
  injection Hemit as _ <-.
  apply bind_ret_inv in H as [rs [l3 [l4 [Hloop [H ->]]]]].
  apply bind_ret_inv in H as [u' [l5 [l6 [Hemit [H ->]]]]].
  injection Hemit as _ <-. injection H as _ <-.
  cbn [app filter is_pace]. rewrite filter_pace_app.
  rewrite (@for_each_pace E model custom_fields (List.length files) files 0 [] rs l3 Hloop). cbn. now rewrite app_nil_r.
Qed.

Lemma batch_paces_supported_documents_witness :
  filter is_pace
    (snd (process_uploaded_files example_env (fun _ _ => Ret "not json")
            [UploadedFile "cv.pdf" "%PDF"; UploadedFile "notes.txt" "hello"]
            [Field "full_name" "Full name" "Full Name"]))
  = [st_progress 0 1; st_progress 1 2; time_sleep_half].
Proof.
  exact (@batch_paces_supported_documents example_env (fun _ _ => Ret "not json")
           [UploadedFile "cv.pdf" "%PDF"; UploadedFile "notes.txt" "hello"]
           [Field "full_name" "Full name" "Full Name"] _ _
           ltac:(discriminate) eq_refl).
Defined.

(** A batch of documents with unsupported extensions only is answered
    with the empty list: each document gets the status line and one
    warning that names it, no document is read, the service is not
    called, the progress bar stays at its start and there is no pause. *)
Theorem unsupported_documents_are_skipped (E : env)
  (model : nat -> string -> res string) (files : list uploaded_file)
  (custom_fields : list field) :
  custom_fields <> [] ->
  forallb (fun f => negb (supported f)) files = true ->
  process_uploaded_files E model files custom_fields
  = (Ret [],
     (st_progress 0 1 :: flat_map skipped_trace files
      ++ [status_text "Processing complete!"])%list).
Proof.
  intros Hne Hall. unfold process_uploaded_files.
  destruct custom_fields as [|fd fds] eqn:Hcf; [congruence|].
  rewrite <- Hcf in *.
  rewrite (@for_each_skips E model custom_fields (List.length files) files Hall 0 []).
  reflexivity.
Qed.

Lemma unsupported_documents_are_skipped_witness :
  process_uploaded_files example_env (fun _ _ => Ret example_reply)
    [UploadedFile "notes.txt" "hello"; UploadedFile "photo.jpeg" "JFIF"]
    [Field "full_name" "Full name" "Full Name"]
  = (Ret [],
     [st_progress 0 1;
      status_text "Processing notes.txt...";
      st_warning "Unsupported file type: notes.txt";
      status_text "Processing photo.jpeg...";
      st_warning "Unsupported file type: photo.jpeg";
      status_text "Processing complete!"]).
Proof.
  exact (@unsupported_documents_are_skipped example_env
           (fun _ _ => Ret example_reply)
           [UploadedFile "notes.txt" "hello"; UploadedFile "photo.jpeg" "JFIF"]
           [Field "full_name" "Full name" "Full Name"]
           ltac:(discriminate) eq_refl).
Defined.

(** The records of a batch come in the order of the upload: their
    [file_name] values are the names of some of the documents, in the
    order of the documents, every document giving one record at most. *)
Theorem results_follow_upload_order (E : env)
  (model : nat -> string -> res string) (files : list uploaded_file)
  (custom_fields : list field) (results : list pyval) :
  fst (process_uploaded_files E model files custom_fields) = Ret results ->
  exists kept,
    subsequence kept files
    /\ map file_name_of results = map (fun f => Some (PyStr (name f))) kept
    /\ List.length results <= List.length files.
Proof.
  unfold process_uploaded_files.
  destruct custom_fields as [|fd fds] eqn:Hcf.
  - simpl. intros H. injection H as <-. exists [].
    split; [|split; [reflexivity | simpl; lia]].
    induction files; now constructor.
  - rewrite <- Hcf. rewrite fst_bind. cbn [fst emit].
    rewrite fst_bind. intros H.
    destruct (fst (for_each E model custom_fields (Datatypes.length files) 0 files []))
      as [rs|e] eqn:Hloop; [|discriminate].
    rewrite fst_bind in H. cbn [fst emit] in H. simpl in H. injection H as <-.
    destruct (@for_each_order E model custom_fields (List.length files) files 0 [] rs Hloop) as [new [kept [-> [Hsub Hnames]]]].
    exists kept. split; [exact Hsub|]. split; [exact Hnames|].
    cbn [app]. rewrite <- (length_map file_name_of), Hnames, length_map.
    now apply subsequence_length.
Qed.

Lemma results_follow_upload_order_witness :
  exists kept,
    subsequence kept [UploadedFile "notes.txt" "hello"; UploadedFile "cv.pdf" "%PDF"]
    /\ map file_name_of
         [PyDict [("full_name", PyStr "Jane Doe"); ("file_name", PyStr "cv.pdf");
                  ("processed_date", PyStr "2025-03-09 14:05:07")]]
       = map (fun f => Some (PyStr (name f))) kept.
Proof.
  destruct (@results_follow_upload_order example_env (fun _ _ => Ret example_reply)
              [UploadedFile "notes.txt" "hello"; UploadedFile "cv.pdf" "%PDF"]
              [Field "full_name" "Full name" "Full Name"]
              [PyDict [("full_name", PyStr "Jane Doe"); ("file_name", PyStr "cv.pdf");
                       ("processed_date", PyStr "2025-03-09 14:05:07")]]
              eq_refl) as [kept [H1 [H2 _]]].
  exists kept. split; assumption.
Defined.

(** ** The table: labels, shape and cells *)

Section Labels.

Lemma find_app (A : Type) (p : A -> bool) (l1 l2 : list A) :
  find p (l1 ++ l2)
  = match find p l1 with Some x => Some x | None => find p l2 end.
Proof.
  induction l1 as [|a l1 IH]; simpl; [reflexivity|].
  destruct (p a); [reflexivity | exact IH].
Qed.

Lemma get_set (V : Type) (k k0 : string) (v : V) (d : Dict.t V) :
  Dict.get k0 (Dict.set k v d)
  = if String.eqb k k0 then Some v else Dict.get k0 d.
Proof.
  destruct (String.eqb_spec k k0) as [->|Hne].
  - apply get_set_same.
  - apply get_set_other. congruence.
Qed.

(** The loop that fills [column_mapping]: a later field with the same
    name replaces the label of an earlier one. *)
Lemma mapping_fold (k : string) (fields : list field) :
  forall m : Dict.t string,
    Dict.get k (fold_left (fun m f => Dict.set (field_name f) (column_name f) m)
                          fields m)
    = match last_field_named k fields with
      | Some f => Some (column_name f)
      | None => Dict.get k m
      end.
Proof.
  induction fields as [|f rest IH]; intros m; [reflexivity|].
  cbn [fold_left]. rewrite IH. unfold last_field_named. cbn [rev].
  rewrite find_app.
  destruct (find (fun f0 => String.eqb (field_name f0) k) (rev rest));
    [reflexivity|].
  cbn [find]. rewrite get_set.
  destruct (String.eqb (field_name f) k); reflexivity.
Qed.

Lemma rename_schema_key (custom_fields : list field) (k : string) :
  k <> "file_name" -> k <> "processed_date" ->
  rename_label (column_mapping custom_fields) k
  = match last_field_named k custom_fields with
    | Some f => column_name f
    | None => k
    end.
Proof.
  intros H1 H2. unfold rename_label, column_mapping.
  rewrite !get_set_other by assumption. rewrite mapping_fold.
  destruct (last_field_named k custom_fields); reflexivity.
Qed.

End Labels.

(** The label a key of the records is shown under: the two meta keys
    always get the meta labels, also when a field of the schema is named
    like one of them; another key gets the label of the last field of
    the schema that has it for name, and keeps its own spelling when no
    field has. *)
Theorem labels_come_from_last_field (custom_fields : list field) (k : string) :
  rename_label (column_mapping custom_fields) "file_name" = "File Name"
  /\ rename_label (column_mapping custom_fields) "processed_date"
     = "Processed Date"
  /\ (k <> "file_name" -> k <> "processed_date" ->
      rename_label (column_mapping custom_fields) k
      = match last_field_named k custom_fields with
        | Some f => column_name f
        | None => k
        end).
Proof.
  destruct (rename_meta custom_fields) as [Hf Hp].
  split; [exact Hf|]. split; [exact Hp|]. apply rename_schema_key.
Qed.

Example relabelled_meta_key_and_repeated_name :
  rename_label
    (column_mapping [Field "file_name" "Name of the file" "Source";
                     Field "city" "City" "City";
                     Field "city" "Town" "Town"]) "file_name" = "File Name"
  /\ rename_label
       (column_mapping [Field "file_name" "Name of the file" "Source";
                        Field "city" "City" "City";
                        Field "city" "Town" "Town"]) "city" = "Town"
  /\ rename_label
       (column_mapping [Field "file_name" "Name of the file" "Source";
                        Field "city" "City" "City";
                        Field "city" "Town" "Town"]) "hobby" = "hobby".
Proof. repeat split. Qed.

Section Shape.

Lemma getitem_shape (df : DataFrame) (keys : list string) (table : DataFrame) :
  df_getitem df keys = Ret table ->
  List.length (rows table) = List.length (rows df)
  /\ Forall (fun row => List.length row = List.length (columns table))
            (rows table).
Proof.
  unfold df_getitem.
  destruct (forallb (fun k => PyStr.mem k (columns df)) keys); [|discriminate].
  intros H. injection H as <-. cbn [rows columns]. split.
  - apply length_map.
  - apply Forall_forall. intros row Hrow.
    apply in_map_iff in Hrow as [row0 [<- _]]. now rewrite !length_map.
Qed.

Lemma display_df_built (processed_data : list pyval) (custom_fields : list field) :
  processed_data <> [] ->
  exists table,
    display_df true processed_data custom_fields = Some (Ret table)
    /\ df_getitem
         (df_rename (column_mapping custom_fields) (pd_DataFrame processed_data))
         (existing_columns custom_fields
            (display_columns processed_data custom_fields))
       = Ret table.
Proof.
  intros Hne. unfold display_df.
  destruct processed_data as [|v rest] eqn:Hdata; [congruence|].
  rewrite <- Hdata. cbn [andb]. cbv zeta.
  fold (display_columns processed_data custom_fields).
  destruct (df_getitem _ _) as [table|e] eqn:Hsel; [now exists table|].
  exfalso. unfold df_getitem in Hsel.
  change (columns (df_rename (column_mapping custom_fields)
                     (pd_DataFrame processed_data)))
    with (display_columns processed_data custom_fields) in Hsel.
  now rewrite existing_columns_present in Hsel.
Qed.

Lemma existing_columns_labels (custom_fields : list field)
  (cols : list string) (k : string) :
  In k (existing_columns custom_fields cols) ->
  In k cols /\ In k (schema_labels custom_fields).
Proof.
  unfold existing_columns, column_order, schema_labels. intros H.
  apply filter_In in H as [H Hk]. split; [now apply mem_In|].
  apply in_app_or in H as [[<-|[]]|H]; [now left|].
  apply in_app_or in H as [H|[<-|[]]]; [|right; now left].
  right. right. apply in_map_iff in H as [f [<- Hf]].
  apply filter_In in Hf as [Hf _]. now apply in_map.
Qed.

End Shape.

(** For records of any content the selection of the columns raises no
    [KeyError]: a table is built whenever there is a record, with one
    row for each record and, in each row, one cell for each column.
    With no record, or before a batch is over, no table is built. *)
Theorem table_has_a_row_per_record (processed_data : list pyval)
  (custom_fields : list field) :
  processed_data <> [] ->
  (exists table,
     display_df true processed_data custom_fields = Some (Ret table)
     /\ List.length (rows table) = List.length processed_data
     /\ Forall (fun row => List.length row = List.length (columns table))
               (rows table))
  /\ display_df false processed_data custom_fields = None
  /\ display_df true [] custom_fields = None.
Proof.
  intros Hne. split; [|split; reflexivity].
  destruct (display_df_built custom_fields Hne) as [table [Hshow Hsel]].
  exists table. split; [exact Hshow|].
  destruct (@getitem_shape _ _ table Hsel) as [Hrows Hcells].
  split; [|exact Hcells].
  rewrite Hrows. unfold df_rename, pd_DataFrame. cbn [rows].
    now rewrite length_map, length_seq.
Qed.

Lemma table_has_a_row_per_record_witness :
  exists table,
    display_df true [example_record; PyDict [("file_name", PyStr "b.pdf")]]
      [Field "email" "Email address" "Email"] = Some (Ret table)
    /\ List.length (rows table) = 2.
Proof.
  destruct (@table_has_a_row_per_record
              [example_record; PyDict [("file_name", PyStr "b.pdf")]]
              [Field "email" "Email address" "Email"] ltac:(discriminate))
    as [[table [H1 [H2 _]]] _].
  exists table. split; [exact H1 | exact H2].
Defined.

(** Every label of the table is [File Name], [Processed Date] or the
    column name of a field of the schema. *)
Theorem table_labels_come_from_schema (processing_complete : bool)
  (processed_data : list pyval) (custom_fields : list field) (table : DataFrame) :
  display_df processing_complete processed_data custom_fields = Some (Ret table) ->
  Forall (fun label => In label (schema_labels custom_fields)) (columns table).
Proof.
  unfold display_df.
  destruct (processing_complete
            && match processed_data with [] => false | _ => true end);
    [|discriminate].
  cbv zeta. intros H. injection H as H.
  rewrite (getitem_columns _ _ H). apply Forall_forall. intros label Hl.
  apply in_flat_map in Hl as [k [Hk Hl]].
  apply filter_In in Hl as [_ He]. apply String.eqb_eq in He. subst label.
  now apply existing_columns_labels in Hk.
Qed.

Lemma table_labels_come_from_schema_witness :
  Forall (fun label => In label (schema_labels [Field "email" "Email address" "Email"]))
         ["File Name"; "Email"; "Processed Date"].
Proof.
  exact (@table_labels_come_from_schema true [example_record]
           [Field "email" "Email address" "Email"]
           {| columns := ["File Name"; "Email"; "Processed Date"];
              rows := [[Cell [Some (PyStr "cv.pdf")] 0;
                        Cell [Some (PyStr "jane@example.org")] 0;
                        Cell [Some (PyStr "2025-03-09 14:05:07")] 0]] |}
           eq_refl).
Defined.

Section Cells.

Lemma positions_bound (k : string) (cols : list string) :
  forall n i, In i (positions n k cols) -> n <= i < n + List.length cols.
Proof.
  induction cols as [|c cs IH]; intros n i Hi; [destruct Hi|].
  cbn [positions] in Hi. cbn [List.length].
  destruct (String.eqb k c).
  - destruct Hi as [<-|Hi]; [lia|]. apply IH in Hi. lia.
  - apply IH in Hi. lia.
Qed.

Lemma getitem_rows (df : DataFrame) (keys : list string) (table : DataFrame) :
  df_getitem df keys = Ret table ->
  exists indexer,
    Forall (fun i => i < List.length (columns df)) indexer
    /\ columns table = map (fun i => nth i (columns df) EmptyString) indexer
    /\ rows table
       = map (fun row => map (fun i => nth i row (Cell [] 0)) indexer) (rows df).
Proof.
  unfold df_getitem.
  destruct (forallb (fun k => PyStr.mem k (columns df)) keys); [|discriminate].
  intros H. injection H as <-.
  exists (flat_map (fun k => positions 0 k (columns df)) keys).
  split; [|split; reflexivity].
  apply Forall_forall. intros i Hi.
  apply in_flat_map in Hi as [k [_ Hi]]. apply positions_bound in Hi. lia.
Qed.

(** Where no two columns get the same label, the column with a label
    is found by the label. *)
Lemma find_unique (r : string -> string) (cols : list string) :
  NoDup (map r cols) ->
  forall i, i < List.length cols ->
    find (fun c => String.eqb (r c) (r (nth i cols EmptyString))) cols
    = Some (nth i cols EmptyString).
Proof.
  induction cols as [|c cs IH]; intros Hnd i Hi; [simpl in Hi; lia|].
  cbn [map] in Hnd. inversion Hnd as [|x l Hnotin Hnd']; subst.
  destruct i as [|j]; cbn [nth find].
  - now rewrite String.eqb_refl.
  - cbn [List.length] in Hi.
    destruct (String.eqb_spec (r c) (r (nth j cs EmptyString))) as [He|_].
    + exfalso. apply Hnotin. rewrite He. apply in_map. apply nth_In. lia.
    + apply IH; [exact Hnd' | lia].
Qed.

Lemma selected_cells (custom_fields : list field) (processed_data : list pyval)
  (i : nat) (indexer : list nat) :
  NoDup (display_columns processed_data custom_fields) ->
  Forall (fun j => j < List.length (union_keys processed_data)) indexer ->
  map (fun j =>
         nth j (map (fun c =>
                       Cell (map (fun v => Dict.get c (entries_of v))
                                 processed_data) i)
                    (union_keys processed_data))
             (Cell [] 0))
      indexer
  = map (cell_of custom_fields processed_data i)
        (map (fun j => nth j (display_columns processed_data custom_fields)
                           EmptyString) indexer).
Proof.
  unfold display_columns, df_rename, pd_DataFrame. cbn [columns].
  intros Hnd Hall. rewrite map_map. apply map_ext_in. intros j Hj.
  rewrite Forall_forall in Hall. specialize (Hall j Hj).
  set (cols := union_keys processed_data) in *.
  set (g := fun c => Cell (map (fun v => Dict.get c (entries_of v))
                               processed_data) i).
  set (r := rename_label (column_mapping custom_fields)) in *.
  rewrite (nth_indep (map g cols) (Cell [] 0) (g EmptyString))
    by now rewrite length_map.
  rewrite (nth_indep (map r cols) EmptyString (r EmptyString))
    by now rewrite length_map.
  rewrite !map_nth. unfold cell_of, source_key. fold cols. fold r.
  now rewrite (@find_unique r cols Hnd j Hall).
Qed.

End Cells.

(** Where no two columns of the renamed frame carry the same label,
    the selection mixes up neither rows nor columns: the cell of row
    [i] under a label is row [i] of the column that pandas built from
    the values the records have under the key shown as that label.
    What the cell then holds is what pandas made of these values. *)
Theorem cells_hold_record_values (processed_data : list pyval)
  (custom_fields : list field) :
  processed_data <> [] ->
  NoDup (display_columns processed_data custom_fields) ->
  exists table,
    display_df true processed_data custom_fields = Some (Ret table)
    /\ rows table
       = map (fun i => map (cell_of custom_fields processed_data i)
                           (columns table))
             (seq 0 (List.length processed_data)).
Proof.
  intros Hne Hnd.
  destruct (display_df_built custom_fields Hne) as [table [Hshow Hsel]].
  exists table. split; [exact Hshow|].
  destruct (@getitem_rows _ _ table Hsel) as [indexer [Hbound [Hcols Hrows]]].
  rewrite Hrows, Hcols.
  change (columns (df_rename (column_mapping custom_fields)
                     (pd_DataFrame processed_data)))
    with (display_columns processed_data custom_fields) in *.
  unfold df_rename, pd_DataFrame. cbn [rows].
  rewrite map_map. apply map_ext. intros i.
  apply selected_cells; [exact Hnd|].
  unfold display_columns, df_rename, pd_DataFrame in Hbound.
  cbn [columns] in Hbound. now rewrite length_map in Hbound.
Qed.

Lemma cells_hold_record_values_witness :
  exists table,
    display_df true
      [PyDict [("age", PyInt 41); ("file_name", PyStr "a.pdf")];
       PyDict [("file_name", PyStr "b.pdf")]]
      [Field "age" "Age in years" "Age"] = Some (Ret table)
    /\ rows table
       = [[Cell [Some (PyStr "a.pdf"); Some (PyStr "b.pdf")] 0;
           Cell [Some (PyInt 41); None] 0];
          [Cell [Some (PyStr "a.pdf"); Some (PyStr "b.pdf")] 1;
           Cell [Some (PyInt 41); None] 1]].
Proof.
  destruct (@cells_hold_record_values
              [PyDict [("age", PyInt 41); ("file_name", PyStr "a.pdf")];
               PyDict [("file_name", PyStr "b.pdf")]]
              [Field "age" "Age in years" "Age"]
              ltac:(discriminate)
              ltac:(repeat constructor; simpl; intuition discriminate))
    as [table [H1 H2]].
  exists table. split; [exact H1|].
  rewrite H2. vm_compute in H1. injection H1 as <-. reflexivity.
Defined.

Section WellFormed.

Lemma distinct_NoDup (l : list string) : distinct l = true -> NoDup l.
Proof.
  induction l as [|x rest IH]; intros H; [constructor|].
  cbn [distinct] in H. apply andb_true_iff in H as [Hx Hrest].
  apply negb_true_iff in Hx. apply mem_false_not_In in Hx.
  constructor; [exact Hx | now apply IH].
Qed.

Lemma add_keys_NoDup (r : record) :
  forall cols, NoDup cols -> NoDup (add_keys cols r).
Proof.
  unfold add_keys. induction (Dict.keys r) as [|k ks IH]; intros cols Hnd;
    [exact Hnd|].
  cbn [fold_left]. apply IH.
  destruct (PyStr.mem k cols) eqn:Hm; [exact Hnd|].
  apply mem_false_not_In in Hm.
  apply NoDup_app; [exact Hnd | repeat constructor; intros [] |].
  intros x Hx [<-|[]]. contradiction.
Qed.

Lemma union_keys_NoDup (data : list pyval) : NoDup (union_keys data).
Proof.
  unfold union_keys.
  assert (H : forall cols, NoDup cols ->
            NoDup (fold_left (fun cols v => add_keys cols (entries_of v)) data cols)).
  { induction data as [|v rest IH]; intros cols Hnd; [exact Hnd|].
    cbn [fold_left]. apply IH. now apply add_keys_NoDup. }
  apply H. constructor.
Qed.

Lemma find_in_unique (A : Type) (h : A -> string) (l : list A) (x : A) :
  NoDup (map h l) -> In x l ->
  find (fun y => String.eqb (h y) (h x)) l = Some x.
Proof.
  induction l as [|a l IH]; intros Hnd Hin; [destruct Hin|].
  cbn [map] in Hnd. inversion Hnd as [|b m Hnotin Hnd']; subst.
  cbn [find]. destruct Hin as [->|Hin].
  - now rewrite String.eqb_refl.
  - destruct (String.eqb_spec (h a) (h x)) as [He|_]; [|now apply IH].
    exfalso. apply Hnotin. rewrite He. now apply in_map.
Qed.

Variable custom_fields : list field.
Hypothesis well_formed : well_formed_schema custom_fields = true.

Lemma schema_keys_NoDup : NoDup (schema_keys custom_fields).
Proof.
  apply distinct_NoDup. unfold well_formed_schema in well_formed.
  now apply andb_true_iff in well_formed as [H _].
Qed.

Lemma schema_labels_NoDup : NoDup (schema_labels custom_fields).
Proof.
  apply distinct_NoDup. unfold well_formed_schema in well_formed.
  now apply andb_true_iff in well_formed as [_ H].
Qed.

Lemma field_names_free (f : field) :
  In f custom_fields ->
  field_name f <> "file_name" /\ field_name f <> "processed_date"
  /\ column_name f <> "File Name" /\ column_name f <> "Processed Date".
Proof.
  intros Hf.
  pose proof schema_keys_NoDup as Hk. pose proof schema_labels_NoDup as Hl.
  unfold schema_keys in Hk. unfold schema_labels in Hl.
  inversion Hk as [|a l Hk1 Hk']; subst. inversion Hk' as [|a l Hk2 _]; subst.
  inversion Hl as [|a l Hl1 Hl']; subst. inversion Hl' as [|a l Hl2 _]; subst.
  repeat split; intros He.
  - apply Hk1. right. rewrite <- He. now apply in_map.
  - apply Hk2. rewrite <- He. now apply in_map.
  - apply Hl1. right. rewrite <- He. now apply in_map.
  - apply Hl2. rewrite <- He. now apply in_map.
Qed.

Lemma rename_field (f : field) :
  In f custom_fields ->
  rename_label (column_mapping custom_fields) (field_name f) = column_name f.
Proof.
  intros Hf. destruct (@field_names_free f Hf) as [H1 [H2 _]].
  rewrite rename_schema_key by assumption.
  unfold last_field_named.
  rewrite (@find_in_unique field field_name (rev custom_fields) f);
    [reflexivity | | now apply in_rev in Hf].
  rewrite map_rev. apply NoDup_rev.
  pose proof schema_keys_NoDup as Hk. unfold schema_keys in Hk.
  inversion Hk as [|a l _ Hk']; subst. now inversion Hk'.
Qed.

(** A key of the schema and its label. *)
Lemma schema_key_label (k : string) :
  In k (schema_keys custom_fields) ->
  (k = "file_name"
   /\ rename_label (column_mapping custom_fields) k = "File Name")
  \/ (k = "processed_date"
      /\ rename_label (column_mapping custom_fields) k = "Processed Date")
  \/ (exists f, In f custom_fields /\ k = field_name f
                /\ rename_label (column_mapping custom_fields) k = column_name f).
Proof.
  destruct (rename_meta custom_fields) as [Hf Hp].
  intros [<-|[<-|Hk]]; [now left | right; now left |].
  right. right. apply in_map_iff in Hk as [f [<- Hin]].
  exists f. repeat split; [exact Hin | now apply rename_field].
Qed.

Lemma same_label_same_field (f1 f2 : field) :
  In f1 custom_fields -> In f2 custom_fields ->
  column_name f1 = column_name f2 -> f1 = f2.
Proof.
  intros H1 H2 He.
  pose proof schema_labels_NoDup as Hl. unfold schema_labels in Hl.
  inversion Hl as [|a l _ Hl']; subst. inversion Hl' as [|a l _ Hnd]; subst.
  clear -H1 H2 He Hnd.
  induction custom_fields as [|f fs IH]; [destruct H1|].
  cbn [map] in Hnd. inversion Hnd as [|a l Hnotin Hnd']; subst.
  destruct H1 as [<-|H1], H2 as [<-|H2]; try reflexivity.
  - exfalso. apply Hnotin. rewrite He. now apply in_map.
  - exfalso. apply Hnotin. rewrite <- He. now apply in_map.
  - now apply IH.
Qed.

(** Under a well-formed schema the renaming gives different keys of the
    schema different labels. *)
Lemma rename_injective (k1 k2 : string) :
  In k1 (schema_keys custom_fields) -> In k2 (schema_keys custom_fields) ->
  rename_label (column_mapping custom_fields) k1
  = rename_label (column_mapping custom_fields) k2 ->
  k1 = k2.
Proof.
  intros H1 H2 He.
  destruct (@schema_key_label k1 H1) as [[-> L1]|[[-> L1]|[f1 [Hf1 [-> L1]]]]];
  destruct (@schema_key_label k2 H2) as [[-> L2]|[[-> L2]|[f2 [Hf2 [-> L2]]]]];
    try reflexivity; rewrite L1, L2 in He; try discriminate.
  - destruct (@field_names_free f2 Hf2) as [_ [_ [H _]]]. now symmetry in He.
  - destruct (@field_names_free f2 Hf2) as [_ [_ [_ H]]]. now symmetry in He.
  - destruct (@field_names_free f1 Hf1) as [_ [_ [H _]]]. contradiction.
  - destruct (@field_names_free f1 Hf1) as [_ [_ [_ H]]]. contradiction.
  - now rewrite (@same_label_same_field f1 f2 Hf1 Hf2 He).
Qed.

Lemma union_keys_in_schema (processed_data : list pyval) (k : string) :
  forallb (in_schema custom_fields) processed_data = true ->
  In k (union_keys processed_data) -> In k (schema_keys custom_fields).
Proof.
  intros Hall Hk. apply In_union_keys in Hk as [v [Hv Hk]].
  rewrite forallb_forall in Hall. specialize (Hall v Hv).
  unfold in_schema in Hall. rewrite forallb_forall in Hall.
  apply mem_In. now apply Hall.
Qed.

Lemma display_columns_NoDup (processed_data : list pyval) :
  forallb (in_schema custom_fields) processed_data = true ->
  NoDup (display_columns processed_data custom_fields).
Proof.
  intros Hall. unfold display_columns, df_rename, pd_DataFrame. cbn [columns].
  apply NoDup_map_NoDup_ForallPairs; [|apply union_keys_NoDup].
  intros k1 k2 H1 H2. apply rename_injective; now apply union_keys_in_schema with (processed_data := processed_data).
Qed.

End WellFormed.

Section Order.

(** The columns of the table when no label is on two columns. *)
Lemma table_columns_unique (processed_data : list pyval)
  (custom_fields : list field) :
  processed_data <> [] ->
  Forall has_meta_keys processed_data ->
  NoDup (display_columns processed_data custom_fields) ->
  table_columns true processed_data custom_fields
  = Some (claimed_columns processed_data custom_fields).
Proof.
  intros Hne Hall Hnd.
  destruct (@meta_labels_displayed processed_data custom_fields Hne Hall)
    as [Hf Hp].
  destruct (display_df_built custom_fields Hne) as [table [Hshow Hsel]].
  unfold table_columns. rewrite Hshow. f_equal.
  apply getitem_columns in Hsel.
  change (columns (df_rename (column_mapping custom_fields)
                     (pd_DataFrame processed_data)))
    with (display_columns processed_data custom_fields) in Hsel.
  rewrite (@existing_columns_all (display_columns processed_data custom_fields)
             custom_fields Hf Hp) in Hsel.
  rewrite Hsel. apply select_unique_columns; [exact Hnd|].
  apply Forall_forall. intros k Hk.
  apply in_app_or in Hk as [[<-|[]]|Hk]; [exact Hf|].
  apply in_app_or in Hk as [Hk|[<-|[]]]; [|exact Hp].
  apply filter_In in Hk as [_ Hk]. now apply mem_In.
Qed.

End Order.

(** A sufficient condition on the schema and the replies for the
    column order [File Name], schema labels in schema order, [Processed
    Date]: the field names are pairwise distinct and none is a meta key,
    the column names are pairwise distinct and none is a meta label, and
    the records have no key outside the schema.  A field then has a
    column exactly when some record has its key. *)
Theorem well_formed_schema_orders_columns (processed_data : list pyval)
  (custom_fields : list field) :
  processed_data <> [] ->
  Forall has_meta_keys processed_data ->
  well_formed_schema custom_fields = true ->
  forallb (in_schema custom_fields) processed_data = true ->
  table_columns true processed_data custom_fields
  = Some (["File Name"]
          ++ map column_name
               (filter (fun f =>
                          existsb (fun v => Dict.mem (field_name f) (entries_of v))
                                  processed_data)
                       custom_fields)
          ++ ["Processed Date"])%list.
Proof.
  intros Hne Hmeta Hwf Hin.
  rewrite (@table_columns_unique processed_data custom_fields Hne Hmeta
             (@display_columns_NoDup custom_fields Hwf processed_data Hin)).
  unfold claimed_columns. do 3 f_equal.
  rewrite <- filter_map_labels. f_equal.
  apply filter_ext_in. intros f Hf.
  apply eq_true_iff_eq. rewrite mem_In, existsb_exists.
  unfold display_columns, df_rename, pd_DataFrame. cbn [columns].
  rewrite in_map_iff. split.
  - intros [k [Hk Hu]].
    assert (k = field_name f) as ->.
    { apply (@rename_injective custom_fields Hwf).
      - now apply union_keys_in_schema with (processed_data := processed_data).
      - right. right. now apply in_map.
      - rewrite Hk. symmetry. now apply rename_field. }
    apply In_union_keys in Hu as [v [Hv Hkv]].
    exists v. split; [exact Hv|]. unfold Dict.mem. now apply mem_In.
  - intros [v [Hv Hkv]]. exists (field_name f).
    split; [now apply rename_field|].
    apply In_union_keys. exists v. split; [exact Hv|].
    unfold Dict.mem in Hkv. now apply mem_In.
Qed.

Lemma well_formed_schema_orders_columns_witness :
  table_columns true
    [PyDict [("email_address", PyStr "jane@example.org");
             ("full_name", PyStr "Jane Doe");
             ("file_name", PyStr "cv.pdf");
             ("processed_date", PyStr "2025-03-09 14:05:07")]]
    basic_fields
  = Some ["File Name"; "Full Name"; "Email"; "Processed Date"].
Proof.
  apply (@well_formed_schema_orders_columns
           [PyDict [("email_address", PyStr "jane@example.org");
                    ("full_name", PyStr "Jane Doe");
                    ("file_name", PyStr "cv.pdf");
                    ("processed_date", PyStr "2025-03-09 14:05:07")]]
           basic_fields).
  - discriminate.
  - repeat constructor. eexists. split; [reflexivity|]. simpl. tauto.
  - reflexivity.
  - reflexivity.
Defined.

(** The three templates of the sidebar are well-formed schemas. *)
Example templates_are_well_formed :
  well_formed_schema basic_fields = true
  /\ well_formed_schema education_fields = true
  /\ well_formed_schema hr_fields = true.
Proof. repeat split. Qed.

(** ** The sidebar: adding and deleting fields *)

Section Form.

Lemma strip_all_spaces (w : string) :
  all_chars PyStr.isspace w = true -> PyStr.strip w = EmptyString.
Proof.
  intros H. unfold PyStr.strip. now rewrite lstrip_all_spaces.
Qed.

Lemma add_field_result (name_input description_input column_input : string)
  (custom_fields fields' : list field) (shown : list event) :
  add_field true name_input description_input column_input custom_fields
  = (Ret fields', shown) ->
  fields' = custom_fields
  \/ (fields' = (custom_fields
                 ++ [Field (PyStr.strip name_input) (PyStr.strip description_input)
                           (PyStr.strip column_input)])%list
      /\ PyStr.mem (PyStr.lower name_input) (map field_name custom_fields) = false).
Proof.
  unfold add_field.
  destruct (PyStr.truthy name_input && PyStr.truthy description_input
            && PyStr.truthy column_input);
    [|intros H; injection H as <- _; now left].
  destruct (PyStr.mem (PyStr.lower name_input) (map field_name custom_fields));
    simpl; intros H; injection H as <- _; [now left | now right].
Qed.

Lemma add_field_returns (name_input description_input column_input : string)
  (custom_fields : list field) :
  exists fields' shown,
    add_field true name_input description_input column_input custom_fields
    = (Ret fields', shown).
Proof.
  unfold add_field.
  destruct (PyStr.truthy name_input && PyStr.truthy description_input
            && PyStr.truthy column_input); [|do 2 eexists; reflexivity].
  destruct (PyStr.mem (PyStr.lower name_input) (map field_name custom_fields));
    do 2 eexists; reflexivity.
Qed.

Lemma submit_keeps_clean (name_input description_input column_input : string)
  (custom_fields fields' : list field) :
  clean_name name_input ->
  Forall (fun f => lowercase (field_name f)) custom_fields ->
  ci_unique custom_fields ->
  fst (add_field true name_input description_input column_input custom_fields)
  = Ret fields' ->
  Forall (fun f => lowercase (field_name f)) fields' /\ ci_unique fields'.
Proof.
  intros [Hlow Hstrip] Hall Huniq Hrun. split.
  - destruct (add_field true name_input description_input column_input
                custom_fields) as [r shown] eqn:Hadd.
    cbn [fst] in Hrun. subst r.
    destruct (add_field_result _ _ _ _ Hadd) as [->|[-> _]]; [exact Hall|].
    apply Forall_app. split; [exact Hall|].
    constructor; [|constructor]. unfold lowercase. cbn [field_name].
    now rewrite Hstrip.
  - exact (@add_field_keeps_lowercase_schema_unique name_input description_input
             column_input custom_fields fields' Hall Hstrip Huniq Hrun).
Qed.

End Form.

(** The form tests the inputs as typed and stores them trimmed: a field
    name made of blanks only passes the test for a missing input, and a
    field whose name is the empty string is added to the schema. *)
Theorem blank_field_name_is_stored_empty
  (name_input description_input column_input : string)
  (custom_fields : list field) :
  name_input <> "" ->
  all_chars PyStr.isspace name_input = true ->
  description_input <> "" ->
  column_input <> "" ->
  PyStr.mem (PyStr.lower name_input) (map field_name custom_fields) = false ->
  add_field true name_input description_input column_input custom_fields
  = (Ret (custom_fields
          ++ [Field "" (PyStr.strip description_input)
                       (PyStr.strip column_input)])%list,
     [sidebar_success ("✅ Added: " ++ column_input); st_rerun]).
Proof.
  intros Hn Hblank Hd Hc Hnew. unfold add_field.
  destruct name_input as [|a n]; [congruence|].
  destruct description_input as [|b d]; [congruence|].
  destruct column_input as [|c l]; [congruence|].
  cbn [PyStr.truthy PyStr.is_empty negb andb].
  rewrite Hnew. cbn [negb]. now rewrite (strip_all_spaces _ Hblank).
Qed.

Lemma blank_field_name_is_stored_empty_witness :
  add_field true "  " "Full name" "Full Name" basic_fields
  = (Ret (basic_fields ++ [Field "" "Full name" "Full Name"])%list,
     [sidebar_success "✅ Added: Full Name"; st_rerun]).
Proof.
  exact (@blank_field_name_is_stored_empty "  " "Full name" "Full Name"
           basic_fields ltac:(discriminate) eq_refl ltac:(discriminate)
           ltac:(discriminate) eq_refl).
Defined.

(** The message for a missing input hangs on the wrong test: a form
    that was submitted with an input left empty changes nothing and
    shows nothing, and [All fields are required!] is shown on every run
    in which the form was not submitted, whatever the inputs hold. *)
Theorem missing_input_is_refused_in_silence
  (name_input description_input column_input : string)
  (custom_fields : list field) :
  ((name_input = "" \/ description_input = "" \/ column_input = "") ->
   add_field true name_input description_input column_input custom_fields
   = (Ret custom_fields, []))
  /\ add_field false name_input description_input column_input custom_fields
     = (Ret custom_fields, [sidebar_error "❌ All fields are required!"]).
Proof.
  split; [|reflexivity].
  unfold add_field. intros [-> | [-> | ->]]; cbn [PyStr.truthy PyStr.is_empty negb andb];
    rewrite ?andb_false_r; reflexivity.
Qed.

(** Over any sequence of submissions the schema keeps its names
    distinct up to letter case, provided its names are in lower case to
    begin with and every submitted name is in lower case with no blank
    around it; the names then stay in lower case too. *)
Theorem clean_submissions_keep_names_unique
  (submissions : list (string * string * string)) (custom_fields : list field) :
  Forall (fun f => lowercase (field_name f)) custom_fields ->
  ci_unique custom_fields ->
  Forall (fun s => clean_name (fst (fst s))) submissions ->
  Forall (fun f => lowercase (field_name f)) (submit_all submissions custom_fields)
  /\ ci_unique (submit_all submissions custom_fields).
Proof.
  intros Hall Huniq Hsubs. revert custom_fields Hall Huniq.
  induction Hsubs as [|[[n d] c] rest Hclean _ IH]; intros custom_fields Hall Huniq;
    [now split|].
  cbn [submit_all]. cbn [fst] in Hclean.
  destruct (add_field_returns n d c custom_fields) as [fields' [shown Hadd]].
  rewrite Hadd. cbn [fst].
  destruct (@submit_keeps_clean n d c custom_fields fields' Hclean Hall Huniq)
    as [Hall' Huniq']; [now rewrite Hadd|].
  now apply IH.
Qed.

Lemma clean_submissions_keep_names_unique_witness :
  ci_unique (submit_all [("github_url", "Link to GitHub", "GitHub");
                         ("full_name", "Name again", "Name")]
                        basic_fields).
Proof.
  apply (@clean_submissions_keep_names_unique
           [("github_url", "Link to GitHub", "GitHub");
            ("full_name", "Name again", "Name")] basic_fields).
  - repeat constructor.
  - unfold ci_unique. apply distinct_NoDup. reflexivity.
  - repeat constructor.
Defined.

Section Deleting.

Lemma list_pop_in_range (A : Type) (i : nat) (l : list A) (x : A) :
  nth_error l i = Some x ->
  list_pop i l = Ret (x, (firstn i l ++ skipn (S i) l)%list).
Proof.
  unfold list_pop. intros H.
  destruct l as [|a l]; [destruct i; discriminate|].
  now rewrite H.
Qed.

Lemma list_pop_out_of_range (A : Type) (i : nat) (l : list A) :
  nth_error l i = None ->
  exists msg, list_pop i l = Raise (Exn "IndexError" msg).
Proof.
  unfold list_pop. intros H.
  destruct l as [|a l]; [eauto|]. rewrite H. eauto.
Qed.

Lemma delete_field_in_range (i : nat) (s : Session.state) (f : field) :
  nth_error (Session.custom_fields s) i = Some f ->
  delete_field i s
  = (Ret (Session.set_custom_fields
            (firstn i (Session.custom_fields s)
             ++ skipn (S i) (Session.custom_fields s))%list s),
     [st_rerun]).
Proof.
  intros H. unfold delete_field.
  now rewrite (@list_pop_in_range field i (Session.custom_fields s) f H).
Qed.

Lemma nth_error_middle (A : Type) (pre rest : list A) (x : A) :
  nth_error (pre ++ x :: rest) (List.length pre) = Some x.
Proof. induction pre as [|a pre IH]; [reflexivity | exact IH]. Qed.

(** The loop from row [length pre] on, the rows before it not pressed. *)
Lemma current_fields_from (button : nat -> bool) (s : Session.state) :
  forall shown pre,
    Session.custom_fields s = (pre ++ shown)%list ->
    (current_fields button (List.length pre) shown s = (Ret s, [])
     /\ forall j, List.length pre <= j < List.length pre + List.length shown ->
          button j = false)
    \/ exists i f,
         List.length pre <= i
         /\ nth_error (Session.custom_fields s) i = Some f
         /\ button i = true
         /\ (forall j, List.length pre <= j < i -> button j = false)
         /\ current_fields button (List.length pre) shown s
            = (Ret (Session.set_custom_fields
                      (firstn i (Session.custom_fields s)
                       ++ skipn (S i) (Session.custom_fields s))%list s),
               [st_rerun]).
Proof.
  induction shown as [|f rest IH]; intros pre Hfields.
  - left. split; [reflexivity|]. intros j Hj. simpl in Hj. lia.
  - cbn [current_fields].
    assert (Hnth : nth_error (Session.custom_fields s) (List.length pre) = Some f)
      by (rewrite Hfields; apply nth_error_middle).
    destruct (button (List.length pre)) eqn:Hb.
    + right. exists (List.length pre), f.
      split; [lia|]. split; [exact Hnth|]. split; [exact Hb|].
      split; [intros j Hj; lia|].
      now apply (@delete_field_in_range (List.length pre) s f).
    + specialize (IH (pre ++ [f])%list).
      rewrite List.length_app, Nat.add_1_r in IH. cbn [List.length] in IH.
      destruct IH as [[Hrun Hnone]|[i [f' [Hi [Hf' [Hbi [Hbefore Hrun]]]]]]].
      * now rewrite <- app_assoc.
      * left. split; [exact Hrun|]. intros j Hj. cbn [List.length] in Hj.
        destruct (Nat.eq_dec j (List.length pre)) as [->|Hne]; [exact Hb|].
        apply Hnone. lia.
      * right. exists i, f'. split; [lia|]. split; [exact Hf'|].
        split; [exact Hbi|]. split; [|exact Hrun].
        intros j Hj.
        destruct (Nat.eq_dec j (List.length pre)) as [->|Hne]; [exact Hb|].
        apply Hbefore. lia.
Qed.

Lemma In_without (A : Type) (l : list A) :
  forall i x, In x (firstn i l ++ skipn (S i) l) -> In x l.
Proof.
  induction l as [|a l IH]; intros i x H.
  - destruct i; exact H.
  - destruct i as [|i]; [now right|].
    cbn [firstn skipn app] in H. destruct H as [->|H]; [now left|].
    right. now apply (IH i).
Qed.

Lemma NoDup_without (A B : Type) (h : A -> B) (l : list A) :
  forall i, NoDup (map h l) -> NoDup (map h (firstn i l ++ skipn (S i) l)).
Proof.
  induction l as [|a l IH]; intros i Hnd.
  - destruct i; exact Hnd.
  - cbn [map] in Hnd. inversion Hnd as [|b m Hnotin Hnd']; subst.
    destruct i as [|i]; [exact Hnd'|].
    cbn [firstn skipn app map]. constructor; [|now apply IH].
    intros Hin. apply Hnotin. apply in_map_iff in Hin as [x [<- Hx]].
    apply in_map. now apply (@In_without A l i).
Qed.

Lemma firstn_all_app (A : Type) (l r : list A) :
  firstn (List.length l) (l ++ r) = l.
Proof. induction l as [|a l IH]; [reflexivity | cbn; now rewrite IH]. Qed.

Lemma skipn_past_last (A : Type) (l : list A) (x : A) :
  skipn (S (List.length l)) (l ++ [x]) = [].
Proof. induction l as [|a l IH]; [reflexivity | exact IH]. Qed.

End Deleting.

(** The delete buttons never pop an index that is out of range.  When
    none is pressed the state is left as it is; otherwise the field of
    the first pressed row is removed, the other fields keep their
    order, and the script is rerun.  The results of the last batch are
    not touched, and names that were distinct up to letter case stay
    so. *)
Theorem delete_button_removes_one_field (button : nat -> bool)
  (s : Session.state) :
  exists s' shown,
    current_fields button 0 (Session.custom_fields s) s = (Ret s', shown)
    /\ Session.processed_data s' = Session.processed_data s
    /\ Session.processing_complete s' = Session.processing_complete s
    /\ (ci_unique (Session.custom_fields s) ->
        ci_unique (Session.custom_fields s'))
    /\ ((s' = s /\ shown = []
         /\ forall j, j < List.length (Session.custom_fields s) ->
              button j = false)
        \/ exists i f,
             nth_error (Session.custom_fields s) i = Some f
             /\ button i = true
             /\ (forall j, j < i -> button j = false)
             /\ Session.custom_fields s'
                = (firstn i (Session.custom_fields s)
                   ++ skipn (S i) (Session.custom_fields s))%list
             /\ shown = [st_rerun]).
Proof.
  destruct (@current_fields_from button s (Session.custom_fields s) [] eq_refl)
    as [[Hrun Hnone]|[i [f [_ [Hf [Hb [Hbefore Hrun]]]]]]];
    cbn [List.length] in *.
  - exists s, []. split; [exact Hrun|]. repeat split; try tauto.
    left. repeat split. intros j Hj. apply Hnone. lia.
  - eexists. exists [st_rerun]. split; [exact Hrun|].
    cbn [Session.set_custom_fields Session.processed_data
         Session.processing_complete Session.custom_fields].
    repeat split.
    + intros Hu. unfold ci_unique in *. now apply NoDup_without.
    + right. exists i, f. repeat split; try assumption.
      intros j Hj. apply Hbefore. lia.
Qed.

Example second_delete_button_pressed :
  current_fields (fun i => Nat.eqb i 1) 0 basic_fields
    {| Session.processed_data := [example_record];
       Session.processing_complete := true;
       Session.custom_fields := basic_fields |}
  = (Ret {| Session.processed_data := [example_record];
            Session.processing_complete := true;
            Session.custom_fields :=
              Field "full_name" "Full name of the candidate" "Full Name"
              :: skipn 2 basic_fields |},
     [st_rerun]).
Proof. reflexivity. Qed.

(** Deleting the last row right after a field was added gives back
    the schema as it was before; an index past the last row would raise
    an [IndexError]. *)
Theorem deleting_added_field_restores_schema
  (name_input description_input column_input : string)
  (s : Session.state) (fields' : list field) (shown : list event) :
  add_field true name_input description_input column_input
    (Session.custom_fields s) = (Ret fields', shown) ->
  fields' <> Session.custom_fields s ->
  delete_field (List.length (Session.custom_fields s))
    (Session.set_custom_fields fields' s)
  = (Ret s, [st_rerun])
  /\ exists msg,
       fst (delete_field (List.length fields')
              (Session.set_custom_fields fields' s))
       = Raise (Exn "IndexError" msg).
Proof.
  intros Hadd Hne.
  destruct (add_field_result _ _ _ _ Hadd) as [->|[-> _]]; [congruence|].
  split.
  - rewrite (@delete_field_in_range _ _
               (Field (PyStr.strip name_input) (PyStr.strip description_input)
                      (PyStr.strip column_input)))
      by (cbn [Session.set_custom_fields Session.custom_fields];
          apply nth_error_middle).
    cbn [Session.set_custom_fields Session.custom_fields
         Session.processed_data Session.processing_complete].
    rewrite firstn_all_app, skipn_past_last, app_nil_r.
    now destruct s.
  - unfold delete_field.
    cbn [Session.set_custom_fields Session.custom_fields].
    destruct (@list_pop_out_of_range field
                (List.length (Session.custom_fields s ++
                   [Field (PyStr.strip name_input) (PyStr.strip description_input)
                          (PyStr.strip column_input)]))
                (Session.custom_fields s ++
                   [Field (PyStr.strip name_input) (PyStr.strip description_input)
                          (PyStr.strip column_input)])%list)
      as [msg Hmsg].
    + apply nth_error_None. lia.
    + exists msg. now rewrite Hmsg.
Qed.

Lemma deleting_added_field_restores_schema_witness :
  delete_field 8
    (Session.set_custom_fields
       (basic_fields ++ [Field "github_url" "Link to GitHub" "GitHub"])%list
       {| Session.processed_data := [];
          Session.processing_complete := false;
          Session.custom_fields := basic_fields |})
  = (Ret {| Session.processed_data := [];
            Session.processing_complete := false;
            Session.custom_fields := basic_fields |},
     [st_rerun]).
Proof.
  apply (proj1 (@deleting_added_field_restores_schema
                  "github_url" " Link to GitHub" "GitHub "
                  {| Session.processed_data := [];
                     Session.processing_complete := false;
                     Session.custom_fields := basic_fields |}
                  (basic_fields ++ [Field "github_url" "Link to GitHub" "GitHub"])%list
                  [sidebar_success "✅ Added: GitHub "; st_rerun]
                  eq_refl ltac:(discriminate))).
Defined.

(** ** The process button and the table it leaves *)

Section Page.

Variable E : env.
Variable model : nat -> string -> res string.

Lemma for_each_raises_type_error (custom_fields : list field) (total : nat)
  (files : list uploaded_file) :
  forall (i : nat) (results : list pyval) (e : exn),
    fst (for_each E model custom_fields total i files results) = Raise e ->
    exn_type e = "TypeError".
Proof.
  induction files as [|f rest IH]; intros i results e H; [discriminate|].
  cbn [for_each] in H. rewrite fst_bind in H.
  pose proof (process_document_ends E model custom_fields total i f results)
    as Hdoc.
  destruct (fst (process_document E model custom_fields total i f results))
    as [mid|e'].
  - now apply (IH (S i) mid).
  - injection H as <-. now destruct Hdoc.
Qed.

Lemma batch_raises_type_error (custom_fields : list field)
  (files : list uploaded_file) (e : exn) :
  fst (process_uploaded_files E model files custom_fields) = Raise e ->
  exn_type e = "TypeError".
Proof.
  unfold process_uploaded_files.
  destruct custom_fields as [|fd fds] eqn:Hcf; [discriminate|].
  rewrite <- Hcf. rewrite fst_bind. cbn [fst emit]. rewrite fst_bind.
  destruct (fst (for_each E model custom_fields (Datatypes.length files) 0 files []))
    as [rs|e'] eqn:Hloop.
  - rewrite fst_bind. discriminate.
  - intros H. injection H as <-.
    exact (@for_each_raises_type_error custom_fields _ files 0 [] e' Hloop).
Qed.

Lemma results_have_meta_keys (custom_fields : list field)
  (files : list uploaded_file) (results : list pyval) :
  fst (process_uploaded_files E model files custom_fields) = Ret results ->
  Forall has_meta_keys results.
Proof.
  intros Hrun.
  pose proof (@process_uploaded_files_results E model custom_fields files results
                Hrun) as Hall.
  eapply Forall_impl; [|exact Hall].
  intros v [f [i [_ [text [d [_ [_ ->]]]]]]].
  eexists. split; [reflexivity|].
  unfold annotate. rewrite !In_keys_set. tauto.
Qed.

End Page.

Section Ends.

Lemma filter_eqb_all (k : string) (l : list string) :
  Forall (eq k) (filter (String.eqb k) l).
Proof.
  apply Forall_forall. intros x Hx. apply filter_In in Hx as [_ He].
  now apply String.eqb_eq in He.
Qed.

Lemma filter_eqb_present (k : string) (l : list string) :
  In k l -> filter (String.eqb k) l <> [].
Proof.
  intros Hin He.
  assert (H : In k (filter (String.eqb k) l))
    by (apply filter_In; split; [exact Hin | apply String.eqb_refl]).
  rewrite He in H. destruct H.
Qed.

Lemma hd_error_app (A : Type) (l r : list A) :
  l <> [] -> hd_error (l ++ r) = hd_error l.
Proof. destruct l; [congruence | reflexivity]. Qed.

Lemma last_app_nonempty (A : Type) (l r : list A) (d : A) :
  r <> [] -> last (l ++ r) d = last r d.
Proof.
  intros Hr. induction l as [|a l IH]; [reflexivity|].
  cbn [app]. destruct (l ++ r)%list eqn:Happ.
  - apply app_eq_nil in Happ as [_ ->]. congruence.
  - now rewrite <- IH.
Qed.

Lemma hd_error_all (k : string) (l : list string) :
  Forall (eq k) l -> l <> [] -> hd_error l = Some k.
Proof.
  intros Hall Hne. destruct l as [|x l]; [congruence|].
  inversion Hall; subst. reflexivity.
Qed.

Lemma last_all (k d : string) (l : list string) :
  Forall (eq k) l -> l <> [] -> last l d = k.
Proof.
  intros Hall Hne. induction l as [|x l IH]; [congruence|].
  inversion Hall as [|y m Hx Hl]; subst.
  destruct l as [|y l]; [reflexivity|].
  change (last (x :: y :: l) d) with (last (y :: l) d).
  apply IH; [exact Hl | discriminate].
Qed.

(** A table built from records with the two meta keys opens with a
    [File Name] column and closes with a [Processed Date] column, also
    when labels repeat. *)
Lemma table_ends (processed_data : list pyval) (custom_fields : list field) :
  processed_data <> [] ->
  Forall has_meta_keys processed_data ->
  exists table,
    display_df true processed_data custom_fields = Some (Ret table)
    /\ List.length (rows table) = List.length processed_data
    /\ hd_error (columns table) = Some "File Name"
    /\ last (columns table) EmptyString = "Processed Date".
Proof.
  intros Hne Hmeta.
  destruct (@meta_labels_displayed processed_data custom_fields Hne Hmeta)
    as [Hf Hp].
  destruct (@display_df_built processed_data custom_fields Hne)
    as [table [Hshow Hsel]].
  exists table. split; [exact Hshow|]. split.
  - destruct (@getitem_shape _ _ table Hsel) as [Hrows _].
    rewrite Hrows. unfold df_rename, pd_DataFrame. cbn [rows].
    now rewrite length_map, length_seq.
  - apply getitem_columns in Hsel.
    change (columns (df_rename (column_mapping custom_fields)
                       (pd_DataFrame processed_data)))
      with (display_columns processed_data custom_fields) in Hsel.
    rewrite (@existing_columns_all (display_columns processed_data custom_fields)
               custom_fields Hf Hp) in Hsel.
    rewrite Hsel. rewrite !flat_map_app. cbn [flat_map]. rewrite !app_nil_r.
    split.
    + rewrite hd_error_app by now apply filter_eqb_present.
      apply hd_error_all; [apply filter_eqb_all | now apply filter_eqb_present].
    + rewrite app_assoc.
      rewrite last_app_nonempty by now apply filter_eqb_present.
      apply last_all; [apply filter_eqb_all | now apply filter_eqb_present].
Qed.

End Ends.

(** The process button, when the batch runs to its end: the session
    holds the records of this batch and is marked complete, the schema
    is as it was.  With no record the page shows the error that no
    resume was processed and no table.  With records it shows their
    number, and builds a frame with one row for each of them, which
    opens with [File Name] and closes with [Processed Date]; the frame
    is shown when its labels are pairwise distinct, and the page ends
    on the exception of [st.dataframe] when a label is repeated. *)
Theorem finished_batch_shows_count_and_table (E : env)
  (model : nat -> string -> res string) (uploaded_files : list uploaded_file)
  (s : Session.state) (results : list pyval) (shown : list event)
  (st_dataframe : DataFrame -> res unit) :
  process_uploaded_files E model uploaded_files (Session.custom_fields s)
  = (Ret results, shown) ->
  refuses_repeated_labels st_dataframe ->
  let after := process_all_resumes E model uploaded_files s in
  Session.processed_data (fst after) = results
  /\ Session.processing_complete (fst after) = true
  /\ Session.custom_fields (fst after) = Session.custom_fields s
  /\ (results = [] ->
      show_table st_dataframe (fst after) = None
      /\ snd after
         = (Ret tt,
            (shown ++ [st_error "❌ No resumes were processed successfully."])%list))
  /\ (results <> [] ->
      snd after
      = (Ret tt,
         (shown ++ [st_success ("✅ Successfully processed "
                                ++ format_nat (List.length results)
                                ++ " resumes!")])%list)
      /\ exists table,
           page_table (fst after) = Some (Ret table)
           /\ List.length (rows table) = List.length results
           /\ hd_error (columns table) = Some "File Name"
           /\ last (columns table) EmptyString = "Processed Date"
           /\ (distinct (columns table) = true ->
               show_table st_dataframe (fst after) = Some (Ret table))
           /\ (distinct (columns table) = false ->
               exists e, show_table st_dataframe (fst after) = Some (Raise e))).
Proof.
  intros Hrun Hlib after. subst after. unfold process_all_resumes.
  cbn [Session.custom_fields]. rewrite Hrun.
  cbn [fst snd Session.processed_data Session.processing_complete
       Session.custom_fields].
  split; [reflexivity|]. split; [reflexivity|]. split; [reflexivity|]. split.
  - intros ->. split; reflexivity.
  - intros Hne. split; [destruct results; [congruence | reflexivity]|].
    assert (Hmeta : Forall has_meta_keys results).
    { apply (@results_have_meta_keys E model (Session.custom_fields s)
               uploaded_files results).
      now rewrite Hrun. }
    destruct (@table_ends results (Session.custom_fields s) Hne Hmeta)
      as [table [Hshow [Hrows [Hhd Hlast]]]].
    exists table. unfold show_table, page_table.
    cbn [Session.processed_data Session.processing_complete
         Session.custom_fields].
    rewrite Hshow. destruct (Hlib table) as [Hok Hbad].
    repeat split; try assumption.
    + intros Hd. now rewrite (Hok Hd).
    + intros Hd. destruct (Hbad Hd) as [e He]. exists e. now rewrite He.
Qed.

Section Library.

Lemma example_st_dataframe_refuses :
  refuses_repeated_labels example_st_dataframe.
Proof.
  intros table. unfold example_st_dataframe. split; intros ->; eauto.
Qed.

End Library.

Lemma finished_batch_shows_count_and_table_witness :
  exists table,
    show_table example_st_dataframe
      (fst (process_all_resumes example_env (fun _ _ => Ret example_reply)
              [UploadedFile "cv.pdf" "%PDF"]
              {| Session.processed_data := [];
                 Session.processing_complete := false;
                 Session.custom_fields :=
                   [Field "full_name" "Full name" "Full Name"] |}))
    = Some (Ret table)
    /\ List.length (rows table) = 1
    /\ columns table = ["File Name"; "Full Name"; "Processed Date"].
Proof.
  destruct (@finished_batch_shows_count_and_table example_env
              (fun _ _ => Ret example_reply) [UploadedFile "cv.pdf" "%PDF"]
              {| Session.processed_data := [];
                 Session.processing_complete := false;
                 Session.custom_fields :=
                   [Field "full_name" "Full name" "Full Name"] |}
              _ _ example_st_dataframe eq_refl example_st_dataframe_refuses)
    as [_ [_ [_ [_ H]]]].
  destruct (H ltac:(discriminate)) as [_ [table [Hframe [Hrows [_ [_ [Hok _]]]]]]].
  exists table.
  vm_compute in Hframe. injection Hframe as <-.
  split; [exact (Hok eq_refl)|]. split; reflexivity.
Defined.

(** The process button, when the batch does not run to its end: the
    only exception that leaves the handler is the [TypeError] of the
    batch; the two assignments made before the batch stay, so the
    records of an earlier batch are gone, the session is marked not
    complete and the page shows no table and no summary. *)
Theorem aborted_batch_clears_session (E : env)
  (model : nat -> string -> res string) (uploaded_files : list uploaded_file)
  (s : Session.state) (e : exn) :
  fst (snd (process_all_resumes E model uploaded_files s)) = Raise e ->
  exn_type e = "TypeError"
  /\ fst (process_all_resumes E model uploaded_files s)
     = {| Session.processed_data := [];
          Session.processing_complete := false;
          Session.custom_fields := Session.custom_fields s |}
  /\ page_table (fst (process_all_resumes E model uploaded_files s)) = None
  /\ fst (process_uploaded_files E model uploaded_files (Session.custom_fields s))
     = Raise e
  /\ snd (snd (process_all_resumes E model uploaded_files s))
     = snd (process_uploaded_files E model uploaded_files
              (Session.custom_fields s)).
Proof.
  unfold process_all_resumes. cbn [Session.custom_fields].
  destruct (process_uploaded_files E model uploaded_files (Session.custom_fields s))
    as [[results|e'] shown] eqn:Hrun; cbn [fst snd]; [discriminate|].
  intros H. injection H as ->.
  split; [|repeat split].
  apply (@batch_raises_type_error E model (Session.custom_fields s)
           uploaded_files e).
  now rewrite Hrun.
Qed.

Lemma aborted_batch_clears_session_witness :
  fst (process_all_resumes example_env (fun _ _ => Ret "[1]")
         [UploadedFile "cv.pdf" "%PDF"; UploadedFile "next.pdf" "%PDF"]
         {| Session.processed_data := [example_record];
            Session.processing_complete := true;
            Session.custom_fields :=
              [Field "full_name" "Full name" "Full Name"] |})
  = {| Session.processed_data := [];
       Session.processing_complete := false;
       Session.custom_fields := [Field "full_name" "Full name" "Full Name"] |}.
Proof.
  exact (proj1 (proj2 (@aborted_batch_clears_session example_env
                         (fun _ _ => Ret "[1]")
                         [UploadedFile "cv.pdf" "%PDF";
                          UploadedFile "next.pdf" "%PDF"]
                         {| Session.processed_data := [example_record];
                            Session.processing_complete := true;
                            Session.custom_fields :=
                              [Field "full_name" "Full name" "Full Name"] |}
                         (Exn "TypeError"
                            "list indices must be integers or slices, not str")
                         eq_refl))).
Defined.

(** ** The table after the schema was replaced *)

Section StaleShape.

Lemma table_has_rows (processed_data : list pyval) (custom_fields : list field) :
  processed_data <> [] ->
  exists table,
    display_df true processed_data custom_fields = Some (Ret table)
    /\ List.length (rows table) = List.length processed_data.
Proof.
  intros Hne.
  destruct (@display_df_built processed_data custom_fields Hne)
    as [table [Hshow Hsel]].
  exists table. split; [exact Hshow|].
  destruct (@getitem_shape _ _ table Hsel) as [Hrows _].
  rewrite Hrows. unfold df_rename, pd_DataFrame. cbn [rows].
    now rewrite length_map, length_seq.
Qed.

End StaleShape.

Section Stale.

Variable custom_fields : list field.
Hypothesis well_formed : well_formed_schema custom_fields = true.
Variable processed_data : list pyval.
Hypothesis outside : forallb (outside_schema custom_fields) processed_data = true.

Lemma find_nowhere (A : Type) (p : A -> bool) (l : list A) :
  (forall x, In x l -> p x = false) -> find p l = None.
Proof.
  induction l as [|a l IH]; intros H; [reflexivity|].
  cbn [find]. rewrite (H a (or_introl eq_refl)). apply IH.
  intros x Hx. apply H. now right.
Qed.

Lemma filter_nothing (A : Type) (p : A -> bool) (l : list A) :
  (forall x, In x l -> p x = false) -> filter p l = [].
Proof.
  induction l as [|a l IH]; intros H; [reflexivity|].
  cbn [filter]. rewrite (H a (or_introl eq_refl)). apply IH.
  intros x Hx. apply H. now right.
Qed.

Lemma outside_key (k : string) :
  In k (union_keys processed_data) ->
  k = "file_name" \/ k = "processed_date"
  \/ (k <> "file_name" /\ k <> "processed_date"
      /\ ~ In k (schema_keys custom_fields)
      /\ ~ In k (schema_labels custom_fields)).
Proof.
  intros Hk. apply In_union_keys in Hk as [v [Hv Hk]].
  pose proof outside as Hall. rewrite forallb_forall in Hall.
  specialize (Hall v Hv). unfold outside_schema in Hall.
  rewrite forallb_forall in Hall. specialize (Hall k Hk).
  destruct (String.eqb_spec k "file_name") as [->|H1]; [now left|].
  destruct (String.eqb_spec k "processed_date") as [->|H2]; [right; now left|].
  right. right. cbn [orb] in Hall. apply negb_true_iff in Hall.
  apply mem_false_not_In in Hall.
  repeat split; try assumption; intros Hin; apply Hall; apply in_or_app; tauto.
Qed.

Lemma outside_key_keeps_label (k : string) :
  k <> "file_name" -> k <> "processed_date" ->
  ~ In k (schema_keys custom_fields) ->
  rename_label (column_mapping custom_fields) k = k.
Proof.
  intros H1 H2 Hnot. rewrite rename_schema_key by assumption.
  unfold last_field_named. rewrite find_nowhere; [reflexivity|].
  intros f Hf. apply in_rev in Hf.
  destruct (String.eqb_spec (field_name f) k) as [He|_]; [|reflexivity].
  exfalso. apply Hnot. right. right. rewrite <- He. now apply in_map.
Qed.

Lemma stale_columns_NoDup :
  NoDup (display_columns processed_data custom_fields).
Proof.
  unfold display_columns, df_rename, pd_DataFrame. cbn [columns].
  apply NoDup_map_NoDup_ForallPairs; [|apply union_keys_NoDup].
  destruct (rename_meta custom_fields) as [Lf Lp].
  intros k1 k2 H1 H2 He.
  destruct (outside_key k1 H1) as [->|[->|[A1 [B1 [C1 D1]]]]];
  destruct (outside_key k2 H2) as [->|[->|[A2 [B2 [C2 D2]]]]];
    try reflexivity;
    rewrite ?Lf, ?Lp, ?(outside_key_keeps_label A1 B1 C1),
            ?(outside_key_keeps_label A2 B2 C2) in He;
    try discriminate; try assumption.
  - exfalso. apply D2. rewrite <- He. now left.
  - exfalso. apply D2. rewrite <- He. right. now left.
  - exfalso. apply D1. rewrite He. now left.
  - exfalso. apply D1. rewrite He. right. now left.
Qed.

Lemma stale_labels_absent (f : field) :
  In f custom_fields ->
  PyStr.mem (column_name f) (display_columns processed_data custom_fields)
  = false.
Proof.
  intros Hf. apply mem_false_not_In. intros Hin.
  unfold display_columns, df_rename, pd_DataFrame in Hin. cbn [columns] in Hin.
  apply in_map_iff in Hin as [k [Hk Hu]].
  destruct (@field_names_free custom_fields well_formed f Hf)
    as [_ [_ [Hn1 Hn2]]].
  destruct (rename_meta custom_fields) as [Lf Lp].
  destruct (outside_key k Hu) as [->|[->|[A [B [C D]]]]].
  - rewrite Lf in Hk. congruence.
  - rewrite Lp in Hk. congruence.
  - rewrite (outside_key_keeps_label A B C) in Hk.
    apply D. rewrite Hk. right. right. now apply in_map.
Qed.

Lemma stale_claimed_columns :
  claimed_columns processed_data custom_fields
  = ["File Name"; "Processed Date"].
Proof.
  unfold claimed_columns. rewrite <- filter_map_labels.
  rewrite filter_nothing; [reflexivity|]. exact stale_labels_absent.
Qed.

End Stale.

(** A template button replaces the schema and leaves the records of
    the last batch in the session.  When the new schema is well formed
    and no key of these records, the meta keys apart, is a name or a
    label of it, the table that is shown next has the two meta columns
    only: the values extracted under the old schema are still in the
    session and none of them is shown. *)
Theorem new_schema_hides_old_columns (fields : list field) (s : Session.state) :
  Session.processing_complete s = true ->
  Session.processed_data s <> [] ->
  Forall has_meta_keys (Session.processed_data s) ->
  well_formed_schema fields = true ->
  forallb (outside_schema fields) (Session.processed_data s) = true ->
  exists s' table,
    load_template fields s = (Ret s', [st_rerun])
    /\ Session.processed_data s' = Session.processed_data s
    /\ Session.custom_fields s' = fields
    /\ page_table s' = Some (Ret table)
    /\ columns table = ["File Name"; "Processed Date"]
    /\ List.length (rows table) = List.length (Session.processed_data s).
Proof.
  intros Hdone Hne Hmeta Hwf Hout.
  pose proof (@table_columns_unique (Session.processed_data s) fields Hne Hmeta
                (@stale_columns_NoDup fields (Session.processed_data s) Hout))
    as Hcols.
  rewrite (@stale_claimed_columns fields Hwf (Session.processed_data s) Hout)
    in Hcols.
  destruct (@table_has_rows (Session.processed_data s) fields Hne)
    as [table [Hshow Hrows]].
  exists (Session.set_custom_fields fields s), table.
  split; [reflexivity|]. split; [reflexivity|]. split; [reflexivity|].
  unfold page_table.
  cbn [Session.set_custom_fields Session.processed_data
       Session.processing_complete Session.custom_fields].
  rewrite Hdone. split; [exact Hshow|]. split; [|exact Hrows].
  unfold table_columns in Hcols. rewrite Hshow in Hcols. now injection Hcols.
Qed.

Lemma new_schema_hides_old_columns_witness :
  exists s' table,
    load_template hr_fields
      {| Session.processed_data := [example_record];
         Session.processing_complete := true;
         Session.custom_fields :=
           [Field "full_name" "Full name" "Full Name";
            Field "email" "Email address" "Email"] |}
    = (Ret s', [st_rerun])
    /\ page_table s' = Some (Ret table)
    /\ columns table = ["File Name"; "Processed Date"].
Proof.
  destruct (@new_schema_hides_old_columns hr_fields
              {| Session.processed_data := [example_record];
                 Session.processing_complete := true;
                 Session.custom_fields :=
                   [Field "full_name" "Full name" "Full Name";
                    Field "email" "Email address" "Email"] |}
              eq_refl ltac:(discriminate)
              ltac:(repeat constructor; eexists; split;
                    [reflexivity | simpl; tauto])
              eq_refl eq_refl)
    as [s' [table [H1 [_ [_ [H2 [H3 _]]]]]]].
  exists s', table. repeat split; assumption.
Defined.

(** * Divergences from the claims *)

(** ** The table when two fields share a column name (C2) *)

Section SharedLabel.

Lemma filter_length_le (A : Type) (p q : A -> bool) (l : list A) :
  (forall x, In x l -> p x = true -> q x = true) ->
  List.length (filter p l) <= List.length (filter q l).
Proof.
  induction l as [|a l IH]; intros H; [reflexivity|].
  cbn [filter].
  assert (IH' : List.length (filter p l) <= List.length (filter q l))
    by (apply IH; intros x Hx; apply H; now right).
  destruct (p a) eqn:Hp.
  - rewrite (H a (or_introl eq_refl) Hp). simpl. lia.
  - destruct (q a); simpl; lia.
Qed.

Lemma flat_map_longer (A : Type) (g : A -> list A) (l : list A) (x : A) :
  (forall k, In k l -> 1 <= List.length (g k)) ->
  In x l -> 2 <= List.length (g x) ->
  List.length l < List.length (flat_map g l).
Proof.
  induction l as [|a l IH]; intros Hall Hin Hx; [destruct Hin|].
  cbn [flat_map]. rewrite List.length_app. cbn [List.length].
  assert (Hrest : List.length l <= List.length (flat_map g l)).
  { clear -Hall. induction l as [|b l IH]; [simpl; lia|].
    cbn [flat_map]. rewrite List.length_app. cbn [List.length].
    assert (1 <= List.length (g b)) by (apply Hall; right; now left).
    assert (List.length l <= List.length (flat_map g l)).
    { apply IH. intros k [->|Hk]; apply Hall; [now left | right; now right]. }
    lia. }
  destruct Hin as [->|Hin].
  - lia.
  - assert (1 <= List.length (g a)) by (apply Hall; now left).
    assert (List.length l < List.length (flat_map g l)).
    { apply IH; [|exact Hin | exact Hx]. intros k Hk. apply Hall. now right. }
    lia.
Qed.

Lemma two_under_one_label (r : string -> string) (X a b : string)
  (l : list string) :
  In a l -> In b l -> a <> b -> r a = X -> r b = X ->
  2 <= List.length (filter (String.eqb X) (map r l)).
Proof.
  intros Ha Hb Hne Hra Hrb.
  assert (Hone : forall c m, In c m -> r c = X ->
                   1 <= List.length (filter (String.eqb X) (map r m))).
  { intros c m Hc Hrc. induction m as [|d m IH]; [destruct Hc|].
    cbn [map filter]. destruct Hc as [->|Hc].
    - rewrite Hrc, String.eqb_refl. simpl. lia.
    - specialize (IH Hc). destruct (String.eqb X (r d)); simpl; lia. }
  induction l as [|d l IH]; [destruct Ha|].
  cbn [map filter].
  destruct Ha as [->|Ha], Hb as [->|Hb]; try congruence.
  - rewrite Hra, String.eqb_refl. pose proof (Hone b l Hb Hrb). simpl. lia.
  - rewrite Hrb, String.eqb_refl. pose proof (Hone a l Ha Hra). simpl. lia.
  - specialize (IH Ha Hb). destruct (String.eqb X (r d)); simpl; lia.
Qed.

Lemma repeated_in_flat_map (g : string -> list string) (l : list string)
  (x : string) :
  In x l -> ~ NoDup (g x) -> ~ NoDup (flat_map g l).
Proof.
  induction l as [|a l IH]; intros Hin Hbad Hnd; [destruct Hin|].
  cbn [flat_map] in Hnd. destruct Hin as [->|Hin].
  - apply Hbad. now apply NoDup_app_remove_r in Hnd.
  - apply (IH Hin Hbad). now apply NoDup_app_remove_l in Hnd.
Qed.

Lemma two_equal_not_NoDup (X : string) (l : list string) :
  Forall (eq X) l -> 2 <= List.length l -> ~ NoDup l.
Proof.
  intros Hall Hlen Hnd.
  destruct l as [|a [|b l]]; try (simpl in Hlen; lia).
  inversion Hall as [|? ? Ha Hall']; subst.
  inversion Hall' as [|? ? Hb _]; subst.
  inversion Hnd as [|? ? Hnotin _]; subst. apply Hnotin. now left.
Qed.

Lemma not_NoDup_not_distinct (l : list string) :
  ~ NoDup l -> distinct l = false.
Proof.
  intros H. destruct (distinct l) eqn:Hd; [|reflexivity].
  destruct (H (distinct_NoDup l Hd)).
Qed.

Variable custom_fields : list field.
Hypothesis distinct_names : distinct (schema_keys custom_fields) = true.

(** With field names that are pairwise distinct and no meta keys, the
    key of a field is shown under the column name of that field. *)
Lemma rename_named_field (f : field) :
  In f custom_fields ->
  rename_label (column_mapping custom_fields) (field_name f) = column_name f.
Proof.
  intros Hf.
  pose proof (distinct_NoDup _ distinct_names) as Hk. unfold schema_keys in Hk.
  inversion Hk as [|a l Hk1 Hk']; subst. inversion Hk' as [|a l Hk2 Hk'']; subst.
  rewrite rename_schema_key.
  - unfold last_field_named.
    rewrite (@find_in_unique field field_name (rev custom_fields) f);
      [reflexivity | | now apply in_rev in Hf].
    rewrite map_rev. now apply NoDup_rev.
  - intros He. apply Hk1. right. rewrite <- He. now apply in_map.
  - intros He. apply Hk2. rewrite <- He. now apply in_map.
Qed.

Lemma present_key (processed_data : list pyval) (f : field) :
  present processed_data f = true ->
  In (field_name f) (union_keys processed_data).
Proof.
  unfold present. intros H. apply existsb_exists in H as [v [Hv Hk]].
  apply In_union_keys. exists v. split; [exact Hv|].
  unfold Dict.mem in Hk. now apply mem_In.
Qed.

Lemma present_label (processed_data : list pyval) (f : field) :
  In f custom_fields ->
  present processed_data f = true ->
  In (column_name f) (display_columns processed_data custom_fields).
Proof.
  intros Hf Hp. unfold display_columns, df_rename, pd_DataFrame. cbn [columns].
  rewrite <- (rename_named_field f Hf). apply in_map. now apply present_key.
Qed.

End SharedLabel.

(** C2 on the code: the form takes a field whose column name is that of
    another field.  When the names of the fields are pairwise distinct
    and two fields that are present in the records share a column name,
    both of their columns carry the label after the renaming, and the
    selection by label takes both of them once for each occurrence of
    the label in the order list: the frame has more columns than the
    claimed order has labels, it carries the label more than once, and
    [st.dataframe], which refuses repeated labels, raises on it. *)
Theorem shared_column_name_repeats_columns (processed_data : list pyval)
  (custom_fields : list field) (f1 f2 : field)
  (st_dataframe : DataFrame -> res unit) :
  processed_data <> [] ->
  Forall has_meta_keys processed_data ->
  distinct (schema_keys custom_fields) = true ->
  In f1 custom_fields -> In f2 custom_fields ->
  field_name f1 <> field_name f2 ->
  column_name f1 = column_name f2 ->
  present processed_data f1 = true ->
  present processed_data f2 = true ->
  exists table,
    display_df true processed_data custom_fields = Some (Ret table)
    /\ List.length (claimed_order processed_data custom_fields)
       < List.length (columns table)
    /\ table_columns true processed_data custom_fields
       <> Some (claimed_order processed_data custom_fields)
    /\ distinct (columns table) = false
    /\ (refuses_repeated_labels st_dataframe ->
        exists e,
          show_table st_dataframe
            {| Session.processed_data := processed_data;
               Session.processing_complete := true;
               Session.custom_fields := custom_fields |}
          = Some (Raise e)).
Proof.
  intros Hne Hmeta Hnames Hf1 Hf2 Hdiff Hsame Hp1 Hp2.
  destruct (@meta_labels_displayed processed_data custom_fields Hne Hmeta)
    as [Hfn Hpd].
  destruct (@display_df_built processed_data custom_fields Hne)
    as [table [Hshow Hsel]].
  pose proof (@getitem_columns _ _ table Hsel) as Hcols.
  change (columns (df_rename (column_mapping custom_fields)
                     (pd_DataFrame processed_data)))
    with (display_columns processed_data custom_fields) in Hcols.
  rewrite (@existing_columns_all (display_columns processed_data custom_fields)
             custom_fields Hfn Hpd) in Hcols.
  set (dcols := display_columns processed_data custom_fields) in *.
  set (order := (["File Name"]
                 ++ filter (fun c => PyStr.mem c dcols)
                           (map column_name custom_fields)
                 ++ ["Processed Date"])%list) in *.
  set (g := fun k => filter (String.eqb k) dcols) in *.
  assert (Hlabel1 : In (column_name f1) dcols)
    by now apply (@present_label custom_fields Hnames processed_data f1).
  assert (Htwo : 2 <= List.length (g (column_name f1))).
  { unfold g, dcols, display_columns, df_rename, pd_DataFrame. cbn [columns].
    apply (@two_under_one_label _ (column_name f1) (field_name f1)
             (field_name f2)).
    - now apply present_key.
    - now apply present_key.
    - exact Hdiff.
    - now apply rename_named_field.
    - rewrite Hsame. now apply rename_named_field. }
  assert (Hin : In (column_name f1) order).
  { unfold order. apply in_or_app. right. apply in_or_app. left.
    apply filter_In. split; [now apply in_map | now apply mem_In]. }
  assert (Hall : forall k, In k order -> 1 <= List.length (g k)).
  { intros k Hk. unfold g.
    assert (Hkd : In k dcols).
    { unfold order in Hk.
      apply in_app_or in Hk as [[<-|[]]|Hk]; [exact Hfn|].
      apply in_app_or in Hk as [Hk|[<-|[]]]; [|exact Hpd].
      apply filter_In in Hk as [_ Hk]. now apply mem_In. }
    pose proof (filter_eqb_present k dcols Hkd) as Hn.
    destruct (filter (String.eqb k) dcols); [congruence | simpl; lia]. }
  assert (Hlen : List.length (claimed_order processed_data custom_fields)
                 <= List.length order).
  { unfold claimed_order, order. rewrite !List.length_app, !length_map.
    cbn [List.length]. rewrite <- filter_map_labels, length_map.
    assert (List.length (filter (present processed_data) custom_fields)
            <= List.length (filter (fun f => PyStr.mem (column_name f) dcols)
                                   custom_fields)).
    { apply filter_length_le. intros f Hf Hp. apply mem_In.
      now apply (@present_label custom_fields Hnames processed_data f). }
    lia. }
  pose proof (@flat_map_longer string g order (column_name f1) Hall Hin Htwo)
    as Hlong.
  assert (Hbad : distinct (columns table) = false).
  { apply not_NoDup_not_distinct. rewrite Hcols.
    apply (@repeated_in_flat_map g order (column_name f1) Hin).
    apply (@two_equal_not_NoDup (column_name f1)); [apply filter_eqb_all|].
    exact Htwo. }
  exists table. split; [exact Hshow|]. rewrite Hcols.
  split; [lia|]. split; [|split].
  - unfold table_columns. rewrite Hshow, Hcols. intros He.
    assert (He' : flat_map g order
                  = claimed_order processed_data custom_fields)
      by (now injection He).
    rewrite <- He' in Hlen. lia.
  - rewrite <- Hcols. exact Hbad.
  - intros Hlib. unfold show_table, page_table.
    cbn [Session.processed_data Session.processing_complete
         Session.custom_fields].
    rewrite Hshow. destruct (Hlib table) as [_ Hraise].
    destruct (Hraise Hbad) as [e He]. exists e. now rewrite He.
Qed.

Lemma shared_column_name_repeats_columns_witness :
  add_field true "last" "Last name" "Name" [Field "first" "First name" "Name"]
  = (Ret [Field "first" "First name" "Name"; Field "last" "Last name" "Name"],
     [sidebar_success "✅ Added: Name"; st_rerun])
  /\ table_columns true
       [PyDict [("first", PyStr "Jane"); ("last", PyStr "Doe");
                ("file_name", PyStr "cv.pdf");
                ("processed_date", PyStr "2025-03-09 14:05:07")]]
       [Field "first" "First name" "Name"; Field "last" "Last name" "Name"]
     = Some ["File Name"; "Name"; "Name"; "Name"; "Name"; "Processed Date"]
  /\ claimed_order
       [PyDict [("first", PyStr "Jane"); ("last", PyStr "Doe");
                ("file_name", PyStr "cv.pdf");
                ("processed_date", PyStr "2025-03-09 14:05:07")]]
       [Field "first" "First name" "Name"; Field "last" "Last name" "Name"]
     = ["File Name"; "Name"; "Name"; "Processed Date"]
  /\ exists e,
       show_table example_st_dataframe
         {| Session.processed_data :=
              [PyDict [("first", PyStr "Jane"); ("last", PyStr "Doe");
                       ("file_name", PyStr "cv.pdf");
                       ("processed_date", PyStr "2025-03-09 14:05:07")]];
            Session.processing_complete := true;
            Session.custom_fields :=
              [Field "first" "First name" "Name";
               Field "last" "Last name" "Name"] |}
       = Some (Raise e).
Proof.
  split; [reflexivity|]. split; [reflexivity|]. split; [reflexivity|].
  destruct (@shared_column_name_repeats_columns
              [PyDict [("first", PyStr "Jane"); ("last", PyStr "Doe");
                       ("file_name", PyStr "cv.pdf");
                       ("processed_date", PyStr "2025-03-09 14:05:07")]]
              [Field "first" "First name" "Name"; Field "last" "Last name" "Name"]
              (Field "first" "First name" "Name") (Field "last" "Last name" "Name")
              example_st_dataframe
              ltac:(discriminate)
              ltac:(repeat constructor; eexists; split;
                    [reflexivity | simpl; tauto])
              eq_refl
              ltac:(simpl; tauto) ltac:(simpl; tauto)
              ltac:(discriminate) eq_refl eq_refl eq_refl)
    as [table [_ [_ [_ [_ H]]]]].
  exact (H example_st_dataframe_refuses).
Defined.

(** ** A fence that is not closed (C4) *)

Section Unclosed.

Lemma clean_opening_fence (opening payload : string) :
  opening = "```json"
  \/ (opening = "```" /\ PyStr.startswith ("```" ++ payload) "```json" = false) ->
  clean_json_response (opening ++ payload)
  = substring 0 (String.length payload - 3) payload.
Proof.
  intros [->|[-> Hgeneric]]; unfold clean_json_response.
  - replace (PyStr.startswith ("```json" ++ payload) "```json") with true
      by (symmetry; apply prefix_app).
    unfold PyStr.slice. rewrite length_app.
    change (String.length "```json") with 7.
    replace (7 + String.length payload - 3 - 7)
      with (String.length payload - 3) by lia.
    exact (substring_skip "```json" payload (String.length payload - 3)).
  - rewrite Hgeneric.
    replace (PyStr.startswith ("```" ++ payload) "```") with true
      by (symmetry; apply prefix_app).
    unfold PyStr.slice. rewrite length_app.
    change (String.length "```") with 3.
    replace (3 + String.length payload - 3 - 3)
      with (String.length payload - 3) by lia.
    exact (substring_skip "```" payload (String.length payload - 3)).
Qed.

Lemma fences_only_opening (opening payload : string) :
  opening = "```json"
  \/ (opening = "```" /\ PyStr.startswith ("```" ++ payload) "```json" = false) ->
  ends_with payload "```" = false ->
  fences_only_clean (opening ++ payload) = payload.
Proof.
  intros [->|[-> Hgeneric]] Hopen; unfold fences_only_clean.
  - replace (PyStr.startswith ("```json" ++ payload) "```json") with true
      by (symmetry; apply prefix_app).
    unfold drop_front. rewrite length_app.
    change (String.length "```json") with 7.
    replace (7 + String.length payload - 7) with (String.length payload) by lia.
    replace (substring 7 (String.length payload) ("```json" ++ payload))
      with (substring 0 (String.length payload) payload)
      by (symmetry;
          exact (substring_skip "```json" payload (String.length payload))).
    rewrite substring_whole. unfold drop_closing_fence. now rewrite Hopen.
  - rewrite Hgeneric.
    replace (PyStr.startswith ("```" ++ payload) "```") with true
      by (symmetry; apply prefix_app).
    unfold drop_front. rewrite length_app.
    change (String.length "```") with 3.
    replace (3 + String.length payload - 3) with (String.length payload) by lia.
    replace (substring 3 (String.length payload) ("```" ++ payload))
      with (substring 0 (String.length payload) payload)
      by (symmetry;
          exact (substring_skip "```" payload (String.length payload))).
    rewrite substring_whole. unfold drop_closing_fence. now rewrite Hopen.
Qed.

End Unclosed.

(** C4 on the code: the two slices cut three characters at the end
    without a look at them.  For a response that opens with a fence,
    either form, and goes on with a payload that is not closed by a
    fence, the text given to the deserializer is the payload less its
    last three characters, where removing the fence delimiters only
    would give the payload; the parser then answers with what
    [json.loads] makes of the cut payload. *)
Theorem unclosed_fence_cuts_payload (E : env) (opening payload : string)
  (resume_text : string) (f : field) (fields : list field) :
  opening = "```json"
  \/ (opening = "```" /\ PyStr.startswith ("```" ++ payload) "```json" = false) ->
  payload <> "" ->
  ends_with payload "```" = false ->
  PyStr.strip (opening ++ payload) = opening ++ payload ->
  deserializer_input (opening ++ payload)
  = substring 0 (String.length payload - 3) payload
  /\ String.length (deserializer_input (opening ++ payload))
     = String.length payload - 3
  /\ deserializer_input (opening ++ payload) <> payload
  /\ fences_only_clean (PyStr.strip (opening ++ payload)) = payload
  /\ fst (parse_resume_with_gemma E (fun _ => Ret (opening ++ payload))
            resume_text (f :: fields))
     = Ret match returned
                   (json_loads E
                      (substring 0 (String.length payload - 3) payload)) with
           | Some v => v
           | None => PyNone
           end.
Proof.
  intros Hopening Hne Hopen Hstrip.
  assert (Hclean : deserializer_input (opening ++ payload)
                   = substring 0 (String.length payload - 3) payload).
  { unfold deserializer_input. rewrite Hstrip.
    now apply clean_opening_fence. }
  assert (Hlen : String.length (deserializer_input (opening ++ payload))
                 = String.length payload - 3).
  { rewrite Hclean, substring_length. apply Nat.min_l. lia. }
  split; [exact Hclean|]. split; [exact Hlen|]. split; [|split].
  - intros He. rewrite He in Hlen.
    destruct payload; [congruence | simpl in Hlen; lia].
  - rewrite Hstrip. now apply fences_only_opening.
  - rewrite (@parse_value_of_response E (opening ++ payload) resume_text f fields).
    now rewrite Hclean.
Qed.

Lemma unclosed_fence_cuts_payload_witness :
  deserializer_input ("```json" ++ PyStr.NL ++ "{" ++ example_object_body ++ "}")
  = PyStr.NL ++ "{" ++ PyStr.DQ ++ "full_name" ++ PyStr.DQ ++ ": "
    ++ PyStr.DQ ++ "Not Foun"
  /\ fst (parse_resume_with_gemma example_env
            (fun _ => Ret ("```json" ++ PyStr.NL ++ "{" ++ example_object_body ++ "}"))
            "Jane Doe" [Field "full_name" "Full name" "Full Name"])
     = Ret PyNone
  /\ fst (parse_resume_with_gemma example_env
            (fun _ => Ret ("```json" ++ PyStr.NL ++ "{" ++ example_object_body ++ "}"
                           ++ "```"))
            "Jane Doe" [Field "full_name" "Full name" "Full Name"])
     = Ret (PyDict [("full_name", PyStr "Not Found")]).
Proof.
  destruct (@unclosed_fence_cuts_payload example_env "```json"
              (PyStr.NL ++ "{" ++ example_object_body ++ "}")
              "Jane Doe" (Field "full_name" "Full name" "Full Name") []
              (or_introl eq_refl) ltac:(discriminate) eq_refl eq_refl)
    as [H1 [_ [_ [_ H2]]]].
  split; [rewrite H1; reflexivity|]. split; [rewrite H2; reflexivity|].
  reflexivity.
Defined.

(** ** The lines of the prompt (C7) *)

Section PromptLines.

Lemma split_app_sep (sep : ascii) (a b : string) :
  PyStr.split sep (a ++ String sep b)
  = (PyStr.split sep a ++ PyStr.split sep b)%list.
Proof.
  induction a as [|c a IH].
  - cbn [append PyStr.split]. now rewrite Ascii.eqb_refl.
  - change (PyStr.split sep (String c a ++ String sep b))
      with (if Ascii.eqb c sep
            then EmptyString :: PyStr.split sep (a ++ String sep b)
            else match PyStr.split sep (a ++ String sep b) with
                 | [] => [String c EmptyString]
                 | h :: t => String c h :: t
                 end).
    change (PyStr.split sep (String c a))
      with (if Ascii.eqb c sep
            then EmptyString :: PyStr.split sep a
            else match PyStr.split sep a with
                 | [] => [String c EmptyString]
                 | h :: t => String c h :: t
                 end).
    rewrite IH. destruct (Ascii.eqb c sep); [reflexivity|].
    assert (Hne : PyStr.split sep a <> [])
      by (clear; destruct a as [|d a]; cbn [PyStr.split];
          [discriminate|];
          destruct (Ascii.eqb d sep); [discriminate|];
          destruct (PyStr.split sep a); discriminate).
    destruct (PyStr.split sep a) as [|h t]; [congruence | reflexivity].
Qed.

Lemma lines_one_line (s : string) : one_line s = true -> lines s = [s].
Proof.
  unfold lines, one_line. induction s as [|c s IH]; [reflexivity|].
  cbn [all_chars PyStr.split]. intros H.
  apply andb_true_iff in H as [Hc Hs]. apply negb_true_iff in Hc.
  now rewrite Hc, IH.
Qed.

(** The lines of parts that are joined by line feeds are the lines of
    the parts. *)
Lemma lines_join (parts : list string) :
  parts <> [] ->
  lines (PyStr.join PyStr.NL parts) = flat_map lines parts.
Proof.
  induction parts as [|p rest IH]; intros Hne; [congruence|].
  destruct rest as [|q rest].
  - cbn [PyStr.join flat_map]. now rewrite app_nil_r.
  - change (PyStr.join PyStr.NL (p :: q :: rest))
      with (p ++ String (ascii_of_nat 10) (PyStr.join PyStr.NL (q :: rest))).
    unfold lines at 1. rewrite split_app_sep. fold (lines p).
    fold (lines (PyStr.join PyStr.NL (q :: rest))).
    rewrite IH by discriminate. reflexivity.
Qed.

Lemma lines_of_lines (parts : list string) :
  Forall (fun p => one_line p = true) parts -> flat_map lines parts = parts.
Proof.
  induction 1 as [|p rest Hp _ IH]; [reflexivity|].
  cbn [flat_map]. now rewrite (lines_one_line p Hp), IH.
Qed.

Lemma one_line_app (a b : string) :
  one_line (a ++ b) = one_line a && one_line b.
Proof.
  unfold one_line. induction a as [|c a IH]; [reflexivity|].
  cbn [append all_chars]. now rewrite IH, andb_assoc.
Qed.

Lemma field_line_one_line (f : field) :
  one_line (field_name f) = true -> one_line (description f) = true ->
  one_line (field_line f) = true.
Proof.
  intros Hn Hd. unfold field_line. rewrite !one_line_app, Hn, Hd. reflexivity.
Qed.

(** The f-string, as parts joined by line feeds. *)
Lemma prompt_text_parts (field_descriptions : list string)
  (resume_text : string) :
  prompt_text field_descriptions special_instructions resume_text
  = PyStr.join PyStr.NL
      (head_lines ++ [PyStr.join PyStr.NL field_descriptions]
       ++ middle_lines ++ [resume_text] ++ tail_lines).
Proof. reflexivity. Qed.

(** A part stands in the joined text as it is, between what is joined
    before it and what is joined after it. *)
Lemma join_around (before after : list string) (part : string) :
  before <> [] -> after <> [] ->
  PyStr.join PyStr.NL (before ++ [part] ++ after)
  = PyStr.join PyStr.NL (before ++ [""]) ++ part
    ++ PyStr.join PyStr.NL ("" :: after).
Proof.
  intros Hb Ha. induction before as [|p rest IH]; [congruence|].
  destruct after as [|a after]; [congruence|].
  destruct rest as [|q rest].
  - cbn [app PyStr.join]. now rewrite !app_assoc_s.
  - change (PyStr.join PyStr.NL ((p :: q :: rest) ++ [part] ++ a :: after))
      with (p ++ PyStr.NL
            ++ PyStr.join PyStr.NL ((q :: rest) ++ [part] ++ a :: after)).
    rewrite IH by discriminate.
    change (PyStr.join PyStr.NL ((p :: q :: rest) ++ [""]))
      with (p ++ PyStr.NL ++ PyStr.join PyStr.NL ((q :: rest) ++ [""])).
    now rewrite !app_assoc_s.
Qed.

End PromptLines.

(** C7, with the entry of a field in place of its line: split at the
    line feeds, the prompt of a schema that is not empty is the four
    fixed lines of the head, then for each field, in the order of the
    schema, the lines of its entry [- field_name: description], then
    the fixed lines of the middle part, then the lines of the document
    text, then the three fixed lines of the tail.  Where no field name
    and no description holds a line feed, the entry of a field is one
    line.  The text stands in the prompt as it is, between a part that
    ends with the line [**Resume Text:**] and the tail.  Building the
    prompt shows nothing on the page, and it is the prompt the service
    is called on. *)
Theorem prompt_has_one_entry_per_field (E : env) (custom_fields : list field)
  (resume_text : string) :
  custom_fields <> [] ->
  lines (built_prompt custom_fields resume_text)
  = (head_lines
     ++ flat_map (fun f => lines ("- " ++ field_name f ++ ": " ++ description f))
                 custom_fields
     ++ middle_lines ++ lines resume_text ++ tail_lines)%list
  /\ (Forall (fun f => one_line (field_name f) = true
                       /\ one_line (description f) = true) custom_fields ->
      lines (built_prompt custom_fields resume_text)
      = (head_lines
         ++ map (fun f => ("- " ++ field_name f ++ ": " ++ description f)%string)
                custom_fields
         ++ middle_lines ++ lines resume_text ++ tail_lines)%list)
  /\ (exists before after,
        built_prompt custom_fields resume_text
        = before ++ resume_text ++ after
        /\ lines before
           = (head_lines
              ++ flat_map
                   (fun f => lines ("- " ++ field_name f ++ ": " ++ description f))
                   custom_fields
              ++ middle_lines ++ [""])%list
        /\ lines after = ("" :: tail_lines)%list)
  /\ build_dynamic_prompt custom_fields
     = (Ret (custom_fields,
             map (fun f => ("- " ++ field_name f ++ ": " ++ description f)%string)
                 custom_fields,
             special_instructions), [])
  /\ (forall model,
        parse_resume_with_gemma E model resume_text custom_fields
        = try_except
            (response_text <- lift (model (built_prompt custom_fields resume_text)) ;;
             lift (json_loads E (deserializer_input response_text)))
            (fun e =>
               emit (st_error ("Error parsing resume with Gemma: " ++ exn_msg e)) ;;
               ret PyNone)).
Proof.
  intros Hne.
  assert (Hentries : lines (PyStr.join PyStr.NL (map field_line custom_fields))
                     = flat_map (fun f => lines (field_line f)) custom_fields).
  { rewrite lines_join by (destruct custom_fields; [congruence | discriminate]).
    clear. induction custom_fields as [|f fields IH]; [reflexivity|].
    cbn [map flat_map]. now rewrite IH. }
  assert (Hall : lines (built_prompt custom_fields resume_text)
                 = (head_lines
                    ++ flat_map (fun f => lines (field_line f)) custom_fields
                    ++ middle_lines ++ lines resume_text ++ tail_lines)%list).
  { unfold built_prompt. rewrite prompt_text_parts.
    rewrite lines_join by discriminate.
    rewrite !flat_map_app. cbn [flat_map]. rewrite !app_nil_r.
    rewrite Hentries. reflexivity. }
  split; [exact Hall|split; [|split; [|split]]].
  - intros Hclean. rewrite Hall. do 2 f_equal.
    clear - Hclean. induction Hclean as [|f fields [Hn Hd] _ IH]; [reflexivity|].
    cbn [map flat_map].
    rewrite (lines_one_line (field_line f) (field_line_one_line f Hn Hd)).
    now rewrite IH.
  - exists (PyStr.join PyStr.NL
              ((head_lines ++ [PyStr.join PyStr.NL (map field_line custom_fields)]
                ++ middle_lines) ++ [""])),
           (PyStr.join PyStr.NL ("" :: tail_lines)).
    split; [|split].
    + unfold built_prompt. rewrite prompt_text_parts.
      rewrite <- (@join_around
                    (head_lines
                     ++ [PyStr.join PyStr.NL (map field_line custom_fields)]
                     ++ middle_lines) tail_lines resume_text)
        by discriminate.
      now rewrite <- !app_assoc.
    + rewrite lines_join by discriminate.
      rewrite !flat_map_app. cbn [flat_map]. rewrite !app_nil_r.
      rewrite Hentries. now rewrite <- !app_assoc.
    + reflexivity.
  - destruct custom_fields as [|f fields]; [congruence | reflexivity].
  - intros model. destruct custom_fields as [|f fields]; [congruence|].
    unfold parse_resume_with_gemma, build_dynamic_prompt,
      built_prompt, bind at 1, ret at 1.
    cbv beta iota.
    match goal with |- (let (r, l') := ?m in _) = _ => destruct m as [r l] end.
    reflexivity.
Qed.

Lemma prompt_has_one_entry_per_field_witness :
  lines (built_prompt [Field "full_name" "Full name" "Full Name";
                       Field "email" "Email address" "Email"]
                      ("Jane Doe" ++ PyStr.NL ++ "jane@example.org"))
  = (head_lines
     ++ ["- full_name: Full name"; "- email: Email address"]
     ++ middle_lines
     ++ ["Jane Doe"; "jane@example.org"]
     ++ tail_lines)%list.
Proof.
  exact (proj1 (proj2 (@prompt_has_one_entry_per_field example_env
                         [Field "full_name" "Full name" "Full Name";
                          Field "email" "Email address" "Email"]
                         ("Jane Doe" ++ PyStr.NL ++ "jane@example.org")
                         ltac:(discriminate)))
               ltac:(repeat constructor)).
Defined.

(** C7 as stated fails: a description that holds a line feed gives its
    field more than one line, and the prompt of this one-field schema
    is the prompt of a schema of two fields. *)
Lemma description_with_line_feed_gives_two_lines :
  lines (built_prompt
           [Field "key_skills"
                  ("Technical skills" ++ PyStr.NL ++ "- salary: Expected salary")
                  "Skills"]
           "Jane Doe")
  = (head_lines
     ++ ["- key_skills: Technical skills"; "- salary: Expected salary"]
     ++ middle_lines ++ ["Jane Doe"] ++ tail_lines)%list
  /\ built_prompt
       [Field "key_skills"
              ("Technical skills" ++ PyStr.NL ++ "- salary: Expected salary")
              "Skills"]
       "Jane Doe"
     = built_prompt
         [Field "key_skills" "Technical skills" "Skills";
          Field "salary" "Expected salary" "Salary"]
         "Jane Doe"
  /\ List.length
       [Field "key_skills"
              ("Technical skills" ++ PyStr.NL ++ "- salary: Expected salary")
              "Skills"] = 1.
Proof. repeat split. Qed.

(** ** The annotation of a parsed mapping (C10) *)

Section Stamp.

Lemma digit_inj (a b : nat) : digit a = digit b -> a mod 10 = b mod 10.
Proof.
  unfold digit. intros H. apply (f_equal nat_of_ascii) in H.
  pose proof (Nat.mod_upper_bound a 10 ltac:(discriminate)) as Ha.
  pose proof (Nat.mod_upper_bound b 10 ltac:(discriminate)) as Hb.
  rewrite !nat_ascii_embedding in H by lia. lia.
Qed.

Lemma pad2_inj (n m : nat) : n < 100 -> m < 100 -> pad2 n = pad2 m -> n = m.
Proof.
  intros Hn Hm H. unfold pad2 in H.
  assert (H1 : digit (n / 10) = digit (m / 10)) by congruence.
  assert (H0 : digit n = digit m) by congruence.
  apply digit_inj in H1, H0.
  assert (Hn' : n / 10 < 10) by (apply Nat.Div0.div_lt_upper_bound; lia).
  assert (Hm' : m / 10 < 10) by (apply Nat.Div0.div_lt_upper_bound; lia).
  rewrite (Nat.mod_small _ _ Hn'), (Nat.mod_small _ _ Hm') in *.
  rewrite (Nat.div_mod_eq n 10), (Nat.div_mod_eq m 10). congruence.
Qed.

Lemma pad4_inj (n m : nat) :
  n / 1000 < 10 -> m / 1000 < 10 -> pad4 n = pad4 m -> n = m.
Proof.
  intros Hn Hm H. unfold pad4, pad2 in H.
  assert (H3 : digit (n / 1000) = digit (m / 1000)) by congruence.
  assert (H2 : digit (n / 100) = digit (m / 100)) by congruence.
  assert (H1 : digit (n / 10) = digit (m / 10)) by congruence.
  assert (H0 : digit n = digit m) by congruence.
  apply digit_inj in H3, H2, H1, H0.
  rewrite (Nat.mod_small _ _ Hn), (Nat.mod_small _ _ Hm) in *.
  assert (E2 : forall k, k / 100 = 10 * (k / 1000) + (k / 100) mod 10).
  { intros k. rewrite (Nat.div_mod_eq (k / 100) 10) at 1.
    now rewrite Nat.Div0.div_div. }
  assert (E1 : forall k, k / 10 = 10 * (k / 100) + (k / 10) mod 10).
  { intros k. rewrite (Nat.div_mod_eq (k / 10) 10) at 1.
    now rewrite Nat.Div0.div_div. }
  rewrite (Nat.div_mod_eq n 10), (Nat.div_mod_eq m 10).
  rewrite (E1 n), (E1 m), (E2 n), (E2 m). congruence.
Qed.

(** The stamp tells the second of the reading, and no more. *)
Lemma stamp_tells_the_second (dt dt' : datetime) :
  clock_reading dt -> clock_reading dt' ->
  (strftime_Ymd_HMS dt = strftime_Ymd_HMS dt' <-> same_second dt dt').
Proof.
  intros [Hy [Hmo [Hd [Hh [Hmi Hs]]]]] [Hy' [Hmo' [Hd' [Hh' [Hmi' Hs']]]]].
  destruct dt as [y mo d h mi s us], dt' as [y' mo' d' h' mi' s' us'].
  unfold same_second. cbn [year month day hour minute second] in *.
  split.
  - intros H. unfold strftime_Ymd_HMS in H.
    cbn [year month day hour minute second] in H.
    assert (Hy4 : pad4 y = pad4 y'
                  /\ pad2 mo = pad2 mo' /\ pad2 d = pad2 d'
                  /\ pad2 h = pad2 h' /\ pad2 mi = pad2 mi'
                  /\ pad2 s = pad2 s').
    { unfold pad4, pad2 in *. cbn [append] in H.
      repeat split; congruence. }
    destruct Hy4 as [Ey [Emo [Ed [Eh [Emi Es]]]]].
    repeat split;
      [apply pad4_inj | apply pad2_inj | apply pad2_inj
       | apply pad2_inj | apply pad2_inj | apply pad2_inj];
      solve [assumption | lia].
  - intros [-> [-> [-> [-> [-> ->]]]]]. reflexivity.
Qed.

End Stamp.

(** C10, with the case of the empty mapping told apart.  When the
    parser returned a mapping that is not empty, the record appended to
    the results is that mapping with [file_name] set to the name of the
    document and [processed_date] set to the stamp of the clock
    reading; whatever the service put under the two keys is replaced,
    and every other key keeps its value.  When the parser returned the
    empty mapping, nothing is annotated and nothing is appended: the
    document is reported as failed.  The stamp has nineteen characters
    and tells the second of the reading and no more: two readings have
    the same stamp exactly when they are in the same second. *)
Theorem annotation_sets_two_keys (E : env) (model : nat -> string -> res string)
  (custom_fields : list field) (total i : nat) (f : uploaded_file)
  (text : string) (results : list pyval) (d : record) :
  PyStr.truthy text = true ->
  fst (parse_resume_with_gemma E (model i) text custom_fields) = Ret (PyDict d) ->
  (d <> [] ->
   exists d',
     process_text E model custom_fields total i f (Some text) results
     = (Ret (results ++ [PyDict d'])%list,
        [st_success ("✅ Processed: " ++ name f);
         st_progress (i + 1) total; time_sleep_half])
     /\ Dict.get "file_name" d' = Some (PyStr (name f))
     /\ Dict.get "processed_date" d'
        = Some (PyStr (strftime_Ymd_HMS (datetime_now E i)))
     /\ (forall k, k <> "file_name" -> k <> "processed_date" ->
           Dict.get k d' = Dict.get k d)
     /\ (forall k, In k (Dict.keys d') <->
           k = "file_name" \/ k = "processed_date" \/ In k (Dict.keys d)))
  /\ (d = [] ->
      process_text E model custom_fields total i f (Some text) results
      = (Ret results,
         [st_error ("❌ Failed to process: " ++ name f);
          st_progress (i + 1) total; time_sleep_half]))
  /\ String.length (strftime_Ymd_HMS (datetime_now E i)) = 19
  /\ (forall dt,
        clock_reading (datetime_now E i) -> clock_reading dt ->
        (strftime_Ymd_HMS dt = strftime_Ymd_HMS (datetime_now E i)
         <-> same_second dt (datetime_now E i))).
Proof.
  intros Ht Hv.
  assert (Hp : parse_resume_with_gemma E (model i) text custom_fields
               = (Ret (PyDict d), [])).
  { destruct (parse_outcome E (model i) text custom_fields) as [[v Hp]|[e Hp]];
      rewrite Hp in Hv; cbn [fst] in Hv; [|discriminate].
    now rewrite Hp, Hv. }
  split; [|split; [|split]].
  - intros Hd.
    exists (annotate d (name f) (strftime_Ymd_HMS (datetime_now E i))).
    split; [|split; [|split; [|split]]].
    + unfold process_text. rewrite Ht, Hp.
      destruct d; [congruence | reflexivity].
    + unfold annotate. rewrite get_set_other by discriminate.
      apply get_set_same.
    + unfold annotate. apply get_set_same.
    + intros k H1 H2. unfold annotate.
      now rewrite !get_set_other by assumption.
    + intros k. unfold annotate. rewrite !In_keys_set. tauto.
  - intros ->. unfold process_text. rewrite Ht, Hp. reflexivity.
  - apply stamp_length.
  - intros dt Hnow Hdt. now apply stamp_tells_the_second.
Qed.

Lemma annotation_sets_two_keys_witness :
  (exists d',
     fst (process_text ticking_env (fun _ _ => Ret example_reply)
            [Field "full_name" "Full name" "Full Name"] 2 1
            (UploadedFile "cv.pdf" "%PDF") (Some "Jane Doe") [])
     = Ret ([] ++ [PyDict d'])%list
     /\ Dict.get "file_name" d' = Some (PyStr "cv.pdf")
     /\ Dict.get "processed_date" d' = Some (PyStr "2025-03-09 14:05:08")
     /\ Dict.get "full_name" d' = Some (PyStr "Jane Doe"))
  /\ strftime_Ymd_HMS (datetime_now ticking_env 0) = "2025-03-09 14:05:07"
  /\ strftime_Ymd_HMS (datetime_now ticking_env 0)
     <> strftime_Ymd_HMS (datetime_now ticking_env 1)
  /\ strftime_Ymd_HMS (Datetime 2025 3 9 14 5 8 900)
     = strftime_Ymd_HMS (datetime_now ticking_env 1).
Proof.
  destruct (@annotation_sets_two_keys ticking_env (fun _ _ => Ret example_reply)
              [Field "full_name" "Full name" "Full Name"] 2 1
              (UploadedFile "cv.pdf" "%PDF") "Jane Doe" []
              [("full_name", PyStr "Jane Doe"); ("file_name", PyStr "guess.pdf")]
              eq_refl eq_refl)
    as [Hset [_ [_ Hstamp]]].
  destruct (Hset ltac:(discriminate)) as [d' [H1 [H2 [H3 [H4 _]]]]].
  assert (R0 : clock_reading (datetime_now ticking_env 0))
    by (cbv; repeat split; lia).
  assert (R1 : clock_reading (datetime_now ticking_env 1))
    by (cbv; repeat split; lia).
  assert (R2 : clock_reading (Datetime 2025 3 9 14 5 8 900))
    by (unfold clock_reading; cbn; repeat split; lia).
  split; [|split; [reflexivity|split]].
  - exists d'. repeat split; try assumption.
    + now rewrite H1.
    + rewrite H4 by discriminate. reflexivity.
  - intros Heq. apply (proj1 (Hstamp _ R1 R0)) in Heq.
    destruct Heq as [_ [_ [_ [_ [_ Hs]]]]]. discriminate Hs.
  - apply (proj2 (Hstamp _ R1 R2)). repeat split.
Defined.

(** C10 as stated fails: the reply [{}] is parsed, to the empty
    mapping, and the loop takes it for a failure: no key is set,
    nothing is appended, and the document is reported as failed. *)
Lemma empty_mapping_is_not_annotated :
  fst (parse_resume_with_gemma example_env (fun _ => Ret "{}") "Jane Doe"
         [Field "full_name" "Full name" "Full Name"])
  = Ret (PyDict [])
  /\ process_text example_env (fun _ _ => Ret "{}")
       [Field "full_name" "Full name" "Full Name"] 1 0
       (UploadedFile "cv.pdf" "%PDF") (Some "Jane Doe") []
     = (Ret [],
        [st_error "❌ Failed to process: cv.pdf";
         st_progress 1 1; time_sleep_half])
  /\ fst (process_uploaded_files example_env (fun _ _ => Ret "{}")
            [UploadedFile "cv.pdf" "%PDF"]
            [Field "full_name" "Full name" "Full Name"])
     = Ret [].
Proof. repeat split. Qed.
